(** * Steam Games Analytics: the ETL transform, the dashboard filter and the
      pipeline driver, embedded from
      [src/etl_dashboard/src/transform.py], [src/etl_dashboard/src/dashboard.py]
      and [src/etl_dashboard/run_pipeline.py].

    Conventions of the embedding.
    - A pandas DataFrame is the list of its rows, in row order; a Series is the
      list of its cells aligned with those rows.  The frames of this program
      carry the columns of the Steam dataset, so a row is a record with one
      field per column.
    - A missing cell (NaN, None, NaT) is [None].
    - Integer columns hold [Z]; the sum of two int64 columns wraps around at
      64 bits.  Float columns hold exact rationals [Q]; the one column
      computed with a logarithm, [quality_score], holds a real.  Rounding of
      binary floating point is not modelled.
    - The dtype of a column is not part of its cells.  Where the result of
      the program depends on it, it is given beside the rows: the dtype of
      [owners], which decides what the metrics do on a frame without rows,
      and the dtype of the three columns read off [release_date], which
      tells a table from the same rows held as floating point numbers.
    - Text is [string] read as ASCII.
    - Code that can raise returns a [result]. *)

From Stdlib Require Import ZArith QArith Qround Qreals Reals List String Ascii
  Bool.
From Stdlib Require Import Lia Lqa Lra Decimal DecimalString DecimalPos DecimalN.
Import ListNotations.

Open Scope string_scope.
Open Scope Z_scope.

(** ** Python primitives used by the program *)

Module Py.

(** Exceptions the program raises or catches by name. *)
Inductive exn : Set :=
| ValueError
| AttributeError
| KeyError
| ZeroDivisionError
| FileNotFoundError
| TypeError
| OverflowError
| StreamlitAPIException.

Inductive result (A : Type) : Type :=
| Ok (a : A)
| Raise (e : exn).
Arguments Ok {A} a.
Arguments Raise {A} e.

Definition bind {A B} (m : result A) (k : A -> result B) : result B :=
  match m with
  | Ok a => k a
  | Raise e => Raise e
  end.

(** [try: body except (caught): handler] *)
Definition try_except {A} (body : result A) (caught : exn -> bool)
  (handler : result A) : result A :=
  match body with
  | Ok a => Ok a
  | Raise e => if caught e then handler else Raise e
  end.

(** [str.isspace] on the ASCII range: TAB, LF, VT, FF, CR, FS, GS, RS, US and
    the space. *)
Definition isspace (c : ascii) : bool :=
  let n := Z.of_nat (nat_of_ascii c) in
  ((9 <=? n) && (n <=? 13)) || ((28 <=? n) && (n <=? 32)).

Fixpoint lstrip (s : string) : string :=
  match s with
  | EmptyString => EmptyString
  | String c s' => if isspace c then lstrip s' else s
  end.

Fixpoint rstrip (s : string) : string :=
  match s with
  | EmptyString => EmptyString
  | String c s' =>
      match rstrip s' with
      | EmptyString => if isspace c then EmptyString else String c EmptyString
      | r => String c r
      end
  end.

(** [s.strip()] *)
Definition strip (s : string) : string := rstrip (lstrip s).

(** [sub in s] for strings, also the test behind [Series.str.contains] when
    the pattern has no regular-expression metacharacter. *)
Fixpoint contains (sub s : string) : bool :=
  String.prefix sub s ||
  match s with
  | EmptyString => false
  | String _ s' => contains sub s'
  end.

(** [s.split(sep)] for a one-character separator: never the empty list. *)
Fixpoint split (sep : ascii) (s : string) : list string :=
  match s with
  | EmptyString => [EmptyString]
  | String c s' =>
      if Ascii.eqb c sep then EmptyString :: split sep s'
      else match split sep s' with
           | h :: t => String c h :: t
           | [] => [String c EmptyString]
           end
  end.

(** [s.replace(c, '')] for a one-character [c]. *)
Fixpoint remove_char (c : ascii) (s : string) : string :=
  match s with
  | EmptyString => EmptyString
  | String a s' =>
      if Ascii.eqb a c then remove_char c s' else String a (remove_char c s')
  end.

Definition digit_value (c : ascii) : option Z :=
  let n := Z.of_nat (nat_of_ascii c) in
  if (48 <=? n) && (n <=? 57) then Some (n - 48) else None.

(** The digit part of an integer literal accepted by [int(str)]: decimal
    digits, with single underscores allowed between two digits.
    [after_digit] tells whether the previous character was a digit. *)
Fixpoint int_digits (s : string) (acc : Z) (after_digit : bool) : option Z :=
  match s with
  | EmptyString => if after_digit then Some acc else None
  | String c s' =>
      match digit_value c with
      | Some d => int_digits s' (10 * acc + d) true
      | None =>
          if Ascii.eqb c "_" && after_digit then int_digits s' acc false
          else None
      end
  end.

(** Whitespace for [int(str)] on ASCII text: TAB, LF, VT, FF, CR and the
    space.  The separators FS, GS, RS and US, which [str.strip] removes, are
    not among them. *)
Definition c_isspace (c : ascii) : bool :=
  let n := Z.of_nat (nat_of_ascii c) in
  ((9 <=? n) && (n <=? 13)) || (n =? 32).

Fixpoint lstrip_by (space : ascii -> bool) (s : string) : string :=
  match s with
  | EmptyString => EmptyString
  | String c s' => if space c then lstrip_by space s' else s
  end.

Fixpoint rstrip_by (space : ascii -> bool) (s : string) : string :=
  match s with
  | EmptyString => EmptyString
  | String c s' =>
      match rstrip_by space s' with
      | EmptyString => if space c then EmptyString else String c EmptyString
      | r => String c r
      end
  end.

(** [sys.int_info.default_max_str_digits]: the longest decimal literal that
    [int(str)] converts. *)
Definition max_str_digits : Z := 4300.

(** The number of digits of a literal, underscores left out. *)
Fixpoint count_digits (s : string) : Z :=
  match s with
  | EmptyString => 0
  | String c s' =>
      match digit_value c with
      | Some _ => 1 + count_digits s'
      | None => count_digits s'
      end
  end.

(** [int(s)] in base ten: surrounding whitespace is dropped, one sign is
    allowed, anything else raises [ValueError], and so does a literal of
    more than [max_str_digits] digits.  Digits outside ASCII are outside
    the model. *)
Definition int (s : string) : result Z :=
  let t := rstrip_by c_isspace (lstrip_by c_isspace s) in
  let '(sign, body) :=
    match t with
    | String c r =>
        if Ascii.eqb c "-" then (-1, r)
        else if Ascii.eqb c "+" then (1, r)
        else (1, t)
    | EmptyString => (1, t)
    end in
  match int_digits body 0 false with
  | Some n =>
      if max_str_digits <? count_digits body then Raise ValueError
      else Ok (sign * n)
  | None => Raise ValueError
  end.

(** The conversion of a Python integer to a float, as in the product of an
    integer by a float: an integer that rounds to 2^1024 or beyond is too
    large.  Below, the float is the integer itself, rounding left out. *)
Definition float_overflow : Z := 2 ^ 1024 - 2 ^ 970.

Definition float_of_int (n : Z) : result Q :=
  if float_overflow <=? Z.abs n then Raise OverflowError
  else Ok (inject_Z n).

End Py.

Notation "x <- m ;; k" := (Py.bind m (fun x => k))
  (at level 61, m at next level, right associativity).

(** ** pandas primitives used by the program *)

Module Pd.

(** [df[mask]]: the rows whose mask cell is [True], in order. *)
Fixpoint loc {A} (df : list A) (mask : list bool) : list A :=
  match df, mask with
  | r :: df', b :: mask' => if b then r :: loc df' mask' else loc df' mask'
  | _, _ => []
  end.

(** Element-wise [&], [|] and [~] of boolean Series. *)
Fixpoint and_ (m1 m2 : list bool) : list bool :=
  match m1, m2 with
  | a :: m1', b :: m2' => (a && b) :: and_ m1' m2'
  | _, _ => []
  end.

Fixpoint or_ (m1 m2 : list bool) : list bool :=
  match m1, m2 with
  | a :: m1', b :: m2' => (a || b) :: or_ m1' m2'
  | _, _ => []
  end.

Definition not_ (m : list bool) : list bool := map negb m.

(** [Series.duplicated(keep='first')] on an integer key: a cell is marked
    when its key was met before. *)
Fixpoint duplicated_from (seen : list Z) (keys : list Z) : list bool :=
  match keys with
  | [] => []
  | k :: keys' =>
      if existsb (Z.eqb k) seen then true :: duplicated_from seen keys'
      else false :: duplicated_from (k :: seen) keys'
  end.

Definition duplicated (keys : list Z) : list bool := duplicated_from [] keys.

(** [Series.fillna(value)] on one cell. *)
Definition fillna {A} (value : A) (c : option A) : option A :=
  match c with
  | Some v => Some v
  | None => Some value
  end.

(** [astype(str)] on one cell of an object column: NaN prints as [nan]. *)
Definition astype_str (c : option string) : string :=
  match c with
  | Some s => s
  | None => "nan"
  end.

(** [Series.replace('nan', np.nan)] on one cell. *)
Definition replace_nan (s : string) : option string :=
  if String.eqb s "nan" then None else Some s.

(** A bin edge of [pd.cut]: a finite number or [float('inf')]. *)
Inductive edge : Set :=
| Fin (q : Q)
| Inf.

Definition Qltb (x y : Q) : bool := negb (Qle_bool y x).

Definition edge_ltb (e : edge) (x : Q) : bool :=
  match e with
  | Fin b => Qltb b x
  | Inf => false
  end.

Definition edge_eqb (e : edge) (x : Q) : bool :=
  match e with
  | Fin b => Qeq_bool b x
  | Inf => false
  end.

(** [bins.searchsorted(x, side='left')] on increasing [bins]: the number of
    edges strictly below [x]. *)
Fixpoint searchsorted_left (bins : list edge) (x : Q) : nat :=
  match bins with
  | [] => O
  | e :: bins' => if edge_ltb e x then S (searchsorted_left bins' x) else O
  end.

(** [pd.cut(x, bins, labels, include_lowest=True)] on one finite cell, with
    the default [right=True]: the intervals are closed on the right, the
    first one also on the left, and a value outside every interval is
    missing. *)
Definition cut (bins : list edge) (labels : list string) (x : Q)
  : option string :=
  let ids := searchsorted_left bins x in
  let ids := match bins with
             | e :: _ => if edge_eqb e x then 1%nat else ids
             | [] => ids
             end in
  if Nat.eqb ids 0 || Nat.eqb ids (List.length bins) then None
  else nth_error labels (ids - 1).

(** [Series.max()]: missing cells are skipped; missing on no value. *)
Fixpoint max (col : list (option Z)) : option Z :=
  match col with
  | [] => None
  | None :: col' => max col'
  | Some v :: col' =>
      match max col' with
      | Some m => Some (Z.max v m)
      | None => Some v
      end
  end.

End Pd.

(** ** The data model: one row of the games table *)

(** A parsed [release_date]; only the calendar date is read by the program. *)
Record Timestamp : Set := mkTimestamp {
  ts_year : Z;
  ts_month : Z;
  ts_day : Z
}.

(** A cell of the [release_date] column: text as read from the file, a
    Timestamp once converted, or NaT. *)
Inductive date_cell : Set :=
| DateText (s : string)
| DateTime (t : Timestamp)
| NaT.

(** The columns of the input file. *)
Record RawColumns : Set := mkRaw {
  appid : Z;
  name : option string;
  release_date : date_cell;
  english : option Z;
  developer : option string;
  publisher : option string;
  platforms : option string;
  required_age : option Z;
  categories : option string;
  genres : option string;
  steamspy_tags : option string;
  achievements : option Z;
  positive_ratings : option Z;
  negative_ratings : option Z;
  average_playtime : option Z;
  median_playtime : option Z;
  owners : option string;
  price : option Q
}.

(** The columns assigned by [transform_dates]. *)
Record DateColumns : Set := mkDates {
  release_year : option Z;
  release_month : option Z;
  release_quarter : option Z
}.

(** The columns assigned by [create_calculated_metrics]. *)
Record MetricColumns : Type := mkMetrics {
  total_ratings : option Z;
  positive_percentage : Q;
  estimated_owners : Z;
  estimated_revenue : option Q;
  price_category : option string;
  popularity_tier : option string;
  quality_score : option R;
  years_since_release : option Z
}.

(** The columns assigned by [process_categorical_data]. *)
Record CategoricalColumns : Set := mkCategorical {
  primary_genre : string;
  platform_count : Z;
  has_windows : bool;
  has_mac : bool;
  has_linux : bool;
  is_multiplatform : bool;
  is_multiplayer : bool;
  is_singleplayer : bool;
  has_achievements : bool;
  is_free : bool
}.

(** A row of the table, its columns grouped by the stage that assigns them.
    A stage that assigns a column creates it when the frame does not have it
    yet and overwrites it otherwise, so the record carries every column and
    no stage reads a derived column before the chain has assigned it. *)
Record GameRecord : Type := mkGame {
  raw : RawColumns;
  dates : DateColumns;
  metrics : MetricColumns;
  categorical : CategoricalColumns
}.

Definition DataFrame : Type := list GameRecord.

(** Comparisons of a possibly missing number with a number: a comparison
    with NaN is [False]. *)
Definition ge_cell (c : option Z) (n : Z) : bool :=
  match c with
  | Some v => n <=? v
  | None => false
  end.

Definition le_cell (c : option Z) (n : Z) : bool :=
  match c with
  | Some v => v <=? n
  | None => false
  end.

Definition gt_cell (c : option Z) (n : Z) : bool :=
  match c with
  | Some v => n <? v
  | None => false
  end.

(** A 64-bit signed integer read off an integer: numpy's arithmetic on
    int64 columns wraps around without a warning. *)
Definition wrap_int64 (z : Z) : Z :=
  (z + 9223372036854775808) mod 18446744073709551616 - 9223372036854775808.

(** The sum of two cells of int64 columns: NaN propagates, and the sum of
    two numbers wraps around at 64 bits. *)
Definition add_cell (a b : option Z) : option Z :=
  match a, b with
  | Some x, Some y => Some (wrap_int64 (x + y))
  | _, _ => None
  end.

(** ** transform.py *)

Module Transform.

Import Py.

(** The dtypes that matter to the program. *)
Inductive dtype : Set :=
| object_dtype
| str_dtype
| int32_dtype
| float64_dtype.

(** [pandas.to_datetime(column, errors='coerce')] is library code and a
    parameter of the transform.  What the program relies on: the result is
    aligned with the column, and a column that already holds datetimes is
    returned as it is. *)
Definition already_datetime (c : date_cell) : option Timestamp :=
  match c with
  | DateTime t => Some t
  | _ => None
  end.

Definition is_text (c : date_cell) : bool :=
  match c with
  | DateText _ => true
  | _ => false
  end.

Record DateReader : Type := mkDateReader {
  to_datetime : list date_cell -> list (option Timestamp);
  to_datetime_aligned :
    forall col, List.length (to_datetime col) = List.length col;
  to_datetime_datetime64 :
    forall col, forallb (fun c => negb (is_text c)) col = true ->
                to_datetime col = map already_datetime col
}.

(** [SteamDataTransformer.__init__] *)
Record SteamDataTransformer : Set := mkTransformer {
  min_year : Z;
  min_price : Q
}.

(** config.py *)
Definition MIN_YEAR : Z := 2010.
Definition MIN_PRICE : Q := 0.

(** [_parse_owners_range], the part inside [try]. *)
Definition parse_owners_body (owners_str : string) : result Z :=
  let clean_str := strip owners_str in
  if contains "-" clean_str then
    match split "-" clean_str with
    | [min_val; max_val] =>
        min_val <- int (remove_char "," min_val) ;;
        max_val <- int (remove_char "," max_val) ;;
        Ok ((min_val + max_val) / 2)
    | _ => Raise ValueError  (* unpacking into two names *)
    end
  else int (remove_char "," clean_str).

Definition _parse_owners_range (owners_str : option string) : result Z :=
  match owners_str with
  | None => Ok 0
  | Some s =>
      if String.eqb s "Unknown" then Ok 0
      else try_except (parse_owners_body s)
             (fun e => match e with
                       | ValueError | AttributeError => true
                       | _ => false
                       end)
             (Ok 0)
  end.

(** [_handle_missing_values]: the per-column defaults of [fill_values]. *)
Definition fill_values (x : RawColumns) : RawColumns :=
  {| appid := appid x;
     name := name x;
     release_date := release_date x;
     english := Pd.fillna 0 (english x);
     developer := Pd.fillna "Unknown" (developer x);
     publisher := Pd.fillna "Unknown" (publisher x);
     platforms := Pd.fillna "windows" (platforms x);
     required_age := Pd.fillna 0 (required_age x);
     categories := Pd.fillna "Unknown" (categories x);
     genres := Pd.fillna "Unknown" (genres x);
     steamspy_tags := Pd.fillna "Unknown" (steamspy_tags x);
     achievements := Pd.fillna 0 (achievements x);
     positive_ratings := Pd.fillna 0 (positive_ratings x);
     negative_ratings := Pd.fillna 0 (negative_ratings x);
     average_playtime := Pd.fillna 0 (average_playtime x);
     median_playtime := Pd.fillna 0 (median_playtime x);
     owners := owners x;
     price := Pd.fillna 0%Q (price x) |}.

Definition with_raw (r : GameRecord) (x : RawColumns) : GameRecord :=
  {| raw := x; dates := dates r; metrics := metrics r;
     categorical := categorical r |}.

Definition _handle_missing_values (df : DataFrame) : DataFrame :=
  map (fun r => with_raw r (fill_values (raw r))) df.

(** [df[col].astype(str).str.strip()] followed by [replace('nan', np.nan)]. *)
Definition clean_text (c : option string) : option string :=
  Pd.replace_nan (strip (Pd.astype_str c)).

(** The loop over [string_columns]. *)
Definition clean_strings (x : RawColumns) : RawColumns :=
  {| appid := appid x;
     name := clean_text (name x);
     release_date := release_date x;
     english := english x;
     developer := clean_text (developer x);
     publisher := clean_text (publisher x);
     platforms := platforms x;
     required_age := required_age x;
     categories := clean_text (categories x);
     genres := clean_text (genres x);
     steamspy_tags := clean_text (steamspy_tags x);
     achievements := achievements x;
     positive_ratings := positive_ratings x;
     negative_ratings := negative_ratings x;
     average_playtime := average_playtime x;
     median_playtime := median_playtime x;
     owners := owners x;
     price := price x |}.

(** [df.drop_duplicates(subset=['appid'], keep='first')] *)
Definition drop_duplicates (df : DataFrame) : DataFrame :=
  Pd.loc df (Pd.not_ (Pd.duplicated (map (fun r => appid (raw r)) df))).

Definition clean_basic_data (df : DataFrame) : DataFrame :=
  let df_clean := drop_duplicates df in
  let df_clean := _handle_missing_values df_clean in
  map (fun r => with_raw r (clean_strings (raw r))) df_clean.

(** The row with its [release_date] replaced by the converted cell. *)
Definition with_release_date (x : RawColumns) (d : date_cell) : RawColumns :=
  {| appid := appid x;
     name := name x;
     release_date := d;
     english := english x;
     developer := developer x;
     publisher := publisher x;
     platforms := platforms x;
     required_age := required_age x;
     categories := categories x;
     genres := genres x;
     steamspy_tags := steamspy_tags x;
     achievements := achievements x;
     positive_ratings := positive_ratings x;
     negative_ratings := negative_ratings x;
     average_playtime := average_playtime x;
     median_playtime := median_playtime x;
     owners := owners x;
     price := price x |}.

Definition quarter (t : Timestamp) : Z := (ts_month t - 1) / 3 + 1.

(** The cells that [transform_dates] assigns to one row.  The dtype of the
    year, the month and the quarter belongs to the columns, not to their
    cells: it is [transform_dates_dtype] below. *)
Definition assign_date (r : GameRecord) (c : option Timestamp) : GameRecord :=
  {| raw := with_release_date (raw r)
              match c with Some t => DateTime t | None => NaT end;
     dates := {| release_year := option_map ts_year c;
                 release_month := option_map ts_month c;
                 release_quarter := option_map quarter c |};
     metrics := metrics r;
     categorical := categorical r |}.

Fixpoint assign_dates (df : DataFrame) (col : list (option Timestamp))
  : DataFrame :=
  match df, col with
  | r :: df', c :: col' => assign_date r c :: assign_dates df' col'
  | _, _ => []
  end.

Definition transform_dates (pd : DateReader) (self : SteamDataTransformer)
  (df : DataFrame) : DataFrame :=
  let df_transformed :=
    assign_dates df (to_datetime pd (map (fun r => release_date (raw r)) df)) in
  Pd.loc df_transformed
    (map (fun r => ge_cell (release_year (dates r)) (min_year self))
         df_transformed).

(** The dtype that [.dt.year], [.dt.month] and [.dt.quarter] give the three
    columns of [transform_dates]: int32, and float64 as soon as a date of
    the column is NaT.  The filter on the year keeps the dtype. *)
Definition dt_accessor_dtype (col : list (option Timestamp)) : dtype :=
  if forallb (fun c => match c with Some _ => true | None => false end) col
  then int32_dtype
  else float64_dtype.

Definition transform_dates_dtype (pd : DateReader) (df : DataFrame) : dtype :=
  dt_accessor_dtype (to_datetime pd (map (fun r => release_date (raw r)) df)).

(** [np.where(total_ratings > 0, positive_ratings / total_ratings * 100, 0)]
    on one row. *)
Definition positive_percentage_of (positive total : option Z) : Q :=
  match positive, total with
  | Some p, Some t => if 0 <? t then (inject_Z p / inject_Z t) * 100 else 0
  | _, _ => 0
  end%Q.

Definition price_bins : list Pd.edge :=
  [Pd.Fin 0; Pd.Fin 5; Pd.Fin 15; Pd.Fin 30; Pd.Fin 60; Pd.Inf].
Definition price_labels : list string :=
  ["Free/Cheap"; "Budget"; "Standard"; "Premium"; "AAA"].

Definition owners_bins : list Pd.edge :=
  [Pd.Fin 0; Pd.Fin 50000; Pd.Fin 500000; Pd.Fin 2000000; Pd.Fin 10000000;
   Pd.Inf].
Definition owners_labels : list string :=
  ["Niche"; "Indie"; "Popular"; "Hit"; "Blockbuster"].

Definition cut_cell (bins : list Pd.edge) (labels : list string)
  (c : option Q) : option string :=
  match c with
  | Some x => Pd.cut bins labels x
  | None => None
  end.

(** [np.log1p(average_playtime) / np.log1p(average_playtime.max())] on one
    row.  [None] stands for a result that is not a finite number: a missing
    operand, the logarithm of a value at or below -1, or the division by
    [log1p(0) = 0]. *)
Definition log1p_ratio (playtime max_playtime : option Z) : option R :=
  match playtime, max_playtime with
  | Some a, Some m =>
      if (0 <=? a) && (0 <? m)
      then Some (ln (1 + IZR a) / ln (1 + IZR m))%R
      else None
  | _, _ => None
  end.

Definition quality_score_of (pct : Q) (playtime max_playtime : option Z)
  : option R :=
  option_map
    (fun ratio => ((Q2R pct / 100) * 0.7 + ratio * 0.3) * 100)%R
    (log1p_ratio playtime max_playtime).

(** The assignments of [create_calculated_metrics] on one row;
    [current_year] is [datetime.now().year] and [max_playtime] is
    [df_metrics['average_playtime'].max()].  The number of owners is a
    Python integer of any size, and it is turned into a float for the
    product with the price. *)
Definition assign_metrics (current_year : Z) (max_playtime : option Z)
  (r : GameRecord) : result GameRecord :=
  let x := raw r in
  let total := add_cell (positive_ratings x) (negative_ratings x) in
  let pct := positive_percentage_of (positive_ratings x) total in
  est <- _parse_owners_range (owners x) ;;
  est_float <- float_of_int est ;;
  Ok {| raw := x;
        dates := dates r;
        metrics :=
          {| total_ratings := total;
             positive_percentage := pct;
             estimated_owners := est;
             estimated_revenue :=
               option_map (fun p => est_float * p)%Q (price x);
             price_category := cut_cell price_bins price_labels (price x);
             popularity_tier :=
               Pd.cut owners_bins owners_labels (inject_Z est);
             quality_score :=
               quality_score_of pct (average_playtime x) max_playtime;
             years_since_release :=
               option_map (fun y => current_year - y)
                          (release_year (dates r)) |};
        categorical := categorical r |}.

(** Row by row, stopping at the first row that raises. *)
Fixpoint apply_rows {A B} (f : A -> result B) (l : list A) : result (list B) :=
  match l with
  | [] => Ok []
  | a :: l' => b <- f a ;; bs <- apply_rows f l' ;; Ok (b :: bs)
  end.

(** [owners_dtype] is the dtype of the [owners] column of [df].  On a frame
    without rows [Series.apply] calls nothing and hands the column back with
    its dtype, and a column of dtype [str] cannot be multiplied by the
    price: the stage raises [TypeError].  A frame with rows gets a column of
    integers, whatever the dtype of [owners]. *)
Definition create_calculated_metrics (current_year : Z) (owners_dtype : dtype)
  (df : DataFrame) : result DataFrame :=
  match df with
  | [] =>
      match owners_dtype with
      | str_dtype => Raise TypeError
      | _ => Ok []
      end
  | _ :: _ =>
      apply_rows
        (assign_metrics current_year
           (Pd.max (map (fun r => average_playtime (raw r)) df)))
        df
  end.

Definition str_contains (pat : string) (c : option string) : bool :=
  match c with
  | Some x => contains pat x
  | None => false   (* na=False *)
  end.

(** The assignments of [process_categorical_data] on one row. *)
Definition assign_categorical (r : GameRecord) : GameRecord :=
  let x := raw r in
  let platform_count :=
    match platforms x with
    | Some p => Z.of_nat (List.length (split ";" p))
    | None => 1
    end in
  {| raw := x;
     dates := dates r;
     metrics := metrics r;
     categorical :=
       {| primary_genre :=
            match genres x with
            | Some g => hd EmptyString (split ";" g)
            | None => "Unknown"
            end;
          platform_count := platform_count;
          has_windows := str_contains "windows" (platforms x);
          has_mac := str_contains "mac" (platforms x);
          has_linux := str_contains "linux" (platforms x);
          is_multiplatform := 1 <? platform_count;
          is_multiplayer := str_contains "Multi-player" (categories x);
          is_singleplayer := str_contains "Single-player" (categories x);
          has_achievements := gt_cell (achievements x) 0;
          is_free := match price x with
                     | Some p => Qeq_bool p 0
                     | None => false
                     end |} |}.

Definition process_categorical_data (df : DataFrame) : DataFrame :=
  map assign_categorical df.

Definition notna {A} (c : option A) : bool :=
  match c with
  | Some _ => true
  | None => false
  end.

(** [column != text]: a missing cell differs from every text. *)
Definition ne_text (c : option string) (s : string) : bool :=
  match c with
  | Some x => negb (String.eqb x s)
  | None => true
  end.

Definition apply_business_rules (df : DataFrame) : DataFrame :=
  Pd.loc df
    (Pd.and_
       (Pd.and_
          (Pd.and_ (map (fun r => notna (name (raw r))) df)
                   (map (fun r => ne_text (name (raw r)) "Unknown") df))
          (map (fun r => ne_text (name (raw r)) "") df))
       (map (fun r => ge_cell (total_ratings (metrics r)) 10) df)).

(** [get_transformation_summary], the entries computed from the two row
    counts.  The others read column lists and missing-value counts and
    cannot raise. *)
Record Summary : Set := mkSummary {
  original_records : Z;
  final_records : Z;
  records_removed : Z;
  removal_percentage : Q
}.

Definition len {A} (l : list A) : Z := Z.of_nat (List.length l).

Definition get_transformation_summary (df_original df_final : DataFrame)
  : result Summary :=
  if len df_original =? 0 then Raise ZeroDivisionError
  else Ok {| original_records := len df_original;
             final_records := len df_final;
             records_removed := len df_original - len df_final;
             removal_percentage :=
               (inject_Z (len df_original - len df_final)
                / inject_Z (len df_original) * 100)%Q |}.

(** The five stages in the order in which [run_transform] and [main] apply
    them.  No stage before the metrics touches the [owners] column, which
    keeps the dtype [owners_dtype] it has in [df_raw]. *)
Definition transform_chain (pd : DateReader) (current_year : Z)
  (self : SteamDataTransformer) (owners_dtype : dtype) (df_raw : DataFrame)
  : result DataFrame :=
  let df_clean := clean_basic_data df_raw in
  let df_dates := transform_dates pd self df_clean in
  df_metrics <- create_calculated_metrics current_year owners_dtype df_dates ;;
  let df_categorical := process_categorical_data df_metrics in
  Ok (apply_business_rules df_categorical).

End Transform.

(** ** dashboard.py *)

Module Dashboard.

(** The dictionary returned by [create_sidebar_filters], one field per key
    ([year_range], [genre], [price_category], [platforms], [min_rating]). *)
Record Filters : Set := mkFilters {
  filter_year_range : Z * Z;
  filter_genre : string;
  filter_price_category : string;
  filter_platforms : list string;
  filter_min_rating : Z
}.

(** [text in list_of_texts] *)
Definition In_list (s : string) (l : list string) : bool :=
  existsb (String.eqb s) l.

(** [column == text]: a missing cell equals no text. *)
Definition eq_text (c : option string) (s : string) : bool :=
  match c with
  | Some x => String.eqb x s
  | None => false
  end.

Definition platform_filters (filters : Filters) (filtered_df : DataFrame)
  : list (list bool) :=
  (if In_list "Windows" (filter_platforms filters)
   then [map (fun r => Bool.eqb (has_windows (categorical r)) true) filtered_df]
   else []) ++
  (if In_list "Mac" (filter_platforms filters)
   then [map (fun r => Bool.eqb (has_mac (categorical r)) true) filtered_df]
   else []) ++
  (if In_list "Linux" (filter_platforms filters)
   then [map (fun r => Bool.eqb (has_linux (categorical r)) true) filtered_df]
   else []).

Definition apply_filters (df : DataFrame) (filters : Filters) : DataFrame :=
  let filtered_df := df in
  (* year *)
  let filtered_df :=
    Pd.loc filtered_df
      (Pd.and_
         (map (fun r => ge_cell (release_year (dates r))
                                (fst (filter_year_range filters))) filtered_df)
         (map (fun r => le_cell (release_year (dates r))
                                (snd (filter_year_range filters))) filtered_df))
  in
  (* genre *)
  let filtered_df :=
    if negb (String.eqb (filter_genre filters) "Todos")
    then Pd.loc filtered_df
           (map (fun r => String.eqb (primary_genre (categorical r))
                                     (filter_genre filters)) filtered_df)
    else filtered_df in
  (* price category *)
  let filtered_df :=
    if negb (String.eqb (filter_price_category filters) "Todas")
    then Pd.loc filtered_df
           (map (fun r => eq_text (price_category (metrics r))
                                  (filter_price_category filters)) filtered_df)
    else filtered_df in
  (* platforms *)
  let filtered_df :=
    match platform_filters filters filtered_df with
    | platform_filter :: rest =>
        Pd.loc filtered_df (fold_left Pd.or_ rest platform_filter)
    | [] => filtered_df
    end in
  (* rating *)
  Pd.loc filtered_df
    (map (fun r => Qle_bool (inject_Z (filter_min_rating filters))
                            (positive_percentage (metrics r))) filtered_df).

End Dashboard.

(** ** run_pipeline.py *)

Module Pipeline.

Import Py.

(** What the run meets outside the program: the input file as the extractor
    reads it, with the dtype [read_csv] gives its [owners] column ([str] for
    a column of text, [object] for a file that holds a header only), the
    statistics pass over the raw frame, the three writers of the loader
    (each catches its own failures and answers with a boolean), the date
    reader of pandas and the clock. *)
Record World : Type := mkWorld {
  extract_csv_data : result DataFrame;
  owners_dtype : Transform.dtype;
  get_data_info : DataFrame -> result unit;
  save_to_csv : DataFrame -> bool;
  save_to_excel : DataFrame -> bool;
  save_to_database : DataFrame -> bool;
  dates_reader : Transform.DateReader;
  now_year : Z
}.

Record LoadStats : Set := mkLoadStats {
  formats_saved : Z;
  total_formats : Z
}.

(** [self.execution_stats]: the entry of a stage is set once the stage has
    returned. *)
Record ExecutionStats : Set := mkStats {
  stats_extract : option Z;          (* records_extracted *)
  stats_transform : option (Z * Z);  (* records_input, records_output *)
  stats_load : option LoadStats
}.

Inductive log_record : Set :=
| WARNING (msg : string)
| ERROR (msg : string).

(** State threaded through a run: the statistics and the warnings and
    errors logged by [run_pipeline]. *)
Record State : Set := mkState {
  execution_stats : ExecutionStats;
  log : list log_record
}.

Definition initial : State :=
  {| execution_stats := {| stats_extract := None; stats_transform := None;
                           stats_load := None |};
     log := [] |}.

(** [run_extract] and [run_transform] log an exception and raise it
    again. *)
Definition run_extract (w : World) : result DataFrame :=
  df_raw <- extract_csv_data w ;;
  _ <- get_data_info w df_raw ;;
  Ok df_raw.

Definition run_transform (w : World) (df_raw : DataFrame)
  : result (DataFrame * (Z * Z)) :=
  let transformer :=
    Transform.mkTransformer Transform.MIN_YEAR Transform.MIN_PRICE in
  df_final <-
    Transform.transform_chain (dates_reader w) (now_year w) transformer
      (owners_dtype w) df_raw ;;
  _ <- Transform.get_transformation_summary df_raw df_final ;;
  Ok (df_final, (Transform.len df_raw, Transform.len df_final)).

(** [run_load]: the three writers are tried in turn and their successes
    counted.  [get_database_info] catches its own failures and its figures
    only feed the log. *)
Definition run_load (w : World) (df_processed : DataFrame)
  : result (bool * LoadStats) :=
  let success_count := 0 in
  let success_count :=
    if save_to_csv w df_processed then success_count + 1 else success_count in
  let success_count :=
    if save_to_excel w df_processed then success_count + 1 else success_count in
  let success_count :=
    if save_to_database w df_processed then success_count + 1
    else success_count in
  Ok (success_count =? 3,
      {| formats_saved := success_count; total_formats := 3 |}).

Record Args : Set := mkArgs {
  skip_extract : bool;
  skip_transform : bool;
  skip_load : bool
}.

Definition set_extract (s : State) (n : Z) : State :=
  {| execution_stats :=
       {| stats_extract := Some n;
          stats_transform := stats_transform (execution_stats s);
          stats_load := stats_load (execution_stats s) |};
     log := log s |}.

Definition set_transform (s : State) (n : Z * Z) : State :=
  {| execution_stats :=
       {| stats_extract := stats_extract (execution_stats s);
          stats_transform := Some n;
          stats_load := stats_load (execution_stats s) |};
     log := log s |}.

Definition set_load (s : State) (l : LoadStats) : State :=
  {| execution_stats :=
       {| stats_extract := stats_extract (execution_stats s);
          stats_transform := stats_transform (execution_stats s);
          stats_load := Some l |};
     log := log s |}.

Definition logged (s : State) (r : log_record) : State :=
  {| execution_stats := execution_stats s; log := log s ++ [r] |}.

(** The body of the [try] of [run_pipeline]: the state reached and either
    the value returned or the exception raised.  [_print_pipeline_summary]
    only logs the statistics. *)
Definition pipeline_body (w : World) (a : Args) (s : State)
  : State * result bool :=
  (* EXTRACT *)
  let '(s, df_current) :=
    if negb (skip_extract a) then
      match run_extract w with
      | Ok df => (set_extract s (Transform.len df), Ok (Some df))
      | Raise e => (s, Raise e)
      end
    else (s, Ok None) in
  (* TRANSFORM *)
  let '(s, df_current) :=
    match df_current with
    | Raise e => (s, Raise e)
    | Ok df_current =>
        if negb (skip_transform a) then
          let '(s, df_in) :=
            match df_current with
            | Some df => (s, Ok df)
            | None =>
                (logged s (WARNING "Sem dados para transformar. Executando extracao primeiro..."),
                 run_extract w)
            end in
          match df_in with
          | Raise e => (s, Raise e)
          | Ok df =>
              match run_transform w df with
              | Ok (df', st) => (set_transform s st, Ok (Some df'))
              | Raise e => (s, Raise e)
              end
          end
        else (s, Ok df_current)
    end in
  (* LOAD *)
  match df_current with
  | Raise e => (s, Raise e)
  | Ok df_current =>
      if negb (skip_load a) then
        match df_current with
        | None => (s, Raise ValueError)
        | Some df =>
            match run_load w df with
            | Ok (success, load_stats) =>
                let s := set_load s load_stats in
                let s :=
                  if negb success
                  then logged s (WARNING "Nem todos os formatos foram salvos com sucesso")
                  else s in
                (s, Ok true)
            | Raise e => (s, Raise e)
            end
        end
      else (s, Ok true)
  end.

Definition run_pipeline (w : World) (a : Args) (s : State) : State * bool :=
  match pipeline_body w a s with
  | (s, Ok b) => (s, b)
  | (s, Raise e) => (logged s (ERROR "ERRO NO PIPELINE"), false)
  end.

(** [main]: the exit status of the process.  A keyboard interrupt (status
    130) is outside the model. *)
Definition main (w : World) (a : Args) : State * Z :=
  let '(s, success) := run_pipeline w a initial in
  if success then (s, 0) else (s, 1).

End Pipeline.

(** ** Vocabulary of the statements *)

(** Every character of [s] satisfies [p]. *)
Fixpoint all_chars (p : ascii -> bool) (s : string) : bool :=
  match s with
  | EmptyString => true
  | String c s' => p c && all_chars p s'
  end.

Definition is_not (c : ascii) : ascii -> bool := fun a => negb (Ascii.eqb a c).

Definition is_digit (c : ascii) : bool :=
  match Py.digit_value c with
  | Some _ => true
  | None => false
  end.

(** The decimal writing of a natural number, without sign, separators or
    leading zeros. *)
Definition decimal (n : N) : string := NilEmpty.string_of_uint (N.to_uint n).

(** The business rule in the words of the specification: the name is
    present, is not the placeholder and is not empty, and the row has at
    least ten ratings. *)
Definition name_is_usable (c : option string) : bool :=
  match c with
  | Some n => negb (String.eqb n "Unknown") && negb (String.eqb n "")
  | None => false
  end.

Definition business_rule (r : GameRecord) : bool :=
  name_is_usable (name (raw r)) && ge_cell (total_ratings (metrics r)) 10.

(** The row [r] with [total_ratings] set to [k], all else equal. *)
Definition with_total_ratings (r : GameRecord) (k : Z) : GameRecord :=
  {| raw := raw r;
     dates := dates r;
     metrics :=
       {| total_ratings := Some k;
          positive_percentage := positive_percentage (metrics r);
          estimated_owners := estimated_owners (metrics r);
          estimated_revenue := estimated_revenue (metrics r);
          price_category := price_category (metrics r);
          popularity_tier := popularity_tier (metrics r);
          quality_score := quality_score (metrics r);
          years_since_release := years_since_release (metrics r) |};
     categorical := categorical r |}.

(** The dashboard filters in the words of the specification. *)
Definition year_in_range (f : Dashboard.Filters) (r : GameRecord) : bool :=
  ge_cell (release_year (dates r)) (fst (Dashboard.filter_year_range f))
  && le_cell (release_year (dates r)) (snd (Dashboard.filter_year_range f)).

Definition genre_matches (f : Dashboard.Filters) (r : GameRecord) : bool :=
  String.eqb (Dashboard.filter_genre f) "Todos"
  || String.eqb (primary_genre (categorical r)) (Dashboard.filter_genre f).

Definition price_category_matches (f : Dashboard.Filters) (r : GameRecord)
  : bool :=
  String.eqb (Dashboard.filter_price_category f) "Todas"
  || Dashboard.eq_text (price_category (metrics r))
       (Dashboard.filter_price_category f).

Definition rating_at_least (f : Dashboard.Filters) (r : GameRecord) : bool :=
  Qle_bool (inject_Z (Dashboard.filter_min_rating f))
           (positive_percentage (metrics r)).

(** [r] supports the platform called [p] in the sidebar. *)
Definition supports (r : GameRecord) (p : string) : bool :=
  (String.eqb p "Windows" && has_windows (categorical r))
  || (String.eqb p "Mac" && has_mac (categorical r))
  || (String.eqb p "Linux" && has_linux (categorical r)).

(** The platform filter is active when one of the three platforms of the
    sidebar is selected. *)
Definition platform_filter_active (selected : list string) : bool :=
  Dashboard.In_list "Windows" selected
  || Dashboard.In_list "Mac" selected
  || Dashboard.In_list "Linux" selected.

(** [r] supports any one of the selected platforms. *)
Definition supports_any (selected : list string) (r : GameRecord) : bool :=
  existsb (supports r) selected.

Definition platform_matches (f : Dashboard.Filters) (r : GameRecord) : bool :=
  if platform_filter_active (Dashboard.filter_platforms f)
  then supports_any (Dashboard.filter_platforms f) r
  else true.

Definition passes_filters (f : Dashboard.Filters) (r : GameRecord) : bool :=
  year_in_range f r && genre_matches f r && price_category_matches f r
  && platform_matches f r && rating_at_least f r.

(** A date reader to run the transform on concrete tables: it reads the
    ISO-8601 calendar dates [YYYY-MM-DD] of the Steam dataset, cell by cell,
    and turns every other text into NaT. *)
Definition leap_year (y : Z) : bool :=
  ((y mod 4 =? 0) && negb (y mod 100 =? 0)) || (y mod 400 =? 0).

Definition days_in_month (y m : Z) : Z :=
  if m =? 2 then (if leap_year y then 29 else 28)
  else if (m =? 4) || (m =? 6) || (m =? 9) || (m =? 11) then 30
  else 31.

Definition fixed_digits (n : nat) (s : string) : option Z :=
  if Nat.eqb (String.length s) n && all_chars is_digit s
  then Py.int_digits s 0 false
  else None.

Definition iso_date (s : string) : option Timestamp :=
  match Py.split "-" s with
  | [ys; ms; ds] =>
      match fixed_digits 4 ys, fixed_digits 2 ms, fixed_digits 2 ds with
      | Some y, Some m, Some d =>
          if (1 <=? y) && (1 <=? m) && (m <=? 12) && (1 <=? d)
             && (d <=? days_in_month y m)
          then Some (mkTimestamp y m d)
          else None
      | _, _, _ => None
      end
  | _ => None
  end.

Definition iso_cell (c : date_cell) : option Timestamp :=
  match c with
  | DateText s => iso_date s
  | DateTime t => Some t
  | NaT => None
  end.

Definition iso_reader : Transform.DateReader.
Proof.
  refine {| Transform.to_datetime := map iso_cell |}.
  - intros col. apply length_map.
  - intros col. induction col as [|c col IH]; simpl; intros H.
    + reflexivity.
    + apply andb_true_iff in H as [Hc Hcol]. rewrite (IH Hcol).
      destruct c; simpl in *; try reflexivity. discriminate.
Defined.

(** Rows as the extractor reads them: the derived columns are not there
    yet. *)
Definition no_dates : DateColumns :=
  {| release_year := None; release_month := None; release_quarter := None |}.

Definition no_metrics : MetricColumns :=
  {| total_ratings := None; positive_percentage := 0%Q;
     estimated_owners := 0; estimated_revenue := None;
     price_category := None; popularity_tier := None;
     quality_score := None; years_since_release := None |}.

Definition no_categorical : CategoricalColumns :=
  {| primary_genre := ""; platform_count := 0; has_windows := false;
     has_mac := false; has_linux := false; is_multiplatform := false;
     is_multiplayer := false; is_singleplayer := false;
     has_achievements := false; is_free := false |}.

Definition game (id : Z) (title : string) (released : string)
  (positive negative playtime : Z) (developed_by : string) : GameRecord :=
  {| raw :=
       {| appid := id;
          name := Some title;
          release_date := DateText released;
          english := Some 1;
          developer := Some developed_by;
          publisher := Some "Valve";
          platforms := Some "windows;mac;linux";
          required_age := Some 0;
          categories := Some "Single-player;Multi-player";
          genres := Some "Action;Indie";
          steamspy_tags := Some "Action;FPS";
          achievements := Some 12;
          positive_ratings := Some positive;
          negative_ratings := Some negative;
          average_playtime := Some playtime;
          median_playtime := Some playtime;
          owners := Some "1000000-2000000";
          price := Some (7.19)%Q |};
     dates := no_dates;
     metrics := no_metrics;
     categorical := no_categorical |}.

(** A row of the stored table that supports none of the three platforms. *)
Definition console_game : GameRecord :=
  {| raw := Transform.with_release_date
              (raw (game 70 "Half-Life" "2012-11-08" 90 10 120 "Valve"))
              (DateTime (mkTimestamp 2012 11 8));
     dates := {| release_year := Some 2012; release_month := Some 11;
                 release_quarter := Some 4 |};
     metrics := {| total_ratings := Some 100; positive_percentage := 90%Q;
                   estimated_owners := 1500000;
                   estimated_revenue := Some (10785000)%Q;
                   price_category := Some "Budget";
                   popularity_tier := Some "Popular";
                   quality_score := None;
                   years_since_release := Some 12 |};
     categorical := {| primary_genre := "Action"; platform_count := 1;
                       has_windows := false; has_mac := false;
                       has_linux := false; is_multiplatform := false;
                       is_multiplayer := true; is_singleplayer := true;
                       has_achievements := true; is_free := false |} |}.

(** The filters other than the platform filter. *)
Definition passes_other_filters (f : Dashboard.Filters) (r : GameRecord)
  : bool :=
  year_in_range f r && genre_matches f r && price_category_matches f r
  && rating_at_least f r.

(** The value [_parse_owners_range] returns on a cell. *)
Definition owners_midpoint (c : option string) : Z :=
  match c with
  | Some s => match Transform.parse_owners_body s with
              | Py.Ok n => n
              | Py.Raise _ => 0
              end
  | None => 0
  end.

(** The row [assign_metrics] returns. *)
Definition metrics_row (current_year : Z) (max_playtime : option Z)
  (r : GameRecord) : GameRecord :=
  let x := raw r in
  let total := add_cell (positive_ratings x) (negative_ratings x) in
  let pct := Transform.positive_percentage_of (positive_ratings x) total in
  let est := owners_midpoint (owners x) in
  {| raw := x;
     dates := dates r;
     metrics :=
       {| total_ratings := total;
          positive_percentage := pct;
          estimated_owners := est;
          estimated_revenue :=
            option_map (fun p => inject_Z est * p)%Q (price x);
          price_category :=
            Transform.cut_cell Transform.price_bins Transform.price_labels
              (price x);
          popularity_tier :=
            Pd.cut Transform.owners_bins Transform.owners_labels
              (inject_Z est);
          quality_score :=
            Transform.quality_score_of pct (average_playtime x) max_playtime;
          years_since_release :=
            option_map (fun y => current_year - y) (release_year (dates r)) |};
     categorical := categorical r |}.

(** The price category of a price, as [create_calculated_metrics] assigns
    it. *)
Definition price_category_of (p : Q) : option string :=
  Transform.cut_cell Transform.price_bins Transform.price_labels (Some p).

(** A converted [release_date] cell that [transform_dates] keeps: a date
    whose year is at least the minimum. *)
Definition kept_date (self : Transform.SteamDataTransformer)
  (c : option Timestamp) : bool :=
  match c with
  | Some t => Transform.min_year self <=? ts_year t
  | None => false
  end.

(** The warning of [run_pipeline] on a load that did not write its three
    targets. *)
Definition load_warning : Pipeline.log_record :=
  Pipeline.WARNING "Nem todos os formatos foram salvos com sucesso".

(** A run in which the spreadsheet cannot be written: the input file holds
    one game, the flat file and the relational store are written. *)
Definition spreadsheet_fails : Pipeline.World :=
  {| Pipeline.extract_csv_data :=
       Py.Ok [game 620 "Portal 2" "2011-04-19" 90 10 200 "Valve"];
     Pipeline.owners_dtype := Transform.str_dtype;
     Pipeline.get_data_info := fun _ => Py.Ok tt;
     Pipeline.save_to_csv := fun _ => true;
     Pipeline.save_to_excel := fun _ => false;
     Pipeline.save_to_database := fun _ => true;
     Pipeline.dates_reader := iso_reader;
     Pipeline.now_year := 2024 |}.

Definition run_all : Pipeline.Args :=
  {| Pipeline.skip_extract := false; Pipeline.skip_transform := false;
     Pipeline.skip_load := false |}.

(** The key of a row and the first row of a table with a given key. *)
Definition key (r : GameRecord) : Z := appid (raw r).

Definition has_key (k : Z) (r : GameRecord) : bool := key r =? k.

Definition first_occurrence (k : Z) (df : DataFrame) : option GameRecord :=
  find (has_key k) df.

(** What [clean_basic_data] makes of one row: the defaults are filled in,
    then the text columns are stripped. *)
Definition clean_row (r : GameRecord) : GameRecord :=
  Transform.with_raw r (Transform.clean_strings (Transform.fill_values (raw r))).

(** The table on which [create_calculated_metrics] works in the chain, and
    the maximum of [average_playtime] that enters [quality_score]. *)
Definition dated_table (pd : Transform.DateReader)
  (self : Transform.SteamDataTransformer) (df : DataFrame) : DataFrame :=
  Transform.transform_dates pd self (Transform.clean_basic_data df).

Definition max_playtime (df : DataFrame) : option Z :=
  Pd.max (map (fun r => average_playtime (raw r)) df).

(** The table [transform_chain] returns. *)
Definition chain_rows (pd : Transform.DateReader) (current_year : Z)
  (self : Transform.SteamDataTransformer) (df : DataFrame) : DataFrame :=
  filter business_rule
    (map (fun r => Transform.assign_categorical
                     (metrics_row current_year
                        (max_playtime (dated_table pd self df)) r))
         (dated_table pd self df)).

(** The five text columns with a default are present in every row. *)
Definition text_columns_present (r : GameRecord) : bool :=
  Transform.notna (developer (raw r)) && Transform.notna (publisher (raw r))
  && Transform.notna (categories (raw r)) && Transform.notna (genres (raw r))
  && Transform.notna (steamspy_tags (raw r)).

(** The rows [drop_duplicates] keeps when the keys of [seen] were met
    before the table. *)
Definition kept_from (seen : list Z) (df : DataFrame) : DataFrame :=
  Pd.loc df (Pd.not_ (Pd.duplicated_from seen (map key df))).

(** The shape of a row returned by the chain: the input row [r0] cleaned,
    dated with [t], and with its metrics and categories derived. *)
Definition derived_row (current_year : Z) (mx : option Z) (r0 : GameRecord)
  (t : Timestamp) : GameRecord :=
  Transform.assign_categorical
    (metrics_row current_year mx
       (Transform.assign_date (clean_row r0) (Some t))).

(** Two tables on which the chain is run twice.  In the first every row
    passes the business rules.  In the second the row with the longest
    playtime has five ratings only. *)
Definition default_transformer : Transform.SteamDataTransformer :=
  Transform.mkTransformer Transform.MIN_YEAR Transform.MIN_PRICE.

Definition popular_games : DataFrame :=
  [game 10 "Left 4 Dead" "2012-01-01" 30 2 50 "Valve";
   game 20 "Dota 2" "2013-07-09" 900 100 500 "Valve"].

Definition niche_and_popular : DataFrame :=
  [game 30 "Ricochet" "2011-06-01" 3 2 100 "Valve";
   game 40 "Portal" "2012-10-10" 15 5 10 "Valve"].

(** The number of digits of the decimal writing of a natural number. *)
Definition number_of_digits (n : N) : Z :=
  Z.of_nat (String.length (decimal n)).

(** A text of [n] zeros. *)
Fixpoint zeros (n : nat) : string :=
  match n with
  | O => EmptyString
  | S n' => String "0" (zeros n')
  end.

(** The number of owners of a row is small enough for a float. *)
Definition owners_fit_float (r : GameRecord) : bool :=
  owners_midpoint (owners (raw r)) <? Py.float_overflow.

(** The tables on which [create_calculated_metrics] returns: a table with
    rows whose numbers of owners all fit a float, and a table without rows
    whose [owners] column is not of dtype [str]. *)
Definition metrics_return (owners_dtype : Transform.dtype) (df : DataFrame)
  : bool :=
  match df with
  | [] => match owners_dtype with
          | Transform.str_dtype => false
          | _ => true
          end
  | _ :: _ => forallb owners_fit_float df
  end.

(** The dtype of [release_year], [release_month] and [release_quarter] in
    the table the chain returns on [df]. *)
Definition date_parts_dtype (pd : Transform.DateReader) (df : DataFrame)
  : Transform.dtype :=
  Transform.transform_dates_dtype pd (Transform.clean_basic_data df).

(** The first occurrence of an [appid] is kept by the chain: its date is
    converted to a date [t] that passes the year filter, so that the row is
    in the dated table, and the row derived from it passes the business
    rules. *)
Definition first_occurrence_kept (pd : Transform.DateReader)
  (current_year : Z) (self : Transform.SteamDataTransformer) (df : DataFrame)
  (k : Z) (r0 : GameRecord) (t : Timestamp) : Prop :=
  first_occurrence k df = Some r0
  /\ In (Transform.assign_date (clean_row r0) (Some t)) (dated_table pd self df)
  /\ business_rule
       (derived_row current_year (max_playtime (dated_table pd self df)) r0 t)
     = true.

(** ** extract.py: the optional lookups against the Steam store *)

Module Extract.

Import Py.

(** What [requests.get] answers: a status code and a body that
    [response.json()] decodes or rejects. *)
Inductive response : Set :=
| Response (status_code : Z) (json : result string).

(** [api_data]: a dictionary from app ids to decoded bodies, in insertion
    order. *)
Definition dict : Set := list (Z * string).

Fixpoint dict_set (d : dict) (k : Z) (v : string) : dict :=
  match d with
  | [] => [(k, v)]
  | (k', v') :: d' =>
      if k' =? k then (k', v) :: d' else (k', v') :: dict_set d' k v
  end.

Fixpoint dict_get (d : dict) (k : Z) : option string :=
  match d with
  | [] => None
  | (k', v') :: d' => if k' =? k then Some v' else dict_get d' k
  end.

(** One turn of the loop: the request is sent, a body answered with status
    200 is stored, and whatever is raised inside is logged and skipped.
    [get n app_id] is the outcome of the request for [app_id] when [n]
    requests have been sent before it: the store may answer the same id
    differently from one request to the next.  The second component lists
    the ids requested so far. *)
Definition fetch_one (get : nat -> Z -> result response)
  (state : dict * list Z) (app_id : Z) : dict * list Z :=
  let '(api_data, requested) := state in
  let attempt :=
    resp <- get (List.length requested) app_id ;;
    match resp with
    | Response status_code json =>
        if status_code =? 200
        then data <- json ;; Ok (dict_set api_data app_id data)
        else Ok api_data
    end in
  let requested := (requested ++ [app_id])%list in
  match attempt with
  | Ok api_data' => (api_data', requested)
  | Raise _ => (api_data, requested)   (* except Exception: continue *)
  end.

(** [extract_steam_api_data]: nothing is requested without an API key, and
    at most the first ten ids are. *)
Definition extract_steam_api_data (steam_api_key : string)
  (get : nat -> Z -> result response) (app_ids : list Z) : dict * list Z :=
  if String.eqb steam_api_key "" then ([], [])
  else fold_left (fetch_one get) (firstn 10 app_ids) ([], []).

End Extract.

(** ** dashboard.py: the sidebar before any choice, and the general
    statistics *)

Module DashboardViews.

Import Py.

(** [Series.min()] and [Series.max()] of a numeric column: missing cells
    are skipped, and the result is missing when no cell is left. *)
Fixpoint series_min (col : list (option Z)) : option Z :=
  match col with
  | [] => None
  | None :: col' => series_min col'
  | Some v :: col' =>
      match series_min col' with
      | Some m => Some (Z.min v m)
      | None => Some v
      end
  end.

(** [int(x)] on a cell of a numeric column: NaN cannot be converted. *)
Definition int_cell (c : option Z) : result Z :=
  match c with
  | Some v => Ok v
  | None => Raise ValueError
  end.

(** [st.sidebar.slider] over a range, before the user has touched it: the
    widget answers with its initial value.  Streamlit refuses a slider whose
    two bounds are equal. *)
Definition slider (min_value max_value : Z) (value : Z * Z) : result (Z * Z) :=
  if min_value =? max_value then Raise StreamlitAPIException
  else Ok value.

(** [create_sidebar_filters] as long as the user has not touched a widget:
    the whole range of years, the first entry of each select box, every
    platform and a minimum rating of 0. *)
Definition initial_filters (df : DataFrame)
  : result Dashboard.Filters :=
  min_year <- int_cell (series_min (map (fun r => release_year (dates r)) df)) ;;
  max_year <- int_cell (Pd.max (map (fun r => release_year (dates r)) df)) ;;
  year_range <- slider min_year max_year (min_year, max_year) ;;
  Ok {| Dashboard.filter_year_range := year_range;
        Dashboard.filter_genre := "Todos";
        Dashboard.filter_price_category := "Todas";
        Dashboard.filter_platforms := ["Windows"; "Mac"; "Linux"];
        Dashboard.filter_min_rating := 0 |}.

(** [a / b] on two integers. *)
Definition true_div (a b : Z) : result Q :=
  if b =? 0 then Raise ZeroDivisionError
  else Ok (inject_Z a / inject_Z b)%Q.

(** [numpy.rint]: the nearest integer, a tie going to the even one. *)
Definition rint (x : Q) : Z :=
  let f := Qfloor x in
  match (x - inject_Z f ?= 1 # 2)%Q with
  | Lt => f
  | Gt => f + 1
  | Eq => if Z.even f then f else f + 1
  end.

(** [Series.round(1)] on one cell. *)
Definition round1 (x : Q) : Q := (inject_Z (rint (x * 10)) / 10)%Q.

(** The frame [stats_df] of [create_detailed_stats]. *)
Record StatsFrame : Set := mkStatsFrame {
  Metrica : list string;
  Valor : list Z;
  Percentual : list Q
}.

Definition count_true (col : GameRecord -> bool) (df : DataFrame) : Z :=
  Transform.len (Pd.loc df (map (fun r => Bool.eqb (col r) true) df)).

(** [create_detailed_stats], its first column: the counts are taken, then
    the percentages are computed one by one, then rounded. *)
Definition create_detailed_stats (df : DataFrame) : result StatsFrame :=
  let valor :=
    [Transform.len df;
     count_true (fun r => is_free (categorical r)) df;
     count_true (fun r => is_multiplayer (categorical r)) df;
     count_true (fun r => has_achievements (categorical r)) df;
     count_true (fun r => is_multiplatform (categorical r)) df] in
  p_free <-
    true_div (count_true (fun r => is_free (categorical r)) df)
             (Transform.len df) ;;
  p_multiplayer <-
    true_div (count_true (fun r => is_multiplayer (categorical r)) df)
             (Transform.len df) ;;
  p_achievements <-
    true_div (count_true (fun r => has_achievements (categorical r)) df)
             (Transform.len df) ;;
  p_multiplatform <-
    true_div (count_true (fun r => is_multiplatform (categorical r)) df)
             (Transform.len df) ;;
  Ok {| Metrica := ["Total de Jogos"; "Jogos Gratuitos"; "Jogos Multiplayer";
                    "Jogos com Conquistas"; "Jogos Multiplataforma"];
        Valor := valor;
        Percentual :=
          map round1
            [100; p_free * 100; p_multiplayer * 100; p_achievements * 100;
             p_multiplatform * 100]%Q |}.

End DashboardViews.

(** ** run_project.py: the menu entries that launch the pipeline *)

Module RunProject.

(** The options [run_pipeline.py] is launched with by a menu choice. *)
Definition pipeline_options (choice : string) : option (list string) :=
  if String.eqb choice "1" then Some ["--verbose"]
  else if String.eqb choice "3"
  then Some ["--skip-transform"; "--skip-load"; "--verbose"]
  else if String.eqb choice "4"
  then Some ["--skip-extract"; "--skip-load"; "--verbose"]
  else if String.eqb choice "5"
  then Some ["--skip-extract"; "--skip-transform"; "--verbose"]
  else None.

(** The [store_true] options of [run_pipeline.main] read from the command
    line; abbreviated and unknown options are outside the model. *)
Definition parse_args (argv : list string) : Pipeline.Args :=
  {| Pipeline.skip_extract := existsb (String.eqb "--skip-extract") argv;
     Pipeline.skip_transform := existsb (String.eqb "--skip-transform") argv;
     Pipeline.skip_load := existsb (String.eqb "--skip-load") argv |}.

(** [run_command] with [check=True]: a status other than 0 raises
    [CalledProcessError], which is reported as [False]. *)
Definition run_command (exit_status : Z) : bool := exit_status =? 0.

(** A menu choice that launches the pipeline, run to its end. *)
Definition run_choice (w : Pipeline.World) (choice : string) : option bool :=
  option_map
    (fun argv => run_command (snd (Pipeline.main w (parse_args argv))))
    (pipeline_options choice).

End RunProject.

(** ** Vocabulary of the further statements *)

(** The first and the last character of a text. *)
Definition first_char (s : string) : option ascii :=
  match s with
  | EmptyString => None
  | String c _ => Some c
  end.

Fixpoint last_char (s : string) : option ascii :=
  match s with
  | EmptyString => None
  | String c s' =>
      match last_char s' with
      | Some l => Some l
      | None => Some c
      end
  end.

Definition not_space (c : option ascii) : bool :=
  match c with
  | Some a => negb (Py.isspace a)
  | None => true
  end.

(** A cleaned text cell: missing, or a text without whitespace at either
    end that is not ["nan"]. *)
Definition clean_cell (c : option string) : bool :=
  match c with
  | Some s => not_space (first_char s) && not_space (last_char s)
              && negb (String.eqb s "nan")
  | None => true
  end.

(** The six text columns that [clean_basic_data] strips. *)
Definition text_cells (r : GameRecord) : list (option string) :=
  [name (raw r); developer (raw r); publisher (raw r); categories (raw r);
   genres (raw r); steamspy_tags (raw r)].

(** The columns that are never missing once the defaults are filled in. *)
Definition defaults_filled (r : GameRecord) : bool :=
  Transform.notna (english (raw r)) && Transform.notna (required_age (raw r))
  && Transform.notna (achievements (raw r))
  && Transform.notna (positive_ratings (raw r))
  && Transform.notna (negative_ratings (raw r))
  && Transform.notna (average_playtime (raw r))
  && Transform.notna (median_playtime (raw r))
  && Transform.notna (price (raw r))
  && Transform.notna (platforms (raw r)).

(** The number of occurrences of a character in a text. *)
Fixpoint count_char (c : ascii) (s : string) : nat :=
  match s with
  | EmptyString => O
  | String a s' =>
      if Ascii.eqb a c then S (count_char c s') else count_char c s'
  end.

(** The popularity tier of a number of owners. *)
Definition popularity_tier_of (n : Z) : option string :=
  Pd.cut Transform.owners_bins Transform.owners_labels (inject_Z n).

(** What every row returned by the chain satisfies. *)
Definition output_row_ok (self : Transform.SteamDataTransformer)
  (r : GameRecord) : bool :=
  ge_cell (release_year (dates r)) (Transform.min_year self)
  && business_rule r
  && defaults_filled r
  && forallb clean_cell (text_cells r)
  && (0 <=? estimated_owners (metrics r))
  && Transform.notna (popularity_tier (metrics r))
  && Transform.notna (estimated_revenue (metrics r))
  && negb (Transform.is_text (release_date (raw r))).

(** The rows the dashboard shows before any choice is made in the
    sidebar. *)
Definition shown_at_start (r : GameRecord) : bool :=
  Transform.notna (release_year (dates r))
  && (has_windows (categorical r) || has_mac (categorical r)
      || has_linux (categorical r))
  && Qle_bool 0 (positive_percentage (metrics r)).

(** When a run of the pipeline ends with status 0, told from the stages
    that are skipped and from what the extraction meets. *)
Definition run_succeeds (w : Pipeline.World) (a : Pipeline.Args) : Prop :=
  if Pipeline.skip_transform a
  then if Pipeline.skip_extract a
       then Pipeline.skip_load a = true
       else exists df, Pipeline.run_extract w = Py.Ok df
  else exists df,
         Pipeline.run_extract w = Py.Ok df
         /\ df <> []
         /\ metrics_return (Pipeline.owners_dtype w)
              (dated_table (Pipeline.dates_reader w) default_transformer df)
            = true.

(** The body stored by the request sent for an app id after [n] others:
    the request returns with status 200 and a body that decodes. *)
Definition answered (get : nat -> Z -> Py.result Extract.response)
  (n : nat) (app_id : Z) : option string :=
  match get n app_id with
  | Py.Ok (Extract.Response status_code (Py.Ok data)) =>
      if status_code =? 200 then Some data else None
  | _ => None
  end.

(** The entry of an app id after the requests for [ids], the first of them
    sent after [n] others, from the entry [entry] before them. *)
Fixpoint last_answer (get : nat -> Z -> Py.result Extract.response)
  (n : nat) (ids : list Z) (k : Z) (entry : option string) : option string :=
  match ids with
  | [] => entry
  | id :: ids' =>
      last_answer get (S n) ids' k
        (if id =? k
         then match answered get n id with
              | Some data => Some data
              | None => entry
              end
         else entry)
  end.

(** ** Text lemmas *)

Section TextLemmas.

Import Py.

Lemma all_chars_impl (p q : ascii -> bool) s :
  (forall c, p c = true -> q c = true) ->
  all_chars p s = true -> all_chars q s = true.
Proof.
  intros Hpq. induction s as [|c s IH]; simpl; auto.
  intros H. apply andb_true_iff in H as [Hc Hs].
  rewrite (Hpq _ Hc), (IH Hs). reflexivity.
Qed.

Lemma all_chars_app p s1 s2 :
  all_chars p (s1 ++ s2) = all_chars p s1 && all_chars p s2.
Proof.
  induction s1 as [|c s1 IH]; simpl; auto.
  rewrite IH. apply andb_assoc.
Qed.

Lemma lstrip_all_chars p s :
  all_chars p s = true -> all_chars p (lstrip s) = true.
Proof.
  induction s as [|c s IH]; simpl; auto.
  intros H. destruct (isspace c); [|exact H].
  apply andb_true_iff in H as [_ Hs]. auto.
Qed.

Lemma rstrip_all_chars p s :
  all_chars p s = true -> all_chars p (rstrip s) = true.
Proof.
  induction s as [|c s IH]; simpl; auto.
  intros H. apply andb_true_iff in H as [Hc Hs]. specialize (IH Hs).
  destruct (rstrip s) as [|c' r].
  - destruct (isspace c); simpl; auto. rewrite Hc. reflexivity.
  - simpl in *. rewrite Hc. exact IH.
Qed.

Lemma strip_all_chars p s :
  all_chars p s = true -> all_chars p (strip s) = true.
Proof.
  intros H. unfold strip. apply rstrip_all_chars, lstrip_all_chars, H.
Qed.

Lemma remove_char_all_chars p c s :
  all_chars p s = true -> all_chars p (remove_char c s) = true.
Proof.
  induction s as [|a s IH]; simpl; auto.
  intros H. apply andb_true_iff in H as [Ha Hs].
  destruct (Ascii.eqb a c); simpl; auto. rewrite Ha. auto.
Qed.

Lemma remove_char_absent c s :
  all_chars (is_not c) s = true -> remove_char c s = s.
Proof.
  induction s as [|a s IH]; simpl; auto.
  intros H. apply andb_true_iff in H as [Ha Hs].
  unfold is_not in Ha. apply negb_true_iff in Ha. rewrite Ha, (IH Hs).
  reflexivity.
Qed.

Lemma lstrip_no_space s :
  all_chars (fun c => negb (isspace c)) s = true -> lstrip s = s.
Proof.
  destruct s as [|c s]; simpl; auto.
  intros H. apply andb_true_iff in H as [Hc _].
  apply negb_true_iff in Hc. rewrite Hc. reflexivity.
Qed.

Lemma rstrip_no_space s :
  all_chars (fun c => negb (isspace c)) s = true -> rstrip s = s.
Proof.
  induction s as [|c s IH]; simpl; auto.
  intros H. apply andb_true_iff in H as [Hc Hs].
  rewrite (IH Hs). apply negb_true_iff in Hc. rewrite Hc.
  destruct s; reflexivity.
Qed.

Lemma strip_no_space s :
  all_chars (fun c => negb (isspace c)) s = true -> strip s = s.
Proof.
  intros H. unfold strip. rewrite (lstrip_no_space _ H).
  apply rstrip_no_space, H.
Qed.

Lemma lstrip_by_all_chars space p s :
  all_chars p s = true -> all_chars p (lstrip_by space s) = true.
Proof.
  induction s as [|c s IH]; simpl; auto.
  intros H. destruct (space c); [|exact H].
  apply andb_true_iff in H as [_ Hs]. auto.
Qed.

Lemma rstrip_by_all_chars space p s :
  all_chars p s = true -> all_chars p (rstrip_by space s) = true.
Proof.
  induction s as [|c s IH]; simpl; auto.
  intros H. apply andb_true_iff in H as [Hc Hs]. specialize (IH Hs).
  destruct (rstrip_by space s) as [|c' r].
  - destruct (space c); simpl; auto. rewrite Hc. reflexivity.
  - simpl in *. rewrite Hc. exact IH.
Qed.

Lemma lstrip_by_no_space space s :
  all_chars (fun c => negb (space c)) s = true -> lstrip_by space s = s.
Proof.
  destruct s as [|c s]; simpl; auto.
  intros H. apply andb_true_iff in H as [Hc _].
  apply negb_true_iff in Hc. rewrite Hc. reflexivity.
Qed.

Lemma rstrip_by_no_space space s :
  all_chars (fun c => negb (space c)) s = true -> rstrip_by space s = s.
Proof.
  induction s as [|c s IH]; simpl; auto.
  intros H. apply andb_true_iff in H as [Hc Hs].
  rewrite (IH Hs). apply negb_true_iff in Hc. rewrite Hc.
  destruct s; reflexivity.
Qed.

Lemma contains_char c s :
  contains (String c EmptyString) s = negb (all_chars (is_not c) s).
Proof.
  induction s as [|a s IH].
  - reflexivity.
  - cbn [contains all_chars String.prefix]. rewrite IH. unfold is_not.
    destruct (Ascii.eqb_spec a c) as [->|Hne].
    + destruct (ascii_dec c c) as [_|N]; [|contradiction].
      destruct s; reflexivity.
    + destruct (ascii_dec c a) as [E|_]; [symmetry in E; contradiction|].
      reflexivity.
Qed.

Lemma split_pieces_no_sep sep s :
  Forall (fun piece => all_chars (is_not sep) piece = true) (split sep s).
Proof.
  induction s as [|c s IH]; simpl.
  - constructor; auto.
  - destruct (Ascii.eqb c sep) eqn:E.
    + constructor; auto.
    + destruct (split sep s) as [|h t].
      * constructor; simpl; auto. unfold is_not. rewrite E. reflexivity.
      * inversion IH; subst. constructor; simpl; auto.
        unfold is_not at 1. rewrite E. assumption.
Qed.

Lemma split_absent sep s :
  all_chars (is_not sep) s = true -> split sep s = [s].
Proof.
  induction s as [|c s IH]; simpl; auto.
  intros H. apply andb_true_iff in H as [Hc Hs].
  unfold is_not in Hc. apply negb_true_iff in Hc.
  rewrite Hc, (IH Hs). reflexivity.
Qed.

Lemma split_once sep s1 s2 :
  all_chars (is_not sep) s1 = true ->
  all_chars (is_not sep) s2 = true ->
  split sep (s1 ++ String sep s2) = [s1; s2].
Proof.
  intros H1 H2. induction s1 as [|c s1 IH]; simpl.
  - rewrite Ascii.eqb_refl, (split_absent _ _ H2). reflexivity.
  - simpl in H1. apply andb_true_iff in H1 as [Hc Hs].
    unfold is_not in Hc. apply negb_true_iff in Hc.
    rewrite Hc, (IH Hs). reflexivity.
Qed.

End TextLemmas.

(** ** The integer reader and the owners-range parser *)

Section OwnersLemmas.

Import Py Transform.

Lemma digit_value_range c d : digit_value c = Some d -> 0 <= d <= 9.
Proof.
  unfold digit_value. intros H.
  destruct ((48 <=? Z.of_nat (nat_of_ascii c))
            && (Z.of_nat (nat_of_ascii c) <=? 57)) eqn:E; [|discriminate].
  injection H as <-. apply andb_true_iff in E as [E1 E2]. lia.
Qed.

Lemma int_digits_nonneg s : forall acc b n,
  0 <= acc -> int_digits s acc b = Some n -> 0 <= n.
Proof.
  induction s as [|c s IH]; cbn [int_digits]; intros acc b n Hacc H.
  - destruct b; [injection H as <-; exact Hacc | discriminate].
  - destruct (digit_value c) as [d|] eqn:Ed.
    + apply digit_value_range in Ed. eapply IH; [|exact H]. lia.
    + destruct (Ascii.eqb c "_" && b); [|discriminate].
      eapply IH; eauto.
Qed.

Lemma int_raises_ValueError s e : int s = Raise e -> e = ValueError.
Proof.
  unfold int. intros H.
  destruct (rstrip_by c_isspace (lstrip_by c_isspace s)) as [|c r].
  - simpl in H. congruence.
  - destruct (Ascii.eqb c "-"); [|destruct (Ascii.eqb c "+")];
      match type of H with
      | context [int_digits ?b 0 false] =>
          destruct (int_digits b 0 false);
          [destruct (max_str_digits <? count_digits b)|]; congruence
      end.
Qed.

Lemma int_nonneg s n :
  all_chars (is_not "-") s = true -> int s = Ok n -> 0 <= n.
Proof.
  intros Hs.
  apply (lstrip_by_all_chars c_isspace), (rstrip_by_all_chars c_isspace) in Hs.
  unfold int. revert Hs.
  destruct (rstrip_by c_isspace (lstrip_by c_isspace s)) as [|c r]; intros Hs.
  - simpl. discriminate.
  - simpl in Hs. apply andb_true_iff in Hs as [Hc _].
    unfold is_not in Hc. apply negb_true_iff in Hc. rewrite Hc.
    destruct (Ascii.eqb c "+").
    + destruct (int_digits r 0 false) as [m|] eqn:E; [|discriminate].
      destruct (max_str_digits <? count_digits r); [discriminate|].
      intros [= <-]. apply int_digits_nonneg in E; [destruct m|]; lia.
    + destruct (int_digits (String c r) 0 false) as [m|] eqn:E;
        [|discriminate].
      destruct (max_str_digits <? count_digits (String c r)); [discriminate|].
      intros [= <-]. apply int_digits_nonneg in E; [destruct m|]; lia.
Qed.

Lemma parse_owners_body_raises_ValueError s e :
  parse_owners_body s = Raise e -> e = ValueError.
Proof.
  unfold parse_owners_body.
  destruct (contains "-" (strip s)).
  - destruct (split "-" (strip s)) as [|a [|b [|c l]]]; try congruence.
    destruct (int (remove_char "," a)) as [x|e1] eqn:Ea; simpl.
    + destruct (int (remove_char "," b)) as [y|e2] eqn:Eb; simpl.
      * discriminate.
      * intros [= <-]. eapply int_raises_ValueError, Eb.
    + intros [= <-]. eapply int_raises_ValueError, Ea.
  - apply int_raises_ValueError.
Qed.

Lemma parse_owners_body_nonneg s n :
  parse_owners_body s = Ok n -> 0 <= n.
Proof.
  unfold parse_owners_body.
  destruct (contains "-" (strip s)) eqn:Ec.
  - pose proof (split_pieces_no_sep "-" (strip s)) as Hp.
    destruct (split "-" (strip s)) as [|a [|b [|c l]]]; try discriminate.
    inversion Hp as [|? ? Ha Hp']; subst.
    inversion Hp' as [|? ? Hb _]; subst.
    destruct (int (remove_char "," a)) as [x|] eqn:Ea; simpl; [|discriminate].
    destruct (int (remove_char "," b)) as [y|] eqn:Eb; simpl; [|discriminate].
    intros [= <-].
    apply int_nonneg in Ea; [|apply remove_char_all_chars, Ha].
    apply int_nonneg in Eb; [|apply remove_char_all_chars, Hb].
    apply Z.div_pos; lia.
  - change "-"%string with (String "-" EmptyString) in Ec.
    rewrite contains_char in Ec. apply negb_false_iff in Ec.
    apply int_nonneg. apply remove_char_all_chars, Ec.
Qed.

Lemma parse_owners_range_caught c :
  _parse_owners_range c =
  Ok match c with
     | Some s => match parse_owners_body s with
                 | Ok n => n
                 | Raise _ => 0
                 end
     | None => 0
     end.
Proof.
  destruct c as [s|]; simpl; auto.
  destruct (String.eqb_spec s "Unknown") as [->|_]; [reflexivity|].
  unfold try_except.
  destruct (parse_owners_body s) as [n|e] eqn:E; auto.
  apply parse_owners_body_raises_ValueError in E. subst. reflexivity.
Qed.

(** Decimal writings are read back by the integer reader. *)
Lemma string_of_uint_digits d :
  all_chars is_digit (NilEmpty.string_of_uint d) = true.
Proof. induction d; simpl; auto. Qed.

Lemma int_digits_string_of_uint d : forall acc,
  int_digits (NilEmpty.string_of_uint d) acc true =
  Some (acc * 10 ^ Z.of_N (Unsigned.usize d)
        + Z.of_N (Unsigned.of_lu (Decimal.rev d))).
Proof.
  induction d; intros acc;
    [ simpl; f_equal; lia | .. ];
    cbn [NilEmpty.string_of_uint int_digits];
    match goal with
    | |- context [digit_value ?c] =>
        change (digit_value c) with (Some (Z.of_nat (nat_of_ascii c) - 48))
    end;
    cbv beta iota;
    rewrite IHd; f_equal;
    set (v := Z.of_N (Unsigned.of_lu (Decimal.rev d)));
    match goal with
    | |- context [Decimal.rev (?D d)] =>
        change (Decimal.rev (D d)) with (Decimal.revapp d (D Nil))
    end;
    rewrite Unsigned.of_lu_revapp;
    cbn [Unsigned.usize Unsigned.of_lu];
    rewrite N2Z.inj_succ, Z.pow_succ_r by apply N2Z.is_nonneg;
    rewrite N2Z.inj_add, N2Z.inj_mul, N2Z.inj_pow;
    fold v;
    set (u := 10 ^ Z.of_N (Unsigned.usize d));
    repeat match goal with
    | |- context [Z.of_N ?n] =>
        lazymatch n with context [Unsigned.usize] => fail | _ => idtac end;
        let k := eval vm_compute in (Z.of_N n) in
        change (Z.of_N n) with k
    | |- context [Z.of_nat (nat_of_ascii ?c) - 48] =>
        let k := eval vm_compute in (Z.of_nat (nat_of_ascii c) - 48) in
        change (Z.of_nat (nat_of_ascii c) - 48) with k
    end;
    fold u; ring.
Qed.

End OwnersLemmas.

Section DecimalLemmas.

Import Py Transform.

Lemma digit_code c : is_digit c = true -> 48 <= Z.of_nat (nat_of_ascii c) <= 57.
Proof.
  unfold is_digit, digit_value.
  destruct ((48 <=? Z.of_nat (nat_of_ascii c))
            && (Z.of_nat (nat_of_ascii c) <=? 57)) eqn:E; [|discriminate].
  intros _. apply andb_true_iff in E as [E1 E2]. lia.
Qed.

Lemma digit_not_space c : is_digit c = true -> negb (isspace c) = true.
Proof.
  intros H. apply digit_code in H. unfold isspace.
  apply negb_true_iff, orb_false_iff.
  split; apply andb_false_iff; right; apply Z.leb_gt; lia.
Qed.

Lemma digit_is_not c c' :
  (Z.of_nat (nat_of_ascii c') < 48 \/ 57 < Z.of_nat (nat_of_ascii c')) ->
  is_digit c = true -> is_not c' c = true.
Proof.
  intros Hc' H. apply digit_code in H. unfold is_not.
  destruct (Ascii.eqb_spec c c') as [->|_]; [lia | reflexivity].
Qed.

Lemma int_digits_after_digit c s acc b :
  is_digit c = true ->
  int_digits (String c s) acc b = int_digits (String c s) acc true.
Proof.
  unfold is_digit. cbn [int_digits].
  destruct (digit_value c); [reflexivity | discriminate].
Qed.

Lemma decimal_digits n : all_chars is_digit (decimal n) = true.
Proof. apply string_of_uint_digits. Qed.

Lemma to_uint_not_Nil n : N.to_uint n <> Nil.
Proof.
  intros H. pose proof (DecimalN.Unsigned.of_to n) as E. rewrite H in E.
  simpl in E. subst n. discriminate.
Qed.

Lemma digit_not_c_space c : is_digit c = true -> negb (c_isspace c) = true.
Proof.
  intros H. apply digit_code in H. unfold c_isspace.
  apply negb_true_iff, orb_false_iff.
  split; [apply andb_false_iff; right; apply Z.leb_gt | apply Z.eqb_neq]; lia.
Qed.

Lemma count_digits_all s :
  all_chars is_digit s = true -> count_digits s = Z.of_nat (String.length s).
Proof.
  induction s as [|c s IH]; [reflexivity|].
  cbn [all_chars count_digits String.length]. intros H.
  apply andb_true_iff in H as [Hc Hs]. unfold is_digit in Hc.
  destruct (digit_value c); [|discriminate]. rewrite (IH Hs). lia.
Qed.

(** The integer reader on the decimal writing of a natural number: the
    number, unless it has more digits than the interpreter converts. *)
Lemma int_decimal_cases n :
  int (decimal n) =
  if max_str_digits <? number_of_digits n then Raise ValueError
  else Ok (Z.of_N n).
Proof.
  pose proof (decimal_digits n) as Hd.
  unfold int, number_of_digits.
  rewrite lstrip_by_no_space, rstrip_by_no_space
    by (eapply all_chars_impl; [apply digit_not_c_space | exact Hd]).
  pose proof (int_digits_string_of_uint (N.to_uint n) 0) as Hv.
  fold (decimal n) in Hv.
  pose proof (count_digits_all _ Hd) as Hn. revert Hd Hv Hn.
  destruct (decimal n) as [|c s] eqn:E; intros Hd Hv Hn.
  - exfalso. unfold decimal in E. apply (to_uint_not_Nil n).
    destruct (N.to_uint n); simpl in E; congruence.
  - simpl in Hd. apply andb_true_iff in Hd as [Hc _].
    pose proof (digit_is_not c "-" ltac:(left; vm_compute; reflexivity) Hc)
      as Hm.
    pose proof (digit_is_not c "+" ltac:(left; vm_compute; reflexivity) Hc)
      as Hp.
    unfold is_not in Hm, Hp. apply negb_true_iff in Hm, Hp.
    rewrite Hm, Hp, (int_digits_after_digit _ _ _ _ Hc), Hv, Hn.
    destruct (max_str_digits <? Z.of_nat (String.length (String c s)));
      [reflexivity|].
    rewrite <- Unsigned.of_uint_alt.
    change (Pos.of_uint (N.to_uint n)) with (N.of_uint (N.to_uint n)).
    rewrite DecimalN.Unsigned.of_to. f_equal. lia.
Qed.

Lemma int_decimal n :
  number_of_digits n <= max_str_digits -> int (decimal n) = Ok (Z.of_N n).
Proof.
  intros H. rewrite int_decimal_cases.
  destruct (Z.ltb_spec max_str_digits (number_of_digits n)); [lia|reflexivity].
Qed.

Lemma int_decimal_too_long n :
  max_str_digits < number_of_digits n -> int (decimal n) = Raise ValueError.
Proof.
  intros H. rewrite int_decimal_cases.
  destruct (Z.ltb_spec max_str_digits (number_of_digits n)); [reflexivity|lia].
Qed.

Lemma parse_owners_body_range a b :
  parse_owners_body (decimal a ++ "-" ++ decimal b) =
  (min_val <- int (decimal a) ;;
   max_val <- int (decimal b) ;;
   Ok ((min_val + max_val) / 2)).
Proof.
  pose proof (decimal_digits a) as Ha. pose proof (decimal_digits b) as Hb.
  assert (Hdash : forall n, all_chars (is_not "-") (decimal n) = true).
  { intros n. eapply all_chars_impl; [|apply decimal_digits].
    intros c. apply digit_is_not. left. vm_compute. reflexivity. }
  assert (Hcomma : forall n, all_chars (is_not ",") (decimal n) = true).
  { intros n. eapply all_chars_impl; [|apply decimal_digits].
    intros c. apply digit_is_not. left. vm_compute. reflexivity. }
  assert (Hspace : forall n,
            all_chars (fun c => negb (isspace c)) (decimal n) = true).
  { intros n. eapply all_chars_impl; [|apply decimal_digits].
    apply digit_not_space. }
  unfold parse_owners_body.
  rewrite strip_no_space.
  2:{ rewrite all_chars_app, Hspace. cbn [append all_chars].
      rewrite Hspace. reflexivity. }
  change ("-" ++ decimal b)%string with (String "-" (decimal b)).
  change "-"%string with (String "-" EmptyString) at 1.
  rewrite contains_char, all_chars_app. cbn [all_chars].
  unfold is_not at 2. rewrite Ascii.eqb_refl, andb_false_r.
  cbn [negb]. rewrite split_once by auto.
  rewrite !remove_char_absent by auto.
  reflexivity.
Qed.

Lemma parse_owners_body_decimal a b :
  number_of_digits a <= max_str_digits ->
  number_of_digits b <= max_str_digits ->
  parse_owners_body (decimal a ++ "-" ++ decimal b) =
  Ok ((Z.of_N a + Z.of_N b) / 2).
Proof.
  intros Ha Hb.
  rewrite parse_owners_body_range, !int_decimal by assumption. reflexivity.
Qed.

Lemma parse_owners_body_too_long a b :
  max_str_digits < number_of_digits a \/ max_str_digits < number_of_digits b ->
  parse_owners_body (decimal a ++ "-" ++ decimal b) = Raise ValueError.
Proof.
  intros H. rewrite parse_owners_body_range, !int_decimal_cases.
  destruct (Z.ltb_spec max_str_digits (number_of_digits a)); [reflexivity|].
  destruct (Z.ltb_spec max_str_digits (number_of_digits b)); [reflexivity|].
  lia.
Qed.

Lemma int_digits_zeros k : forall acc,
  int_digits (zeros k) acc true = Some (acc * 10 ^ Z.of_nat k).
Proof.
  induction k as [|k IH]; intros acc.
  - cbn [zeros int_digits]. f_equal. cbn. lia.
  - cbn [zeros int_digits]. change (digit_value "0") with (Some 0).
    cbv iota. rewrite IH. f_equal.
    rewrite Nat2Z.inj_succ, Z.pow_succ_r by lia. lia.
Qed.

Lemma count_digits_zeros k : count_digits (zeros k) = Z.of_nat k.
Proof.
  induction k as [|k IH]; [reflexivity|].
  cbn [zeros count_digits]. change (digit_value "0") with (Some 0).
  cbv iota. rewrite IH. lia.
Qed.

End DecimalLemmas.

(** ** The owners-range parser (C5) *)

(** C5, as the code has it.  On every cell of the [owners] column, missing
    or any text, [_parse_owners_range] returns and does not raise: every
    exception of its body is caught and turned into 0.  The value returned
    is never negative.  On the decimal writings of two natural numbers
    joined by a hyphen it is the floor of their arithmetic mean when each is
    written with at most 4300 digits, the most that [int] converts, so
    ["1000000-2000000"] gives 1500000; it is 0 when one of the two is
    longer.  A missing cell and the text ["Unknown"] give 0, and so does
    every text on which the body raises. *)
Theorem parse_owners_range_never_raises_midpoint :
  (forall c, exists n, Transform._parse_owners_range c = Py.Ok n /\ 0 <= n)
  /\ (forall a b : N,
        number_of_digits a <= Py.max_str_digits ->
        number_of_digits b <= Py.max_str_digits ->
        Transform._parse_owners_range (Some (decimal a ++ "-" ++ decimal b))
        = Py.Ok ((Z.of_N a + Z.of_N b) / 2))
  /\ (forall a b : N,
        Py.max_str_digits < number_of_digits a
        \/ Py.max_str_digits < number_of_digits b ->
        Transform._parse_owners_range (Some (decimal a ++ "-" ++ decimal b))
        = Py.Ok 0)
  /\ Transform._parse_owners_range (Some "1000000-2000000") = Py.Ok 1500000
  /\ Transform._parse_owners_range None = Py.Ok 0
  /\ Transform._parse_owners_range (Some "Unknown") = Py.Ok 0
  /\ (forall s,
        Transform._parse_owners_range (Some s)
        = Py.Ok match Transform.parse_owners_body s with
                | Py.Ok n => n
                | Py.Raise _ => 0
                end).
Proof.
  split; [|split; [|split; [|split; [|split; [|split]]]]].
  - intros c. rewrite parse_owners_range_caught. eexists. split; [reflexivity|].
    destruct c as [s|]; [|lia].
    destruct (Transform.parse_owners_body s) eqn:E; [|lia].
    eapply parse_owners_body_nonneg, E.
  - intros a b Ha Hb.
    rewrite parse_owners_range_caught, parse_owners_body_decimal by assumption.
    reflexivity.
  - intros a b H.
    rewrite parse_owners_range_caught, parse_owners_body_too_long by assumption.
    reflexivity.
  - vm_compute. reflexivity.
  - reflexivity.
  - reflexivity.
  - intros s. apply parse_owners_range_caught.
Qed.

(** C5 as stated fails on a range whose first number is written with 4301
    digits, a 1 followed by 4300 zeros: [int] refuses the number, the
    exception is caught, and the parser returns 0 where the midpoint is
    not 0. *)
Lemma midpoint_of_a_long_number :
  let a := String "1" (zeros 4300) in
  Py.int_digits a 0 false = Some (10 ^ 4300)
  /\ Py.count_digits a = 4301
  /\ Transform._parse_owners_range (Some (a ++ "-0")) = Py.Ok 0
  /\ (10 ^ 4300 + 0) / 2 <> 0.
Proof.
  intros a. repeat apply conj.
  - unfold a. cbn [Py.int_digits Py.digit_value].
    change (Py.digit_value "1") with (Some 1). cbv iota.
    rewrite int_digits_zeros, Z.mul_0_r, Z.add_0_l, Z.mul_1_l.
    change (Z.of_nat 4300) with 4300. reflexivity.
  - unfold a. cbn [Py.count_digits].
    change (Py.digit_value "1") with (Some 1). cbv iota.
    rewrite count_digits_zeros. change (Z.of_nat 4300) with 4300.
    reflexivity.
  - reflexivity.
  - assert (H : 2 <= 10 ^ 4300).
    { apply Z.le_trans with (10 ^ 1); [change (10 ^ 1) with 10; lia|].
      apply Z.pow_le_mono_r; lia. }
    rewrite Z.add_0_r. intros E.
    pose proof (Z.div_str_pos (10 ^ 4300) 2 ltac:(lia)). lia.
Qed.

Example parse_owners_range_commas :
  Transform._parse_owners_range (Some " 20,000-50,000 ") = Py.Ok 35000.
Proof. vm_compute. reflexivity. Qed.

Example parse_owners_range_odd_sum :
  Transform._parse_owners_range (Some "0-20001") = Py.Ok 10000.
Proof. vm_compute. reflexivity. Qed.

Example parse_owners_range_three_parts :
  Transform.parse_owners_body "1-2-3" = Py.Raise Py.ValueError
  /\ Transform._parse_owners_range (Some "1-2-3") = Py.Ok 0.
Proof. vm_compute. auto. Qed.

Example parse_owners_range_leading_hyphen :
  Transform._parse_owners_range (Some "-5") = Py.Ok 0.
Proof. vm_compute. reflexivity. Qed.

Example parse_owners_range_single_number :
  Transform._parse_owners_range (Some "20000") = Py.Ok 20000.
Proof. vm_compute. reflexivity. Qed.

(** ** Boolean masks *)

Section MaskLemmas.

Context {A : Type}.

Lemma loc_map (p : A -> bool) (df : list A) :
  Pd.loc df (map p df) = filter p df.
Proof.
  induction df as [|r df IH]; simpl; auto.
  rewrite IH. reflexivity.
Qed.

Lemma and_map (p q : A -> bool) (df : list A) :
  Pd.and_ (map p df) (map q df) = map (fun r => p r && q r) df.
Proof.
  induction df as [|r df IH]; simpl; auto.
  rewrite IH. reflexivity.
Qed.

Lemma or_map (p q : A -> bool) (df : list A) :
  Pd.or_ (map p df) (map q df) = map (fun r => p r || q r) df.
Proof.
  induction df as [|r df IH]; simpl; auto.
  rewrite IH. reflexivity.
Qed.

Lemma filter_filter (p q : A -> bool) (df : list A) :
  filter q (filter p df) = filter (fun r => p r && q r) df.
Proof.
  induction df as [|r df IH]; simpl; auto.
  destruct (p r); simpl; rewrite IH; reflexivity.
Qed.

Lemma filter_true (p : A -> bool) (df : list A) :
  (forall r, In r df -> p r = true) -> filter p df = df.
Proof.
  induction df as [|r df IH]; simpl; intros H; auto.
  rewrite (H r) by auto. f_equal. apply IH. auto.
Qed.

End MaskLemmas.

(** ** apply_business_rules (C8) *)

Lemma apply_business_rules_filter df :
  Transform.apply_business_rules df = filter business_rule df.
Proof.
  unfold Transform.apply_business_rules.
  rewrite !and_map, loc_map. apply filter_ext. intros r.
  unfold business_rule, name_is_usable, Transform.notna, Transform.ne_text.
  destruct (name (raw r)) as [n|]; simpl; [|reflexivity].
  reflexivity.
Qed.

Lemma business_rule_spec r :
  business_rule r = true <->
  (exists n, name (raw r) = Some n /\ n <> "Unknown" /\ n <> "")
  /\ (exists k, total_ratings (metrics r) = Some k /\ 10 <= k).
Proof.
  unfold business_rule, name_is_usable, ge_cell.
  rewrite andb_true_iff. split.
  - intros [Hn Ht]. split.
    + destruct (name (raw r)) as [n|]; [|discriminate].
      apply andb_true_iff in Hn as [H1 H2].
      apply negb_true_iff in H1, H2.
      exists n. repeat split;
        [apply String.eqb_neq, H1 | apply String.eqb_neq, H2].
    + destruct (total_ratings (metrics r)) as [k|]; [|discriminate].
      exists k. split; [reflexivity | apply Z.leb_le, Ht].
  - intros [(n & -> & H1 & H2) (k & -> & Hk)]. split.
    + apply andb_true_iff. split; apply negb_true_iff, String.eqb_neq; auto.
    + apply Z.leb_le, Hk.
Qed.

(** C8.  [apply_business_rules] keeps, in order, exactly the rows whose
    name is present, is not ["Unknown"] and is not empty and whose
    [total_ratings] is at least 10.  A row with [total_ratings = 9] is
    dropped; the same row with [total_ratings = 10] is kept when its name
    passes. *)
Theorem apply_business_rules_retains :
  (forall df, Transform.apply_business_rules df = filter business_rule df)
  /\ (forall df r,
        In r (Transform.apply_business_rules df) <->
        In r df
        /\ (exists n, name (raw r) = Some n /\ n <> "Unknown" /\ n <> "")
        /\ (exists k, total_ratings (metrics r) = Some k /\ 10 <= k))
  /\ (forall r, Transform.apply_business_rules [with_total_ratings r 9] = [])
  /\ (forall r,
        Transform.apply_business_rules [with_total_ratings r 10]
        = if name_is_usable (name (raw r)) then [with_total_ratings r 10]
          else []).
Proof.
  split; [|split; [|split]].
  - apply apply_business_rules_filter.
  - intros df r. rewrite apply_business_rules_filter, filter_In.
    rewrite business_rule_spec. tauto.
  - intros r. rewrite apply_business_rules_filter. simpl.
    unfold business_rule. simpl. rewrite andb_false_r. reflexivity.
  - intros r. rewrite apply_business_rules_filter. simpl.
    unfold business_rule. simpl. rewrite andb_true_r.
    destruct (name_is_usable (name (raw r))); reflexivity.
Qed.

Example business_rules_boundary :
  let r := game 10 "Counter-Strike" "2010-11-01" 7 3 100 "Valve" in
  Transform.apply_business_rules
    [with_total_ratings r 9; with_total_ratings r 10;
     with_total_ratings (Transform.with_raw r
        (Transform.clean_strings (raw (game 11 "Unknown" "" 0 0 0 "")))) 50]
  = [with_total_ratings r 10].
Proof. reflexivity. Qed.

(** ** apply_filters (C6, C10) *)

Section DashboardLemmas.

Import Dashboard.

Lemma supports_any_selected sel r :
  supports_any sel r =
  (In_list "Windows" sel && has_windows (categorical r))
  || (In_list "Mac" sel && has_mac (categorical r))
  || (In_list "Linux" sel && has_linux (categorical r)).
Proof.
  unfold supports_any, In_list.
  induction sel as [|p sel IH].
  - reflexivity.
  - cbn [existsb]. rewrite IH. unfold supports.
    rewrite (String.eqb_sym "Windows" p), (String.eqb_sym "Mac" p),
      (String.eqb_sym "Linux" p).
    destruct (String.eqb p "Windows"), (String.eqb p "Mac"),
      (String.eqb p "Linux"), (has_windows (categorical r)),
      (has_mac (categorical r)), (has_linux (categorical r)),
      (existsb (String.eqb "Windows") sel), (existsb (String.eqb "Mac") sel),
      (existsb (String.eqb "Linux") sel);
      reflexivity.
Qed.

Lemma platform_step f (fd : DataFrame) :
  match platform_filters f fd with
  | platform_filter :: rest =>
      Pd.loc fd (fold_left Pd.or_ rest platform_filter)
  | [] => fd
  end = filter (platform_matches f) fd.
Proof.
  unfold platform_filters, platform_matches, platform_filter_active.
  assert (E : forall b, Bool.eqb b true = b) by (intros []; reflexivity).
  destruct (In_list "Windows" (filter_platforms f)) eqn:EW,
           (In_list "Mac" (filter_platforms f)) eqn:EM,
           (In_list "Linux" (filter_platforms f)) eqn:EL;
    cbn [List.app fold_left orb]; rewrite ?or_map, ?loc_map;
    try (apply filter_ext; intros r; rewrite supports_any_selected, EW, EM, EL,
           !E; cbn [andb orb]; rewrite ?orb_false_r; reflexivity).
  symmetry. apply filter_true. reflexivity.
Qed.

Lemma apply_filters_filter df f :
  apply_filters df f = filter (passes_filters f) df.
Proof.
  unfold apply_filters. cbv zeta. rewrite and_map, !loc_map.
  fold (year_in_range f) (rating_at_least f).
  set (d1 := filter (year_in_range f) df).
  assert (E2 :
    (if negb (String.eqb (filter_genre f) "Todos")
     then filter (fun r => String.eqb (primary_genre (categorical r))
                                      (filter_genre f)) d1
     else d1) = filter (genre_matches f) d1).
  { unfold genre_matches. destruct (String.eqb (filter_genre f) "Todos").
    - symmetry. apply filter_true. reflexivity.
    - reflexivity. }
  rewrite E2. clear E2. set (d2 := filter (genre_matches f) d1).
  assert (E3 :
    (if negb (String.eqb (filter_price_category f) "Todas")
     then filter (fun r => eq_text (price_category (metrics r))
                                   (filter_price_category f)) d2
     else d2) = filter (price_category_matches f) d2).
  { unfold price_category_matches.
    destruct (String.eqb (filter_price_category f) "Todas").
    - symmetry. apply filter_true. reflexivity.
    - reflexivity. }
  rewrite E3. clear E3. set (d3 := filter (price_category_matches f) d2).
  rewrite platform_step.
  subst d3 d2 d1. rewrite !filter_filter.
  apply filter_ext. intros r. unfold passes_filters.
  rewrite !andb_assoc. reflexivity.
Qed.

End DashboardLemmas.

Lemma passes_filters_spec f r :
  passes_filters f r = true <->
  (exists y, release_year (dates r) = Some y
             /\ fst (Dashboard.filter_year_range f) <= y
                <= snd (Dashboard.filter_year_range f))
  /\ (Dashboard.filter_genre f = "Todos"
      \/ primary_genre (categorical r) = Dashboard.filter_genre f)
  /\ (Dashboard.filter_price_category f = "Todas"
      \/ price_category (metrics r) = Some (Dashboard.filter_price_category f))
  /\ (platform_filter_active (Dashboard.filter_platforms f) = true ->
      exists p, In p (Dashboard.filter_platforms f) /\ supports r p = true)
  /\ (inject_Z (Dashboard.filter_min_rating f)
      <= positive_percentage (metrics r))%Q.
Proof.
  unfold passes_filters. rewrite !andb_true_iff.
  assert (Hy : year_in_range f r = true <->
    exists y, release_year (dates r) = Some y
              /\ fst (Dashboard.filter_year_range f) <= y
                 <= snd (Dashboard.filter_year_range f)).
  { unfold year_in_range, ge_cell, le_cell.
    destruct (release_year (dates r)) as [y|]; simpl.
    - rewrite andb_true_iff, !Z.leb_le. split.
      + intros H. exists y. auto.
      + intros (y' & [= <-] & H). exact H.
    - split; [discriminate | intros (y & H & _); discriminate]. }
  assert (Hg : genre_matches f r = true <->
    Dashboard.filter_genre f = "Todos"
    \/ primary_genre (categorical r) = Dashboard.filter_genre f).
  { unfold genre_matches. rewrite orb_true_iff, !String.eqb_eq. tauto. }
  assert (Hp : price_category_matches f r = true <->
    Dashboard.filter_price_category f = "Todas"
    \/ price_category (metrics r) = Some (Dashboard.filter_price_category f)).
  { unfold price_category_matches, Dashboard.eq_text.
    rewrite orb_true_iff, String.eqb_eq.
    destruct (price_category (metrics r)) as [c|].
    - rewrite String.eqb_eq. split; (intros [H|H]; [left; exact H | right]);
        congruence.
    - split; (intros [H|H]; [left; exact H | discriminate]). }
  assert (Hpl : platform_matches f r = true <->
    (platform_filter_active (Dashboard.filter_platforms f) = true ->
     exists p, In p (Dashboard.filter_platforms f) /\ supports r p = true)).
  { unfold platform_matches, supports_any.
    destruct (platform_filter_active (Dashboard.filter_platforms f)).
    - rewrite existsb_exists. tauto.
    - split; [discriminate | reflexivity]. }
  assert (Hr : rating_at_least f r = true <->
    (inject_Z (Dashboard.filter_min_rating f)
     <= positive_percentage (metrics r))%Q).
  { unfold rating_at_least. apply Qle_bool_iff. }
  rewrite Hy, Hg, Hp, Hpl, Hr. tauto.
Qed.

(** C6.  [apply_filters] returns, in order, exactly the rows that pass every
    active filter: the release year lies in the selected range, the primary
    genre is the selected one unless the choice is ["Todos"], the price
    category is the selected one unless the choice is ["Todas"], the
    positive percentage is at least the minimum rating and, when a platform
    of the sidebar is selected, the row supports any one of the selected
    platforms. *)
Theorem apply_filters_conjunction :
  (forall df f, Dashboard.apply_filters df f = filter (passes_filters f) df)
  /\ (forall df f r,
        In r (Dashboard.apply_filters df f) <->
        In r df
        /\ (exists y, release_year (dates r) = Some y
                      /\ fst (Dashboard.filter_year_range f) <= y
                         <= snd (Dashboard.filter_year_range f))
        /\ (Dashboard.filter_genre f = "Todos"
            \/ primary_genre (categorical r) = Dashboard.filter_genre f)
        /\ (Dashboard.filter_price_category f = "Todas"
            \/ price_category (metrics r)
               = Some (Dashboard.filter_price_category f))
        /\ (platform_filter_active (Dashboard.filter_platforms f) = true ->
            exists p, In p (Dashboard.filter_platforms f)
                      /\ supports r p = true)
        /\ (inject_Z (Dashboard.filter_min_rating f)
            <= positive_percentage (metrics r))%Q).
Proof.
  split.
  - apply apply_filters_filter.
  - intros df f r. rewrite apply_filters_filter, filter_In, passes_filters_spec.
    tauto.
Qed.

(** C10.  With an empty list of selected platforms [apply_filters] applies
    no platform restriction: the result is the table filtered by year
    range, genre, price category and minimum rating alone.  A row that
    supports none of Windows, Mac and Linux is then included, while it is
    excluded as soon as the three platforms are selected. *)
Theorem apply_filters_empty_platforms :
  (forall df years genre category rating,
     let f := Dashboard.mkFilters years genre category [] rating in
     Dashboard.apply_filters df f = filter (passes_other_filters f) df)
  /\ supports_any ["Windows"; "Mac"; "Linux"] console_game = false
  /\ Dashboard.apply_filters [console_game]
       (Dashboard.mkFilters (2010, 2020) "Todos" "Todas" [] 0)
     = [console_game]
  /\ Dashboard.apply_filters [console_game]
       (Dashboard.mkFilters (2010, 2020) "Todos" "Todas"
          ["Windows"; "Mac"; "Linux"] 0)
     = [].
Proof.
  split; [|split; [|split]].
  - intros df years genre category rating f.
    rewrite apply_filters_filter. apply filter_ext. intros r.
    unfold passes_filters, passes_other_filters, platform_matches.
    simpl. rewrite andb_true_r. reflexivity.
  - reflexivity.
  - reflexivity.
  - reflexivity.
Qed.

(** ** create_calculated_metrics (C3, C9) *)

Lemma owners_midpoint_nonneg c : 0 <= owners_midpoint c.
Proof.
  unfold owners_midpoint. destruct c as [s|]; [|lia].
  destruct (Transform.parse_owners_body s) eqn:E; [|lia].
  eapply parse_owners_body_nonneg, E.
Qed.

(** One row of the metrics: the row of [metrics_row], unless its number of
    owners is too large for a float. *)
Lemma assign_metrics_cases now mx r :
  Transform.assign_metrics now mx r =
  if owners_fit_float r then Py.Ok (metrics_row now mx r)
  else Py.Raise Py.OverflowError.
Proof.
  unfold Transform.assign_metrics, metrics_row, owners_fit_float. cbv zeta.
  rewrite parse_owners_range_caught. cbn [Py.bind].
  fold (owners_midpoint (owners (raw r))).
  pose proof (owners_midpoint_nonneg (owners (raw r))) as H.
  unfold Py.float_of_int. rewrite (Z.abs_eq _ H), Z.leb_antisym.
  destruct (owners_midpoint (owners (raw r)) <? Py.float_overflow);
    reflexivity.
Qed.

Lemma apply_rows_cases {A B} (f : A -> Py.result B) (g : A -> B)
  (ok : A -> bool) e l :
  (forall a, f a = if ok a then Py.Ok (g a) else Py.Raise e) ->
  Transform.apply_rows f l =
  if forallb ok l then Py.Ok (map g l) else Py.Raise e.
Proof.
  intros H. induction l as [|a l IH]; [reflexivity|].
  cbn [Transform.apply_rows forallb map]. rewrite H, IH.
  destruct (ok a); [|reflexivity].
  destruct (forallb ok l); reflexivity.
Qed.

(** [create_calculated_metrics] on a table: the rows of [metrics_row] when
    it returns, [TypeError] on a table without rows whose [owners] column
    is of dtype [str], [OverflowError] on a number of owners too large for
    a float. *)
Lemma create_calculated_metrics_cases now dt df :
  Transform.create_calculated_metrics now dt df =
  if metrics_return dt df
  then Py.Ok (map (metrics_row now
                     (Pd.max (map (fun r => average_playtime (raw r)) df)))
                df)
  else Py.Raise match df with
                | [] => Py.TypeError
                | _ :: _ => Py.OverflowError
                end.
Proof.
  unfold Transform.create_calculated_metrics, metrics_return.
  destruct df as [|r df]; [destruct dt; reflexivity|].
  apply apply_rows_cases. intros a. apply assign_metrics_cases.
Qed.

Lemma create_calculated_metrics_rows now dt df df' :
  Transform.create_calculated_metrics now dt df = Py.Ok df' ->
  df' = map (metrics_row now
               (Pd.max (map (fun r => average_playtime (raw r)) df))) df.
Proof.
  rewrite create_calculated_metrics_cases.
  destruct (metrics_return dt df); [|discriminate].
  intros [= <-]. reflexivity.
Qed.

Lemma create_calculated_metrics_returns now dt df :
  metrics_return dt df = true ->
  Transform.create_calculated_metrics now dt df
  = Py.Ok (map (metrics_row now
                  (Pd.max (map (fun r => average_playtime (raw r)) df))) df).
Proof.
  intros H. rewrite create_calculated_metrics_cases, H. reflexivity.
Qed.

Ltac price_cases p :=
  unfold price_category_of, Transform.cut_cell, Pd.cut,
    Transform.price_bins, Transform.price_labels;
  cbn [Pd.searchsorted_left Pd.edge_ltb Pd.edge_eqb List.length];
  unfold Pd.Qltb;
  destruct (Qeq_bool 0 p) eqn:E0;
  [apply Qeq_bool_iff in E0 | apply Qeq_bool_neq in E0];
  repeat match goal with
  | |- context [Qle_bool p ?k] =>
      let E := fresh "E" in
      destruct (Qle_bool p k) eqn:E;
      [apply Qle_bool_iff in E
      | assert (~ (p <= k)%Q)
          by (intros HH; apply Qle_bool_iff in HH; congruence); clear E]
  end;
  cbn [negb Nat.eqb orb nth_error Nat.sub];
  try reflexivity; exfalso; Lqa.lra.

Lemma price_category_of_bins (p : Q) :
  ((p < 0)%Q -> price_category_of p = None)
  /\ ((0 <= p <= 5)%Q -> price_category_of p = Some "Free/Cheap")
  /\ ((5 < p <= 15)%Q -> price_category_of p = Some "Budget")
  /\ ((15 < p <= 30)%Q -> price_category_of p = Some "Standard")
  /\ ((30 < p <= 60)%Q -> price_category_of p = Some "Premium")
  /\ ((60 < p)%Q -> price_category_of p = Some "AAA").
Proof.
  repeat apply conj; intros H; price_cases p.
Qed.

Lemma metrics_return_rows dt df :
  df <> [] -> forallb owners_fit_float df = true -> metrics_return dt df = true.
Proof. destruct df; [congruence | intros _ H; exact H]. Qed.

(** C9.  In the table that [create_calculated_metrics] returns, every row
    has the category of its price, and the categories are bins closed on the
    right: a price from 0 to 5 is ["Free/Cheap"], above 5 and up to 15
    ["Budget"], above 15 and up to 30 ["Standard"], above 30 and up to 60
    ["Premium"], above 60 ["AAA"].  So 5.00 is ["Free/Cheap"] and 5.01 is
    ["Budget"], and the boundaries 15, 30 and 60 fall in the lower category
    as well.  The stage returns such a table, with the prices of its input
    row for row, on every table that has a row and whose numbers of owners
    fit a float. *)
Theorem price_category_upper_inclusive :
  (forall now dt df df' r,
     Transform.create_calculated_metrics now dt df = Py.Ok df' ->
     In r df' ->
     price_category (metrics r)
     = match price (raw r) with
       | Some p => price_category_of p
       | None => None
       end)
  /\ (forall now dt df,
        df <> [] ->
        forallb owners_fit_float df = true ->
        exists df',
          Transform.create_calculated_metrics now dt df = Py.Ok df'
          /\ map (fun r => price (raw r)) df'
             = map (fun r => price (raw r)) df)
  /\ (forall p : Q,
        ((0 <= p <= 5)%Q -> price_category_of p = Some "Free/Cheap")
        /\ ((5 < p <= 15)%Q -> price_category_of p = Some "Budget")
        /\ ((15 < p <= 30)%Q -> price_category_of p = Some "Standard")
        /\ ((30 < p <= 60)%Q -> price_category_of p = Some "Premium")
        /\ ((60 < p)%Q -> price_category_of p = Some "AAA"))
  /\ price_category_of 5.00 = Some "Free/Cheap"
  /\ price_category_of 5.01 = Some "Budget"
  /\ price_category_of 15 = Some "Budget"
  /\ price_category_of 15.01 = Some "Standard"
  /\ price_category_of 30 = Some "Standard"
  /\ price_category_of 30.01 = Some "Premium"
  /\ price_category_of 60 = Some "Premium"
  /\ price_category_of 60.01 = Some "AAA".
Proof.
  split; [|split; [|split]].
  - intros now dt df df' r E Hin.
    apply create_calculated_metrics_rows in E. subst df'.
    apply in_map_iff in Hin as (r0 & <- & _).
    unfold metrics_row, price_category_of. cbn [price_category metrics raw].
    destruct (price (raw r0)); reflexivity.
  - intros now dt df Hne Hfit. eexists. split.
    + apply create_calculated_metrics_returns, metrics_return_rows; assumption.
    + rewrite map_map. reflexivity.
  - intros p. pose proof (price_category_of_bins p). tauto.
  - repeat apply conj; reflexivity.
Qed.

Example price_category_free_and_negative :
  price_category_of 0 = Some "Free/Cheap"
  /\ price_category_of (-1) = None.
Proof. split; reflexivity. Qed.

Lemma wrap_int64_small z :
  - 9223372036854775808 <= z < 9223372036854775808 -> wrap_int64 z = z.
Proof.
  intros H. unfold wrap_int64. rewrite Z.mod_small by lia. lia.
Qed.

Lemma wrap_int64_over z :
  9223372036854775808 <= z < 18446744073709551616 ->
  wrap_int64 z = z - 18446744073709551616.
Proof.
  intros H. unfold wrap_int64.
  replace (z + 9223372036854775808)
    with (z - 9223372036854775808 + 1 * 18446744073709551616) by lia.
  rewrite Z.mod_add by lia. rewrite Z.mod_small by lia. lia.
Qed.

Lemma positive_percentage_of_range p t :
  0 <= p <= t ->
  (0 <= Transform.positive_percentage_of (Some p) (Some t) <= 100)%Q
  /\ ((Transform.positive_percentage_of (Some p) (Some t) == 0)%Q
      <-> p = 0).
Proof.
  intros Hp. unfold Transform.positive_percentage_of.
  destruct (0 <? t) eqn:E.
  - apply Z.ltb_lt in E.
    destruct t as [|t|t]; try lia.
    unfold Qle, Qeq, Qdiv, Qmult, Qinv, inject_Z. cbn.
    rewrite ?Pos.mul_1_r, ?Z.mul_1_r. repeat split; lia.
  - apply Z.ltb_ge in E. assert (p = 0) by lia. subst p.
    repeat split; try reflexivity; discriminate.
Qed.

(** The percentage of two rating counts held in int64 columns lies between
    0 and 100, also when their sum wraps around: the sum is then negative
    and the percentage 0. *)
Lemma positive_percentage_int64 p n :
  0 <= p < 9223372036854775808 -> 0 <= n < 9223372036854775808 ->
  (0 <= Transform.positive_percentage_of (Some p) (add_cell (Some p) (Some n))
   <= 100)%Q.
Proof.
  intros Hp Hn. cbn [add_cell].
  destruct (Z.lt_ge_cases (p + n) 9223372036854775808) as [H|H].
  - rewrite wrap_int64_small by lia.
    apply positive_percentage_of_range. lia.
  - rewrite wrap_int64_over by lia.
    unfold Transform.positive_percentage_of.
    destruct (Z.ltb_spec 0 (p + n - 18446744073709551616)); [lia|].
    split; discriminate.
Qed.

(** C3, as the code has it.  For every row of the table that
    [create_calculated_metrics] returns whose two rating counts are present
    and not negative and have a sum of at most 2^53, which an int64 column
    holds and a float64 column holds exactly, [total_ratings] is their sum,
    [positive_percentage] lies between 0 and 100, and [positive_percentage]
    is 0 exactly when [positive_ratings] is 0; this is the case of every row
    with [total_ratings = 0]. *)
Theorem positive_percentage_bounds now dt df df' r p n :
  Transform.create_calculated_metrics now dt df = Py.Ok df' ->
  In r df' ->
  positive_ratings (raw r) = Some p ->
  negative_ratings (raw r) = Some n ->
  0 <= p -> 0 <= n -> p + n <= 9007199254740992 ->
  total_ratings (metrics r) = Some (p + n)
  /\ (0 <= positive_percentage (metrics r) <= 100)%Q
  /\ ((positive_percentage (metrics r) == 0)%Q <-> p = 0)
  /\ (p + n = 0 -> (positive_percentage (metrics r) == 0)%Q).
Proof.
  intros E Hin Hp Hn Hp0 Hn0 Hsum.
  apply create_calculated_metrics_rows in E. subst df'.
  apply in_map_iff in Hin as (r0 & <- & _).
  cbn [metrics_row raw metrics total_ratings positive_percentage] in *.
  rewrite Hp, Hn. cbn [add_cell]. rewrite wrap_int64_small by lia.
  destruct (positive_percentage_of_range p (p + n)) as [Hr Hz]; [lia|].
  repeat split; try apply Hr; try apply Hz.
  intros H. apply Hz. lia.
Qed.

Lemma positive_percentage_bounds_witness :
  let r0 := game 620 "Portal 2" "2011-04-19" 90 10 200 "Valve" in
  let r := metrics_row 2024 (Some 200) r0 in
  total_ratings (metrics r) = Some (90 + 10)
  /\ (0 <= positive_percentage (metrics r) <= 100)%Q
  /\ ((positive_percentage (metrics r) == 0)%Q <-> 90 = 0)
  /\ (90 + 10 = 0 -> (positive_percentage (metrics r) == 0)%Q).
Proof.
  intros r0 r.
  apply (positive_percentage_bounds 2024 Transform.str_dtype [r0] [r] r 90 10).
  - reflexivity.
  - left. reflexivity.
  - reflexivity.
  - reflexivity.
  - lia.
  - lia.
  - lia.
Defined.

(** C3 as stated fails on a row with no positive rating and five negative
    ones: its [positive_percentage] is 0 although its [total_ratings] is
    5. *)
Lemma positive_percentage_zero_with_ratings :
  let r0 := game 630 "Alien Swarm" "2010-07-19" 0 5 200 "Valve" in
  let r := metrics_row 2024 (Some 200) r0 in
  Transform.create_calculated_metrics 2024 Transform.str_dtype [r0] = Py.Ok [r]
  /\ (positive_percentage (metrics r) == 0)%Q
  /\ total_ratings (metrics r) = Some 5
  /\ ~ ((positive_percentage (metrics r) == 0)%Q
        <-> total_ratings (metrics r) = Some 0).
Proof.
  intros r0 r. repeat apply conj.
  - reflexivity.
  - reflexivity.
  - reflexivity.
  - intros [H _]. specialize (H ltac:(reflexivity)). discriminate H.
Qed.

(** Beyond 2^63 the sum of the two counts wraps around: two counts of 2^62
    have a negative [total_ratings] and a [positive_percentage] of 0. *)
Example total_ratings_wraps_around :
  let r0 := game 640 "Portal" "2011-04-19" (2 ^ 62) (2 ^ 62) 200 "Valve" in
  let r := metrics_row 2024 (Some 200) r0 in
  Transform.create_calculated_metrics 2024 Transform.str_dtype [r0] = Py.Ok [r]
  /\ total_ratings (metrics r) = Some (- 2 ^ 63)
  /\ positive_percentage (metrics r) = 0%Q.
Proof. intros r0 r. repeat apply conj; reflexivity. Qed.

(** ** transform_dates (C2) *)

Section DatesLemmas.

Import Transform.

Lemma transform_dates_filter pd self df :
  transform_dates pd self df =
  filter (fun r => ge_cell (release_year (dates r)) (min_year self))
    (assign_dates df (to_datetime pd (map (fun r => release_date (raw r)) df))).
Proof. unfold transform_dates. cbv zeta. apply loc_map. Qed.

Lemma year_of_assign_date self r c :
  ge_cell (release_year (dates (assign_date r c))) (min_year self)
  = kept_date self c.
Proof. destruct c; reflexivity. Qed.

Lemma In_assign_dates (p : GameRecord -> bool) r : forall df col,
  In r (filter p (assign_dates df col)) <->
  exists i r0 c, nth_error df i = Some r0 /\ nth_error col i = Some c
                 /\ r = assign_date r0 c /\ p r = true.
Proof.
  induction df as [|r1 df IH]; intros col.
  - simpl. split; [contradiction|].
    intros (i & r0 & c & H & _). destruct i; discriminate.
  - destruct col as [|c1 col].
    + simpl. split; [contradiction|].
      intros (i & r0 & c & _ & H & _). destruct i; discriminate.
    + cbn [assign_dates filter]. split.
      * intros H.
        assert (H' : (r = assign_date r1 c1 /\ p r = true)
                     \/ In r (filter p (assign_dates df col))).
        { destruct (p (assign_date r1 c1)) eqn:E; [|right; exact H].
          destruct H as [<-|H]; [left; auto | right; exact H]. }
        destruct H' as [[-> Hp]|H'].
        -- exists 0%nat, r1, c1. auto.
        -- apply IH in H' as (i & r0 & c & H1 & H2 & H3 & H4).
           exists (S i), r0, c. auto.
      * intros (i & r0 & c & H1 & H2 & H3 & H4). destruct i as [|i].
        -- simpl in H1, H2. injection H1 as <-. injection H2 as <-.
           subst r. rewrite H4. left. reflexivity.
        -- simpl in H1, H2.
           assert (Hin : In r (filter p (assign_dates df col))).
           { apply IH. exists i, r0, c. auto. }
           destruct (p (assign_date r1 c1)); [right|]; exact Hin.
Qed.

Lemma length_kept self : forall df col,
  List.length df = List.length col ->
  List.length
    (filter (fun r => ge_cell (release_year (dates r)) (min_year self))
       (assign_dates df col))
  = List.length (filter (kept_date self) col).
Proof.
  induction df as [|r df IH]; intros [|c col] H; try discriminate; auto.
  cbn [assign_dates filter]. rewrite year_of_assign_date.
  injection H as H. destruct (kept_date self c); simpl; rewrite IH; auto.
Qed.

End DatesLemmas.

(** C2, as the code has it.  [transform_dates] does not raise on an
    unparseable [release_date]: the cell becomes NaT and the fields derived
    from it are missing.  The stage then keeps exactly the rows whose
    [release_date] was converted to a date of a year at or above the
    configured minimum: every row it returns has a date and a year, and the
    number of rows it returns is the number of cells converted to such a
    date.  A row with an unparseable date is removed like a row of an
    earlier year. *)
Theorem transform_dates_keeps_dated_rows :
  (forall pd self df r,
     In r (Transform.transform_dates pd self df) <->
     exists i r0 t,
       nth_error df i = Some r0
       /\ nth_error (Transform.to_datetime pd
                       (map (fun r => release_date (raw r)) df)) i
          = Some (Some t)
       /\ Transform.min_year self <= ts_year t
       /\ r = Transform.assign_date r0 (Some t))
  /\ (forall pd self df,
        List.length (Transform.transform_dates pd self df)
        = List.length
            (filter (kept_date self)
               (Transform.to_datetime pd
                  (map (fun r => release_date (raw r)) df))))
  /\ (forall r0,
        release_date (raw (Transform.assign_date r0 None)) = NaT
        /\ dates (Transform.assign_date r0 None) = no_dates
        /\ forall pd self df,
             ~ In (Transform.assign_date r0 None)
                  (Transform.transform_dates pd self df)).
Proof.
  assert (H1 : forall pd self df r,
     In r (Transform.transform_dates pd self df) <->
     exists i r0 t,
       nth_error df i = Some r0
       /\ nth_error (Transform.to_datetime pd
                       (map (fun r => release_date (raw r)) df)) i
          = Some (Some t)
       /\ Transform.min_year self <= ts_year t
       /\ r = Transform.assign_date r0 (Some t)).
  { intros pd self df r.
    rewrite transform_dates_filter, In_assign_dates. split.
    - intros (i & r0 & c & Hr & Hc & -> & Hy).
      rewrite year_of_assign_date in Hy.
      destruct c as [t|]; [|discriminate].
      exists i, r0, t. repeat split; auto. apply Z.leb_le, Hy.
    - intros (i & r0 & t & Hr & Hc & Hy & ->).
      exists i, r0, (Some t). repeat split; auto.
      rewrite year_of_assign_date. apply Z.leb_le, Hy. }
  split; [exact H1 | split].
  - intros pd self df. rewrite transform_dates_filter.
    apply length_kept.
    rewrite Transform.to_datetime_aligned, length_map. reflexivity.
  - intros r0. repeat split.
    intros pd self df Hin. apply H1 in Hin as (i & r1 & t & _ & _ & _ & E).
    apply (f_equal (fun r => release_year (dates r))) in E. discriminate E.
Qed.

(** C2 as stated fails: a row whose [release_date] cannot be parsed is
    dropped by the stage, although no year below the minimum was parsed
    from it. *)
Lemma unparseable_date_row_dropped :
  let self := Transform.mkTransformer Transform.MIN_YEAR Transform.MIN_PRICE in
  let r0 := game 440 "Team Fortress 2" "Coming soon" 90 10 200 "Valve" in
  Transform.to_datetime iso_reader [release_date (raw r0)] = [None]
  /\ Transform.transform_dates iso_reader self [r0] = []
  /\ ~ In (Transform.assign_date r0 None)
          (Transform.transform_dates iso_reader self [r0]).
Proof.
  intros self r0. repeat apply conj.
  - reflexivity.
  - reflexivity.
  - intros H. exact H.
Qed.

Example transform_dates_mixed_table :
  let self := Transform.mkTransformer 2010 0 in
  map (fun r => (appid (raw r), release_year (dates r),
                 release_quarter (dates r)))
    (Transform.transform_dates iso_reader self
       [game 1 "A" "2009-12-31" 1 1 1 "d"; game 2 "B" "2010-01-01" 1 1 1 "d";
        game 3 "C" "soon" 1 1 1 "d"; game 4 "D" "2016-02-29" 1 1 1 "d";
        game 5 "E" "2015-02-29" 1 1 1 "d"; game 6 "F" "2019-11-05" 1 1 1 "d"])
  = [(2, Some 2010, Some 1); (4, Some 2016, Some 1); (6, Some 2019, Some 4)].
Proof. reflexivity. Qed.

(** ** run_pipeline and main (C1) *)

Section PipelineLemmas.

Import Py Pipeline.

(** What the body of [run_pipeline] leaves behind: a load entry is in the
    statistics only when the body returned, and the warning about the
    targets is in the log exactly when the entry counts fewer than three. *)
Lemma pipeline_body_load w a s s' res ls :
  stats_load (execution_stats s) = None ->
  ~ In load_warning (log s) ->
  pipeline_body w a s = (s', res) ->
  stats_load (execution_stats s') = Some ls ->
  res = Ok true
  /\ 0 <= formats_saved ls <= 3
  /\ (formats_saved ls < 3 <-> In load_warning (log s')).
Proof.
  intros Hs Hl. unfold pipeline_body, run_load.
  destruct a as [se st sl]. destruct se, st, sl;
    cbn [negb skip_extract skip_transform skip_load];
    repeat match goal with
    | |- context [match run_extract w with _ => _ end] =>
        destruct (run_extract w)
    | |- context [match run_transform w ?d with _ => _ end] =>
        destruct (run_transform w d) as [[? ?]|]
    | |- context [if save_to_csv w ?d then _ else _] =>
        destruct (save_to_csv w d)
    | |- context [if save_to_excel w ?d then _ else _] =>
        destruct (save_to_excel w d)
    | |- context [if save_to_database w ?d then _ else _] =>
        destruct (save_to_database w d)
    end;
    cbn -[load_warning In]; intros [= <- <-];
    cbn -[load_warning In]; rewrite ?Hs; intros [= <-];
    cbn -[load_warning In];
    (split; [reflexivity | split; [lia|]]);
    unfold load_warning in *; rewrite ?in_app_iff; cbn [In];
    (split; intros HH; try lia; intuition (try congruence; try lia)).
Qed.

End PipelineLemmas.

Lemma main_exit_status w a :
  (snd (Pipeline.main w a) = 0 \/ snd (Pipeline.main w a) = 1)
  /\ (snd (Pipeline.main w a) = 1 <->
      exists e, snd (Pipeline.pipeline_body w a Pipeline.initial) = Py.Raise e).
Proof.
  unfold Pipeline.main, Pipeline.run_pipeline.
  destruct (Pipeline.pipeline_body w a Pipeline.initial) as [s [b|e]] eqn:E.
  - assert (b = true) as ->.
    { revert E. unfold Pipeline.pipeline_body, Pipeline.run_load.
      repeat match goal with
      | |- context [match ?x with _ => _ end] =>
          lazymatch x with
          | context [match _ with _ => _ end] => fail
          | _ => destruct x
          end
      end; cbn; congruence. }
    cbn. split; [auto|]. split; [discriminate | intros [e He]; discriminate].
  - cbn. split; [auto|]. split; [eauto | reflexivity].
Qed.

(** C1, as the code has it.  In every run in which the load stage is
    executed, the process exits with status 0, whatever the number of
    targets written, between none and three; when fewer than three were
    written [run_pipeline] logs a warning and still reports success. *)
Theorem load_shortfall_exits_zero w a ls :
  Pipeline.stats_load (Pipeline.execution_stats (fst (Pipeline.main w a)))
    = Some ls ->
  snd (Pipeline.main w a) = 0
  /\ 0 <= Pipeline.formats_saved ls <= 3
  /\ (Pipeline.formats_saved ls < 3 <->
      In load_warning (Pipeline.log (fst (Pipeline.main w a)))).
Proof.
  unfold Pipeline.main, Pipeline.run_pipeline.
  destruct (Pipeline.pipeline_body w a Pipeline.initial) as [s res] eqn:E.
  assert (H0 : Pipeline.stats_load
                 (Pipeline.execution_stats Pipeline.initial) = None)
    by reflexivity.
  assert (H1 : ~ In load_warning (Pipeline.log Pipeline.initial))
    by (intros []).
  destruct res as [b|e]; cbn [fst snd].
  - intros H.
    destruct (pipeline_body_load w a _ _ _ ls H0 H1 E) as (Hb & Hr & Hw).
    { destruct b; exact H. }
    injection Hb as ->. cbn [fst snd] in *. auto.
  - cbn. intros H.
    destruct (pipeline_body_load w a _ _ _ ls H0 H1 E H) as (Hb & _).
    discriminate Hb.
Qed.

Lemma load_shortfall_exits_zero_witness :
  snd (Pipeline.main spreadsheet_fails run_all) = 0
  /\ 0 <= 2 <= 3
  /\ (2 < 3 <->
      In load_warning
         (Pipeline.log (fst (Pipeline.main spreadsheet_fails run_all)))).
Proof.
  apply (load_shortfall_exits_zero spreadsheet_fails run_all
           {| Pipeline.formats_saved := 2; Pipeline.total_formats := 3 |}).
  reflexivity.
Defined.

(** C1 as stated fails: the load stage runs, the spreadsheet is not
    written, two targets out of three succeed, and the process exits with
    status 0. *)
Lemma partial_load_exits_zero :
  Pipeline.stats_load
    (Pipeline.execution_stats (fst (Pipeline.main spreadsheet_fails run_all)))
  = Some {| Pipeline.formats_saved := 2; Pipeline.total_formats := 3 |}
  /\ snd (Pipeline.main spreadsheet_fails run_all) = 0
  /\ Pipeline.log (fst (Pipeline.main spreadsheet_fails run_all))
     = [load_warning].
Proof. repeat apply conj; reflexivity. Qed.

Example empty_input_exits_one :
  let w := {| Pipeline.extract_csv_data := Py.Ok [];
              Pipeline.owners_dtype := Transform.object_dtype;
              Pipeline.get_data_info := fun _ => Py.Ok tt;
              Pipeline.save_to_csv := fun _ => true;
              Pipeline.save_to_excel := fun _ => true;
              Pipeline.save_to_database := fun _ => true;
              Pipeline.dates_reader := iso_reader;
              Pipeline.now_year := 2024 |} in
  snd (Pipeline.pipeline_body w run_all Pipeline.initial)
    = Py.Raise Py.ZeroDivisionError
  /\ snd (Pipeline.main w run_all) = 1.
Proof. split; reflexivity. Qed.

Example load_without_data_exits_one :
  snd (Pipeline.main spreadsheet_fails
         {| Pipeline.skip_extract := true; Pipeline.skip_transform := true;
            Pipeline.skip_load := false |}) = 1.
Proof. reflexivity. Qed.

(** ** drop_duplicates *)

Section DuplicatesLemmas.

Import Transform.

Lemma kept_from_cons seen r df :
  kept_from seen (r :: df) =
  if existsb (Z.eqb (key r)) seen then kept_from seen df
  else r :: kept_from (key r :: seen) df.
Proof.
  unfold kept_from. cbn [map Pd.duplicated_from].
  destruct (existsb (Z.eqb (key r)) seen); reflexivity.
Qed.

Lemma drop_duplicates_kept df : drop_duplicates df = kept_from [] df.
Proof. reflexivity. Qed.

Lemma filter_kept_from k : forall df seen,
  filter (has_key k) (kept_from seen df) =
  if existsb (Z.eqb k) seen then []
  else match first_occurrence k df with
       | Some r => [r]
       | None => []
       end.
Proof.
  unfold first_occurrence.
  induction df as [|r df IH]; intros seen.
  - cbn. destruct (existsb (Z.eqb k) seen); reflexivity.
  - rewrite kept_from_cons. cbn [find]. unfold has_key at 2.
    destruct (existsb (Z.eqb (key r)) seen) eqn:Er.
    + rewrite IH. destruct (existsb (Z.eqb k) seen) eqn:Ek; [reflexivity|].
      destruct (Z.eqb_spec (key r) k) as [E|_]; [|reflexivity].
      rewrite E in Er. congruence.
    + cbn [filter]. rewrite IH. cbn [existsb]. unfold has_key at 1.
      rewrite (Z.eqb_sym k (key r)).
      destruct (Z.eqb_spec (key r) k) as [E|_].
      * cbn [orb]. rewrite <- E, Er. reflexivity.
      * reflexivity.
Qed.

Lemma kept_from_keys : forall df seen,
  NoDup (map key (kept_from seen df))
  /\ forall k, In k (map key (kept_from seen df)) ->
               existsb (Z.eqb k) seen = false.
Proof.
  induction df as [|r df IH]; intros seen.
  - cbn. split; [constructor | contradiction].
  - rewrite kept_from_cons.
    destruct (existsb (Z.eqb (key r)) seen) eqn:Er; [apply IH|].
    destruct (IH (key r :: seen)) as [Hn Hs]. cbn [map]. split.
    + constructor; [|exact Hn]. intros Hin. apply Hs in Hin.
      cbn in Hin. rewrite Z.eqb_refl in Hin. discriminate.
    + intros k [<-|Hin]; [exact Er|].
      apply Hs in Hin. cbn in Hin. apply orb_false_iff in Hin. apply Hin.
Qed.

Lemma kept_from_NoDup : forall df seen,
  NoDup (map key df) ->
  (forall k, In k (map key df) -> existsb (Z.eqb k) seen = false) ->
  kept_from seen df = df.
Proof.
  induction df as [|r df IH]; intros seen Hn Hs; [reflexivity|].
  rewrite kept_from_cons, (Hs (key r)) by (left; reflexivity).
  f_equal. inversion Hn as [|? ? Hr Hn']; subst. apply IH; [exact Hn'|].
  intros k Hin. cbn. rewrite (Hs k) by (right; exact Hin).
  destruct (Z.eqb_spec k (key r)) as [->|_]; [contradiction | reflexivity].
Qed.

Lemma drop_duplicates_NoDup df : NoDup (map key (drop_duplicates df)).
Proof. rewrite drop_duplicates_kept. apply kept_from_keys. Qed.

Lemma drop_duplicates_unique df :
  NoDup (map key df) -> drop_duplicates df = df.
Proof.
  intros H. rewrite drop_duplicates_kept. apply kept_from_NoDup; auto.
Qed.

Lemma drop_duplicates_first k df :
  filter (has_key k) (drop_duplicates df) =
  match first_occurrence k df with
  | Some r => [r]
  | None => []
  end.
Proof. rewrite drop_duplicates_kept, filter_kept_from. reflexivity. Qed.

End DuplicatesLemmas.

(** ** The chain as one pass over the de-duplicated table *)

Section ChainLemmas.

Import Transform.

Variable pd : DateReader.
Variable now : Z.
Variable self : SteamDataTransformer.

Lemma clean_basic_data_rows df :
  clean_basic_data df = map clean_row (drop_duplicates df).
Proof.
  unfold clean_basic_data, _handle_missing_values. cbv zeta.
  rewrite map_map. reflexivity.
Qed.

(** The chain on a table: the rows of [chain_rows] when the metrics return
    on the dated table, and the exception of the metrics otherwise. *)
Lemma transform_chain_cases dt df :
  transform_chain pd now self dt df =
  if metrics_return dt (dated_table pd self df)
  then Py.Ok (chain_rows pd now self df)
  else Py.Raise match dated_table pd self df with
                | [] => Py.TypeError
                | _ :: _ => Py.OverflowError
                end.
Proof.
  unfold transform_chain, chain_rows, dated_table, max_playtime. cbv zeta.
  rewrite create_calculated_metrics_cases.
  destruct (metrics_return dt (transform_dates pd self (clean_basic_data df)));
    [|reflexivity].
  cbn [Py.bind]. unfold process_categorical_data.
  rewrite apply_business_rules_filter, map_map. reflexivity.
Qed.

Lemma transform_chain_rows dt df out :
  transform_chain pd now self dt df = Py.Ok out ->
  out = chain_rows pd now self df
  /\ metrics_return dt (dated_table pd self df) = true.
Proof.
  rewrite transform_chain_cases.
  destruct (metrics_return dt (dated_table pd self df)); [|discriminate].
  intros [= <-]. split; reflexivity.
Qed.

Lemma transform_chain_returns dt df :
  metrics_return dt (dated_table pd self df) = true ->
  transform_chain pd now self dt df = Py.Ok (chain_rows pd now self df).
Proof. intros H. rewrite transform_chain_cases, H. reflexivity. Qed.

Lemma key_clean_row r : key (clean_row r) = key r.
Proof. reflexivity. Qed.

Lemma key_derived mx r : key (assign_categorical (metrics_row now mx r)) = key r.
Proof. reflexivity. Qed.

Lemma NoDup_keys_filter (p : GameRecord -> bool) df :
  NoDup (map key df) -> NoDup (map key (filter p df)).
Proof.
  induction df as [|r df IH]; cbn [map filter]; intros H; [constructor|].
  inversion H as [|? ? Hr Hn]; subst.
  destruct (p r); [|auto]. cbn [map]. constructor; [|auto].
  intros Hin. apply Hr. apply in_map_iff in Hin as (x & Hx & Hin).
  apply filter_In in Hin as [Hin _]. apply in_map_iff. eauto.
Qed.

Lemma keys_assign_dates : forall df col k,
  In k (map key (assign_dates df col)) -> In k (map key df).
Proof.
  induction df as [|r df IH]; intros [|c col] k; cbn; try contradiction.
  intros [H|H]; [left; exact H | right; eapply IH, H].
Qed.

Lemma NoDup_keys_assign_dates : forall df col,
  NoDup (map key df) -> NoDup (map key (assign_dates df col)).
Proof.
  induction df as [|r df IH]; intros [|c col] H; cbn; try constructor.
  - inversion H; subst. intros Hin. apply keys_assign_dates in Hin. auto.
  - inversion H; subst. auto.
Qed.

Lemma NoDup_keys_map (f : GameRecord -> GameRecord) df :
  (forall r, key (f r) = key r) ->
  NoDup (map key df) -> NoDup (map key (map f df)).
Proof.
  intros Hf H. rewrite map_map.
  rewrite (map_ext _ key) by exact Hf. exact H.
Qed.

Lemma dated_table_NoDup df : NoDup (map key (dated_table pd self df)).
Proof.
  unfold dated_table. rewrite transform_dates_filter.
  apply NoDup_keys_filter, NoDup_keys_assign_dates.
  rewrite clean_basic_data_rows.
  apply NoDup_keys_map; [apply key_clean_row | apply drop_duplicates_NoDup].
Qed.

Lemma chain_rows_NoDup df : NoDup (map key (chain_rows pd now self df)).
Proof.
  unfold chain_rows. apply NoDup_keys_filter, NoDup_keys_map.
  - intros r. apply key_derived.
  - apply dated_table_NoDup.
Qed.

(** Every row of the dated table comes from a row kept by
    [drop_duplicates], cleaned, with a date of an admitted year. *)
Lemma dated_table_rows df r :
  In r (dated_table pd self df) ->
  exists r0 t, In r0 (drop_duplicates df)
               /\ min_year self <= ts_year t
               /\ r = assign_date (clean_row r0) (Some t).
Proof.
  unfold dated_table. rewrite transform_dates_filter, In_assign_dates.
  intros (i & r1 & c & Hr & _ & -> & Hy).
  rewrite year_of_assign_date in Hy. destruct c as [t|]; [|discriminate].
  apply nth_error_In in Hr. rewrite clean_basic_data_rows in Hr.
  apply in_map_iff in Hr as (r0 & <- & Hr0).
  exists r0, t. repeat split; auto. apply Z.leb_le, Hy.
Qed.

Lemma chain_rows_rows df r :
  In r (chain_rows pd now self df) ->
  exists r0 t, In r0 (drop_duplicates df)
               /\ min_year self <= ts_year t
               /\ business_rule r = true
               /\ r = assign_categorical
                        (metrics_row now (max_playtime (dated_table pd self df))
                           (assign_date (clean_row r0) (Some t))).
Proof.
  unfold chain_rows. rewrite filter_In, in_map_iff.
  intros [(d & <- & Hd) Hb].
  apply dated_table_rows in Hd as (r0 & t & H0 & Ht & ->).
  exists r0, t. auto.
Qed.

Lemma kept_is_first_occurrence df r0 :
  In r0 (drop_duplicates df) -> first_occurrence (key r0) df = Some r0.
Proof.
  intros H.
  assert (Hin : In r0 (filter (has_key (key r0)) (drop_duplicates df))).
  { apply filter_In. split; [exact H | apply Z.eqb_refl]. }
  rewrite drop_duplicates_first in Hin.
  destruct (first_occurrence (key r0) df) as [r|]; [|contradiction].
  destruct Hin as [->|[]]. reflexivity.
Qed.

Lemma drop_duplicates_idempotent df :
  drop_duplicates (drop_duplicates df) = drop_duplicates df.
Proof. apply drop_duplicates_unique, drop_duplicates_NoDup. Qed.

End ChainLemmas.

(** ** De-duplication (C7) *)

Lemma filter_has_key_map (f : GameRecord -> GameRecord) k df :
  (forall r, key (f r) = key r) ->
  filter (has_key k) (map f df) = map f (filter (has_key k) df).
Proof.
  intros Hf. induction df as [|r df IH]; cbn [map filter]; auto.
  assert (E : has_key k (f r) = has_key k r)
    by (unfold has_key; rewrite Hf; reflexivity).
  rewrite E. destruct (has_key k r); cbn [map]; rewrite IH; reflexivity.
Qed.

Lemma filter_has_key_NoDup df r :
  NoDup (map key df) -> In r df -> filter (has_key (key r)) df = [r].
Proof.
  induction df as [|a df IH]; cbn [map filter In]; [contradiction|].
  intros Hn Hin. inversion Hn as [|? ? Ha Hn']; subst.
  destruct Hin as [->|Hin].
  - unfold has_key at 1. rewrite Z.eqb_refl. f_equal.
    destruct (filter (has_key (key r)) df) as [|b l] eqn:E; [reflexivity|].
    exfalso. apply Ha.
    assert (Hb : In b (filter (has_key (key r)) df)) by (rewrite E; left; auto).
    apply filter_In in Hb as [Hb Hk]. apply Z.eqb_eq in Hk.
    rewrite <- Hk. apply in_map, Hb.
  - destruct (has_key (key r) a) eqn:Ek.
    + exfalso. apply Ha. apply Z.eqb_eq in Ek. rewrite Ek.
      apply in_map, Hin.
    + apply IH; assumption.
Qed.

Lemma first_occurrence_key k df r0 :
  first_occurrence k df = Some r0 -> key r0 = k.
Proof.
  intros H. apply find_some in H as [_ H]. apply Z.eqb_eq, H.
Qed.

Section FirstOccurrence.

Variable pd : Transform.DateReader.
Variable now : Z.
Variable self : Transform.SteamDataTransformer.

(** A row of the table the chain returns is the row derived from the first
    occurrence of its [appid], which is kept. *)
Lemma chain_rows_kept df r :
  In r (chain_rows pd now self df) ->
  exists r0 t,
    first_occurrence_kept pd now self df (key r) r0 t
    /\ r = derived_row now (max_playtime (dated_table pd self df)) r0 t.
Proof.
  unfold chain_rows. rewrite filter_In, in_map_iff.
  intros [(d & <- & Hd) Hb].
  destruct (dated_table_rows pd self df d Hd) as (r0 & t & H0 & Ht & ->).
  exists r0, t. split; [|reflexivity].
  split; [|split; [exact Hd | exact Hb]].
  apply (kept_is_first_occurrence df r0 H0).
Qed.

Lemma kept_in_chain_rows df k r0 t :
  first_occurrence_kept pd now self df k r0 t ->
  In (derived_row now (max_playtime (dated_table pd self df)) r0 t)
     (chain_rows pd now self df)
  /\ key (derived_row now (max_playtime (dated_table pd self df)) r0 t) = k.
Proof.
  intros (Hf & Hd & Hb). split.
  - unfold chain_rows. apply filter_In. split; [|exact Hb].
    apply in_map_iff. eexists. split; [|exact Hd]. reflexivity.
  - apply (first_occurrence_key k df r0 Hf).
Qed.

Lemma chain_rows_of_key df k :
  (forall r0 t,
     first_occurrence_kept pd now self df k r0 t ->
     filter (has_key k) (chain_rows pd now self df)
     = [derived_row now (max_playtime (dated_table pd self df)) r0 t])
  /\ ((forall r0 t, ~ first_occurrence_kept pd now self df k r0 t) ->
      filter (has_key k) (chain_rows pd now self df) = [])
  /\ (List.length (filter (has_key k) (chain_rows pd now self df)) = 1%nat
      <-> exists r0 t, first_occurrence_kept pd now self df k r0 t).
Proof.
  assert (Hkept : forall r0 t,
     first_occurrence_kept pd now self df k r0 t ->
     filter (has_key k) (chain_rows pd now self df)
     = [derived_row now (max_playtime (dated_table pd self df)) r0 t]).
  { intros r0 t H. apply kept_in_chain_rows in H as [Hin Hk].
    rewrite <- Hk. apply filter_has_key_NoDup; [|exact Hin].
    apply chain_rows_NoDup. }
  assert (Hnone : filter (has_key k) (chain_rows pd now self df) <> [] ->
                  exists r0 t, first_occurrence_kept pd now self df k r0 t).
  { destruct (filter (has_key k) (chain_rows pd now self df)) as [|r l] eqn:E;
      [congruence|]. intros _.
    assert (Hr : In r (filter (has_key k) (chain_rows pd now self df)))
      by (rewrite E; left; reflexivity).
    apply filter_In in Hr as [Hr Hk]. apply Z.eqb_eq in Hk.
    apply chain_rows_kept in Hr as (r0 & t & H & _).
    rewrite Hk in H. eauto. }
  split; [exact Hkept | split].
  - intros Hno.
    destruct (filter (has_key k) (chain_rows pd now self df)) as [|r l] eqn:E;
      [reflexivity|].
    destruct Hnone as (r0 & t & H); [discriminate|].
    exfalso. apply (Hno r0 t H).
  - split.
    + intros Hl. apply Hnone. intros E. rewrite E in Hl. discriminate.
    + intros (r0 & t & H). rewrite (Hkept r0 t H). reflexivity.
Qed.

End FirstOccurrence.

(** C7, as the code has it.  The first stage, [clean_basic_data], returns
    for every [appid] of the input exactly one row, the first occurrence
    with its defaults filled in and its texts stripped; the later
    occurrences have no effect on anything the chain computes.  In the
    table the chain returns, an [appid] has exactly one row when its first
    occurrence is kept, that is when its date is converted to a date that
    passes the year filter and the row derived from it passes the business
    rules; the row is then the one derived from the cleaned first
    occurrence.  The [appid] has no row otherwise.  The chain returns on
    every table that leaves the metrics a row and numbers of owners that fit
    a float. *)
Theorem first_occurrence_wins :
  (forall df k,
     filter (has_key k) (Transform.clean_basic_data df)
     = match first_occurrence k df with
       | Some r => [clean_row r]
       | None => []
       end)
  /\ (forall pd now self dt df,
        Transform.transform_chain pd now self dt (Transform.drop_duplicates df)
        = Transform.transform_chain pd now self dt df)
  /\ (forall pd now self dt df out k,
        Transform.transform_chain pd now self dt df = Py.Ok out ->
        (forall r0 t,
           first_occurrence_kept pd now self df k r0 t ->
           filter (has_key k) out
           = [derived_row now (max_playtime (dated_table pd self df)) r0 t])
        /\ ((forall r0 t, ~ first_occurrence_kept pd now self df k r0 t) ->
            filter (has_key k) out = [])
        /\ (List.length (filter (has_key k) out) = 1%nat
            <-> exists r0 t, first_occurrence_kept pd now self df k r0 t))
  /\ (forall pd now self dt df,
        dated_table pd self df <> [] ->
        forallb owners_fit_float (dated_table pd self df) = true ->
        exists out, Transform.transform_chain pd now self dt df = Py.Ok out).
Proof.
  split; [|split; [|split]].
  - intros df k. rewrite clean_basic_data_rows.
    rewrite filter_has_key_map by apply key_clean_row.
    rewrite drop_duplicates_first.
    destruct (first_occurrence k df); reflexivity.
  - intros pd now self dt df. unfold Transform.transform_chain.
    rewrite !clean_basic_data_rows, drop_duplicates_idempotent. reflexivity.
  - intros pd now self dt df out k E.
    apply transform_chain_rows in E as [-> _].
    apply chain_rows_of_key.
  - intros pd now self dt df Hne Hfit. eexists.
    apply transform_chain_returns, metrics_return_rows; assumption.
Qed.

(** C7 as stated fails: of two rows with the same [appid], the first has
    five ratings and is removed by the business rules, the second was
    removed as a duplicate, and the output has no row for that [appid]. *)
Lemma duplicated_appid_may_leave_no_row :
  let self := Transform.mkTransformer Transform.MIN_YEAR Transform.MIN_PRICE in
  let df := [game 10 "Left 4 Dead" "2012-01-01" 3 2 50 "Valve";
             game 10 "Left 4 Dead 2" "2013-01-01" 80 20 60 "Valve"] in
  List.length (filter (has_key 10) df) = 2%nat
  /\ Transform.transform_chain iso_reader 2024 self Transform.str_dtype df
     = Py.Ok []
  /\ forall out,
       Transform.transform_chain iso_reader 2024 self Transform.str_dtype df
       = Py.Ok out ->
       List.length (filter (has_key 10) out) <> 1%nat.
Proof.
  intros self df.
  assert (E : Transform.transform_chain iso_reader 2024 self
                Transform.str_dtype df = Py.Ok [])
    by reflexivity.
  repeat apply conj.
  - reflexivity.
  - exact E.
  - intros out H. rewrite E in H. injection H as <-. discriminate.
Qed.

Example duplicated_appid_first_kept :
  let self := Transform.mkTransformer Transform.MIN_YEAR Transform.MIN_PRICE in
  Py.bind
    (Transform.transform_chain iso_reader 2024 self Transform.str_dtype
       [game 10 " Left 4 Dead " "2012-01-01" 30 2 50 "Valve";
        game 20 "Dota 2" "2013-07-09" 900 100 500 "Valve";
        game 10 "Left 4 Dead 2" "2013-01-01" 80 20 60 "Valve"])
    (fun out => Py.Ok (map (fun r => (key r, name (raw r),
                                      total_ratings (metrics r))) out))
  = Py.Ok [(10, Some "Left 4 Dead", Some 32); (20, Some "Dota 2", Some 1000)].
Proof. reflexivity. Qed.

(** ** Running the chain on its own output (C4) *)

Section StripLemmas.

Import Py.

Lemma lstrip_head s c r : lstrip s = String c r -> isspace c = false.
Proof.
  induction s as [|a s IH]; cbn [lstrip]; [discriminate|].
  destruct (isspace a) eqn:E; [exact IH|].
  intros [= <- _]. exact E.
Qed.

Lemma rstrip_head c s :
  isspace c = false -> exists r, rstrip (String c s) = String c r.
Proof.
  intros H. cbn [rstrip]. rewrite H.
  destruct (rstrip s); eexists; reflexivity.
Qed.

Lemma rstrip_idempotent s : rstrip (rstrip s) = rstrip s.
Proof.
  induction s as [|c s IH]; [reflexivity|].
  cbn [rstrip]. destruct (rstrip s) as [|c' r] eqn:E.
  - destruct (isspace c) eqn:Ec; [reflexivity|].
    cbn [rstrip]. rewrite Ec. reflexivity.
  - change (rstrip (String c (String c' r))) with
      (match rstrip (String c' r) with
       | EmptyString => if isspace c then EmptyString else String c EmptyString
       | r' => String c r'
       end).
    rewrite IH. reflexivity.
Qed.

Lemma strip_idempotent s : strip (strip s) = strip s.
Proof.
  unfold strip.
  destruct (lstrip s) as [|c r] eqn:E; [reflexivity|].
  apply lstrip_head in E.
  destruct (rstrip_head c r E) as [r' Hr]. rewrite Hr.
  cbn [lstrip]. rewrite E, <- Hr. apply rstrip_idempotent.
Qed.

End StripLemmas.

Section IdempotenceLemmas.

Import Transform.

Lemma fillna_present {A} (v : A) c : notna c = true -> Pd.fillna v c = c.
Proof. destruct c; [reflexivity | discriminate]. Qed.

Lemma fillna_notna {A} (v : A) c : notna (Pd.fillna v c) = true.
Proof. destruct c; reflexivity. Qed.

Lemma clean_text_idempotent c : clean_text (clean_text c) = clean_text c.
Proof.
  unfold clean_text, Pd.replace_nan.
  destruct (String.eqb_spec (Py.strip (Pd.astype_str c)) "nan") as [E|E].
  - reflexivity.
  - cbn [Pd.astype_str]. rewrite strip_idempotent.
    destruct (String.eqb_spec (Py.strip (Pd.astype_str c)) "nan");
      [contradiction | reflexivity].
Qed.

Lemma raw_columns_ext a1 a2 a3 a4 a5 a6 a7 a8 a9 a10 a11 a12 a13 a14 a15 a16
  a17 a18 b2 b4 b5 b6 b7 b8 b9 b10 b11 b12 b13 b14 b15 b16 b18 :
  a2 = b2 -> a4 = b4 -> a5 = b5 -> a6 = b6 -> a7 = b7 -> a8 = b8 ->
  a9 = b9 -> a10 = b10 -> a11 = b11 -> a12 = b12 -> a13 = b13 ->
  a14 = b14 -> a15 = b15 -> a16 = b16 -> a18 = b18 ->
  mkRaw a1 a2 a3 a4 a5 a6 a7 a8 a9 a10 a11 a12 a13 a14 a15 a16 a17 a18
  = mkRaw a1 b2 a3 b4 b5 b6 b7 b8 b9 b10 b11 b12 b13 b14 b15 b16 a17 b18.
Proof. intros. subst. reflexivity. Qed.

(** A cleaned row whose five text columns are present is left as it is by
    a second cleaning, whatever its [release_date] has become. *)
Lemma clean_twice x0 d :
  let x := with_release_date (clean_strings (fill_values x0)) d in
  notna (developer x) = true -> notna (publisher x) = true ->
  notna (categories x) = true -> notna (genres x) = true ->
  notna (steamspy_tags x) = true ->
  clean_strings (fill_values x) = x.
Proof.
  destruct x0.
  cbv [with_release_date clean_strings fill_values
       appid name release_date english developer publisher platforms
       required_age categories genres steamspy_tags achievements
       positive_ratings negative_ratings average_playtime median_playtime
       owners price].
  intros H1 H2 H3 H4 H5.
  apply raw_columns_ext; try apply clean_text_idempotent;
    try (apply fillna_present, fillna_notna);
    match goal with
    | H : notna ?c = true |- clean_text (Pd.fillna _ ?c) = ?c =>
        rewrite (fillna_present _ _ H); apply clean_text_idempotent
    end.
Qed.

Lemma map_fixed {A} (f : A -> A) l :
  (forall a, In a l -> f a = a) -> map f l = l.
Proof.
  intros H. rewrite (map_ext_in f (fun a => a)) by exact H. apply map_id.
Qed.

Lemma assign_dates_map (g : GameRecord -> option Timestamp) df :
  assign_dates df (map g df) = map (fun r => assign_date r (g r)) df.
Proof.
  induction df as [|r df IH]; cbn [assign_dates map]; [reflexivity|].
  rewrite IH. reflexivity.
Qed.

(** A table whose rows all carry a converted date of an admitted year is
    left as it is by [transform_dates]. *)
Lemma transform_dates_fixed pd self df :
  (forall r, In r df ->
     exists r1 t, r = assign_date r1 (Some t) /\ min_year self <= ts_year t) ->
  transform_dates pd self df = df.
Proof.
  intros H. rewrite transform_dates_filter.
  rewrite to_datetime_datetime64.
  2:{ apply forallb_forall. intros c Hc.
      apply in_map_iff in Hc as (r & <- & Hr).
      destruct (H r Hr) as (r1 & t & -> & _). reflexivity. }
  rewrite map_map, assign_dates_map.
  assert (E : map (fun r => assign_date r
                              (already_datetime (release_date (raw r)))) df
              = df).
  { apply map_fixed. intros r Hr. destruct (H r Hr) as (r1 & t & -> & _).
    destruct r1 as [x1 ? ? ?]. destruct x1. reflexivity. }
  rewrite E. apply filter_true. intros r Hr.
  destruct (H r Hr) as (r1 & t & -> & Ht).
  rewrite year_of_assign_date. apply Z.leb_le, Ht.
Qed.

End IdempotenceLemmas.

Section ChainIdempotence.

Import Transform.

Variable pd : DateReader.
Variable now : Z.
Variable self : SteamDataTransformer.

Lemma derived_row_clean mx r0 t :
  text_columns_present (derived_row now mx r0 t) = true ->
  clean_row (derived_row now mx r0 t) = derived_row now mx r0 t.
Proof.
  intros H. unfold text_columns_present in H.
  repeat (apply andb_true_iff in H as [H ?]).
  unfold clean_row.
  assert (E : clean_strings (fill_values (raw (derived_row now mx r0 t)))
              = raw (derived_row now mx r0 t)).
  { change (raw (derived_row now mx r0 t))
      with (with_release_date (clean_strings (fill_values (raw r0)))
              (DateTime t)) in *.
    apply clean_twice; assumption. }
  rewrite E. reflexivity.
Qed.

Lemma derived_row_dated mx r0 t :
  derived_row now mx r0 t = assign_date (derived_row now mx r0 t) (Some t).
Proof. reflexivity. Qed.

Lemma derived_row_derived mx r0 t :
  assign_categorical (metrics_row now mx (derived_row now mx r0 t))
  = derived_row now mx r0 t.
Proof. reflexivity. Qed.

Lemma chain_rows_derived df r :
  In r (chain_rows pd now self df) ->
  exists r0 t,
    min_year self <= ts_year t
    /\ business_rule r = true
    /\ r = derived_row now (max_playtime (dated_table pd self df)) r0 t.
Proof.
  intros H. apply (chain_rows_rows pd now self) in H
    as (r0 & t & _ & Ht & Hb & ->).
  exists r0, t. auto.
Qed.

Lemma chain_rows_clean_fixed df :
  let out := chain_rows pd now self df in
  forallb text_columns_present out = true ->
  clean_basic_data out = out.
Proof.
  intros out Htext.
  pose proof (chain_rows_derived df) as Hrows. fold out in Hrows.
  rewrite clean_basic_data_rows,
    (drop_duplicates_unique out (chain_rows_NoDup pd now self df)).
  apply map_fixed. intros r Hr.
  pose proof (proj1 (forallb_forall _ _) Htext r Hr) as Hp.
  destruct (Hrows r Hr) as (r0 & t & _ & _ & ->).
  apply derived_row_clean, Hp.
Qed.

Lemma chain_rows_dated_fixed df :
  let out := chain_rows pd now self df in
  forallb text_columns_present out = true ->
  dated_table pd self out = out.
Proof.
  intros out Htext.
  pose proof (chain_rows_derived df) as Hrows. fold out in Hrows.
  pose proof (chain_rows_clean_fixed df Htext) as Hc. cbv zeta in Hc.
  fold out in Hc. unfold dated_table. rewrite Hc.
  apply transform_dates_fixed. intros r Hr.
  destruct (Hrows r Hr) as (r0 & t & Ht & _ & ->).
  eexists _, t. split; [apply derived_row_dated | exact Ht].
Qed.

Lemma chain_rows_fixed df :
  let out := chain_rows pd now self df in
  max_playtime out = max_playtime (dated_table pd self df) ->
  forallb text_columns_present out = true ->
  chain_rows pd now self out = out.
Proof.
  intros out Hmax Htext.
  pose proof (chain_rows_derived df) as Hrows. fold out in Hrows.
  pose proof (chain_rows_dated_fixed df Htext) as Hd. cbv zeta in Hd.
  fold out in Hd. unfold chain_rows at 1. rewrite Hd, Hmax.
  rewrite map_fixed.
  - apply filter_true. intros r Hr.
    destruct (Hrows r Hr) as (_ & _ & _ & Hb & _). exact Hb.
  - intros r Hr. destruct (Hrows r Hr) as (r0 & t & _ & _ & ->).
    apply derived_row_derived.
Qed.

(** The dates of the table the chain returns are converted already, so a
    second pass reads them all: the three columns read off the dates come
    out as int32. *)
Lemma chain_rows_dtype df :
  let out := chain_rows pd now self df in
  forallb text_columns_present out = true ->
  date_parts_dtype pd out = int32_dtype.
Proof.
  intros out Htext.
  pose proof (chain_rows_derived df) as Hrows. fold out in Hrows.
  pose proof (chain_rows_clean_fixed df Htext) as Hc. cbv zeta in Hc.
  fold out in Hc. unfold date_parts_dtype, transform_dates_dtype. rewrite Hc.
  assert (Hdt : forall r, In r out ->
                  exists t, release_date (raw r) = DateTime t).
  { intros r Hr. destruct (Hrows r Hr) as (r0 & t & _ & _ & ->).
    exists t. reflexivity. }
  rewrite to_datetime_datetime64.
  2:{ apply forallb_forall. intros c Hin.
      apply in_map_iff in Hin as (r & <- & Hr).
      destruct (Hdt r Hr) as (t & ->). reflexivity. }
  unfold dt_accessor_dtype.
  replace (forallb _ _) with true; [reflexivity|].
  symmetry. apply forallb_forall. intros c Hin.
  apply in_map_iff in Hin as (c0 & <- & Hin).
  apply in_map_iff in Hin as (r & <- & Hr).
  destruct (Hdt r Hr) as (t & ->). reflexivity.
Qed.

(** The rows of the dated table have a playtime, so the table has a maximum
    playtime as soon as it has a row. *)
Lemma max_playtime_dated df :
  max_playtime (dated_table pd self df) = None -> dated_table pd self df = [].
Proof.
  destruct (dated_table pd self df) as [|d l] eqn:E; [reflexivity|].
  assert (Hd : In d (dated_table pd self df)) by (rewrite E; left; reflexivity).
  apply dated_table_rows in Hd as (r0 & t & _ & _ & ->).
  unfold max_playtime. cbn [map Pd.max].
  change (average_playtime (raw (assign_date (clean_row r0) (Some t))))
    with (Pd.fillna 0 (average_playtime (raw r0))).
  destruct (average_playtime (raw r0)); cbn [Pd.fillna Pd.max];
    destruct (Pd.max _); discriminate.
Qed.

(** The metrics return on the table the chain has returned as they did on
    the dated table it comes from. *)
Lemma metrics_return_again dt df :
  let out := chain_rows pd now self df in
  metrics_return dt (dated_table pd self df) = true ->
  max_playtime out = max_playtime (dated_table pd self df) ->
  metrics_return dt out = true.
Proof.
  intros out Hret Hmax.
  destruct out as [|r l] eqn:E.
  - rewrite (max_playtime_dated df) in Hret; [exact Hret|].
    rewrite <- Hmax. reflexivity.
  - cbn [metrics_return]. apply forallb_forall. intros x Hx.
    rewrite <- E in Hx. unfold out, chain_rows in Hx.
    apply filter_In in Hx as [Hx _].
    apply in_map_iff in Hx as (d & <- & Hd).
    change (owners_fit_float (assign_categorical (metrics_row now
              (max_playtime (dated_table pd self df)) d)))
      with (owners_fit_float d).
    destruct (dated_table pd self df) as [|d0 l0] eqn:Ed; [contradiction|].
    cbn [metrics_return] in Hret.
    apply (proj1 (forallb_forall _ _) Hret d Hd).
Qed.

End ChainIdempotence.



(** The quality score of a row changes with the maximum playtime of the
    table. *)
Lemma quality_score_depends_on_max pct a m1 m2 :
  0 < a -> 0 < m1 -> m1 < m2 ->
  Transform.quality_score_of pct (Some a) (Some m1)
  <> Transform.quality_score_of pct (Some a) (Some m2).
Proof.
  intros Ha Hm1 Hm2. unfold Transform.quality_score_of, Transform.log1p_ratio.
  assert (E1 : (0 <=? a) && (0 <? m1) = true).
  { apply andb_true_iff. split; [apply Z.leb_le | apply Z.ltb_lt]; lia. }
  assert (E2 : (0 <=? a) && (0 <? m2) = true).
  { apply andb_true_iff. split; [apply Z.leb_le | apply Z.ltb_lt]; lia. }
  rewrite E1, E2. cbn [option_map]. intros H. injection H as H.
  apply IZR_lt in Ha, Hm1, Hm2.
  set (L := ln (1 + IZR a)) in *.
  set (l1 := ln (1 + IZR m1)) in *.
  set (l2 := ln (1 + IZR m2)) in *.
  assert (HL : (0 < L)%R).
  { unfold L. rewrite <- ln_1. apply ln_increasing; Lra.lra. }
  assert (Hl1 : (0 < l1)%R).
  { unfold l1. rewrite <- ln_1. apply ln_increasing; Lra.lra. }
  assert (Hl12 : (l1 < l2)%R).
  { unfold l1, l2. apply ln_increasing; Lra.lra. }
  assert (Hinv : (/ l2 < / l1)%R).
  { apply Rinv_lt_contravar; [|exact Hl12].
    apply Rmult_lt_0_compat; Lra.lra. }
  assert (Hdiv : (L / l2 < L / l1)%R).
  { unfold Rdiv. apply Rmult_lt_compat_l; assumption. }
  Lra.lra.
Qed.


Example nan_text_changes_on_second_run :
  let first :=
    Transform.transform_chain iso_reader 2024 default_transformer
      Transform.str_dtype
      [game 50 "Alien Swarm" "2010-07-19" 90 10 50 " nan "] in
  let developers res :=
    Py.bind res (fun out => Py.Ok (map (fun r => developer (raw r)) out)) in
  developers first = Py.Ok [None]
  /\ developers (Py.bind first
                   (Transform.transform_chain iso_reader 2024
                      default_transformer Transform.str_dtype))
     = Py.Ok [Some "Unknown"].
Proof. split; reflexivity. Qed.

(** A date that cannot be read makes the year, the month and the quarter
    float64 columns; on the table the chain returns they are read again as
    int32 columns, so the second run does not return the same table although
    it returns the same rows. *)
Example unread_date_changes_dtype_on_second_run :
  let df := [game 10 "Left 4 Dead" "2012-01-01" 30 2 50 "Valve";
             game 60 "Artifact" "Coming soon" 40 2 50 "Valve"] in
  let out := chain_rows iso_reader 2024 default_transformer df in
  Transform.transform_chain iso_reader 2024 default_transformer
    Transform.str_dtype df = Py.Ok out
  /\ Transform.transform_chain iso_reader 2024 default_transformer
       Transform.str_dtype out = Py.Ok out
  /\ date_parts_dtype iso_reader df = Transform.float64_dtype
  /\ date_parts_dtype iso_reader out = Transform.int32_dtype.
Proof.
  intros df out. repeat apply conj.
  - apply transform_chain_returns. reflexivity.
  - rewrite transform_chain_returns by reflexivity.
    apply (f_equal (@Py.Ok DataFrame)).
    apply chain_rows_fixed; reflexivity.
  - reflexivity.
  - reflexivity.
Qed.

Example chain_on_popular_games :
  map (fun r => (key r, release_year (dates r), total_ratings (metrics r),
                 price_category (metrics r), primary_genre (categorical r)))
      (chain_rows iso_reader 2024 default_transformer popular_games)
  = [(10, Some 2012, Some 32, Some "Budget", "Action");
     (20, Some 2013, Some 1000, Some "Budget", "Action")].
Proof. reflexivity. Qed.

(** * Further properties of the code *)

(** ** clean_basic_data: what a cleaned table looks like *)

Section CleanLemmas.

Import Py Transform.

Lemma lstrip_first s : not_space (first_char (lstrip s)) = true.
Proof.
  destruct (lstrip s) as [|c r] eqn:E; [reflexivity|].
  apply lstrip_head in E. cbn. rewrite E. reflexivity.
Qed.

Lemma rstrip_first s :
  not_space (first_char s) = true -> not_space (first_char (rstrip s)) = true.
Proof.
  destruct s as [|c s]; [reflexivity|].
  cbn [first_char not_space]. intros H. apply negb_true_iff in H.
  destruct (rstrip_head c s H) as [r ->]. cbn. rewrite H. reflexivity.
Qed.

Lemma last_char_cons c s : exists l, last_char (String c s) = Some l.
Proof.
  revert c. induction s as [|c' s IH]; intros c; cbn [last_char].
  - eexists. reflexivity.
  - destruct (IH c') as [l Hl]. cbn [last_char] in Hl. rewrite Hl.
    eexists. reflexivity.
Qed.

Lemma rstrip_last s : not_space (last_char (rstrip s)) = true.
Proof.
  induction s as [|c s IH]; [reflexivity|].
  cbn [rstrip]. destruct (rstrip s) as [|c' r] eqn:E.
  - destruct (isspace c) eqn:Ec; [reflexivity|].
    cbn. rewrite Ec. reflexivity.
  - destruct (last_char_cons c' r) as [l Hl].
    change (last_char (String c (String c' r)))
      with (match last_char (String c' r) with
            | Some l => Some l
            | None => Some c
            end).
    rewrite Hl in *. exact IH.
Qed.

Lemma strip_ends s :
  not_space (first_char (strip s)) = true
  /\ not_space (last_char (strip s)) = true.
Proof.
  unfold strip. split; [apply rstrip_first, lstrip_first | apply rstrip_last].
Qed.

Lemma clean_text_clean c : clean_cell (clean_text c) = true.
Proof.
  unfold clean_text, Pd.replace_nan.
  destruct (String.eqb (strip (Pd.astype_str c)) "nan") eqn:E; [reflexivity|].
  cbn [clean_cell]. rewrite E.
  destruct (strip_ends (Pd.astype_str c)) as [-> ->]. reflexivity.
Qed.

Lemma text_cells_clean_row r0 :
  forallb clean_cell (text_cells (clean_row r0)) = true.
Proof.
  change (text_cells (clean_row r0))
    with [clean_text (name (raw r0));
          clean_text (Pd.fillna "Unknown" (developer (raw r0)));
          clean_text (Pd.fillna "Unknown" (publisher (raw r0)));
          clean_text (Pd.fillna "Unknown" (categories (raw r0)));
          clean_text (Pd.fillna "Unknown" (genres (raw r0)));
          clean_text (Pd.fillna "Unknown" (steamspy_tags (raw r0)))].
  cbn [forallb]. rewrite !clean_text_clean. reflexivity.
Qed.

Lemma defaults_filled_clean_row r0 : defaults_filled (clean_row r0) = true.
Proof.
  change (defaults_filled (clean_row r0))
    with (notna (Pd.fillna 0 (english (raw r0)))
          && notna (Pd.fillna 0 (required_age (raw r0)))
          && notna (Pd.fillna 0 (achievements (raw r0)))
          && notna (Pd.fillna 0 (positive_ratings (raw r0)))
          && notna (Pd.fillna 0 (negative_ratings (raw r0)))
          && notna (Pd.fillna 0 (average_playtime (raw r0)))
          && notna (Pd.fillna 0 (median_playtime (raw r0)))
          && notna (Pd.fillna 0%Q (price (raw r0)))
          && notna (Pd.fillna "windows" (platforms (raw r0)))).
  rewrite !fillna_notna. reflexivity.
Qed.

Lemma kept_from_length : forall df seen,
  (List.length (kept_from seen df) <= List.length df)%nat.
Proof.
  induction df as [|r df IH]; intros seen; [apply le_n|].
  rewrite kept_from_cons. destruct (existsb (Z.eqb (key r)) seen).
  - cbn [List.length]. specialize (IH seen). lia.
  - cbn [List.length]. specialize (IH (key r :: seen)). lia.
Qed.

Lemma kept_from_full : forall df seen,
  List.length (kept_from seen df) = List.length df -> kept_from seen df = df.
Proof.
  induction df as [|r df IH]; intros seen; [reflexivity|].
  rewrite kept_from_cons. destruct (existsb (Z.eqb (key r)) seen).
  - intros H. pose proof (kept_from_length df seen). cbn in H. lia.
  - cbn [List.length]. intros [= H]. f_equal. apply IH, H.
Qed.

Lemma kept_from_In : forall df seen k,
  In k (map key (kept_from seen df)) <->
  In k (map key df) /\ existsb (Z.eqb k) seen = false.
Proof.
  induction df as [|r df IH]; intros seen k.
  - cbn. tauto.
  - rewrite kept_from_cons. cbn [map In].
    destruct (existsb (Z.eqb (key r)) seen) eqn:Er.
    + rewrite IH. split; [tauto|]. intros [[<-|H] Hs]; [congruence | tauto].
    + cbn [map In]. rewrite IH. cbn [existsb].
      destruct (Z.eqb_spec k (key r)) as [->|Hne].
      * cbn [orb]. split; [intros [_|[_ H]]; [tauto | discriminate]|].
        intros [_ Hs]. left. reflexivity.
      * cbn [orb]. split.
        -- intros [E|H]; [symmetry in E; contradiction | tauto].
        -- intros [[E|H] Hs]; [symmetry in E; contradiction | tauto].
Qed.

End CleanLemmas.

(** X1.  In every row that [clean_basic_data] returns, each of the six
    stripped text columns is either missing or a text that has no
    whitespace at its beginning or at its end and is not ["nan"]; cleaning a
    text cell twice gives what cleaning it once gives. *)
Theorem clean_basic_data_text_cells :
  (forall c, clean_cell (Transform.clean_text c) = true)
  /\ (forall c, Transform.clean_text (Transform.clean_text c)
                = Transform.clean_text c)
  /\ (forall df,
        forallb (fun r => forallb clean_cell (text_cells r))
                (Transform.clean_basic_data df) = true).
Proof.
  split; [apply clean_text_clean | split; [apply clean_text_idempotent|]].
  intros df. rewrite clean_basic_data_rows. apply forallb_forall.
  intros r Hr. apply in_map_iff in Hr as (r0 & <- & _).
  apply text_cells_clean_row.
Qed.

(** X2.  In every row that [clean_basic_data] returns, the numeric columns
    with a default, the price and the platforms are present. *)
Theorem clean_basic_data_fills_defaults df :
  forallb defaults_filled (Transform.clean_basic_data df) = true.
Proof.
  rewrite clean_basic_data_rows. apply forallb_forall.
  intros r Hr. apply in_map_iff in Hr as (r0 & <- & _).
  apply defaults_filled_clean_row.
Qed.

(** X3.  [clean_basic_data] returns a table without two rows of the same
    [appid], in which every [appid] of the input occurs; it never returns
    more rows than it received, and it returns as many exactly when no
    [appid] is repeated in the input. *)
Theorem clean_basic_data_unique_appid df :
  NoDup (map key (Transform.clean_basic_data df))
  /\ (forall k, In k (map key (Transform.clean_basic_data df))
               <-> In k (map key df))
  /\ (List.length (Transform.clean_basic_data df) <= List.length df)%nat
  /\ (List.length (Transform.clean_basic_data df) = List.length df
      <-> NoDup (map key df)).
Proof.
  rewrite clean_basic_data_rows.
  assert (Ek : map key (map clean_row (Transform.drop_duplicates df))
               = map key (Transform.drop_duplicates df)).
  { rewrite map_map. reflexivity. }
  rewrite Ek, length_map, drop_duplicates_kept.
  split; [apply kept_from_keys | split; [|split]].
  - intros k. rewrite kept_from_In. cbn. tauto.
  - apply kept_from_length.
  - split.
    + intros H. apply kept_from_full in H. rewrite <- H.
      apply kept_from_keys.
    + intros H. rewrite kept_from_NoDup; auto.
Qed.

(** ** create_calculated_metrics: owners, revenue and the two tiers *)

Section TierLemmas.

Import Transform.

Lemma Qle_bool_inject n k : Qle_bool (inject_Z n) (k # 1) = (n <=? k).
Proof. unfold Qle_bool. cbn. rewrite !Z.mul_1_r. reflexivity. Qed.

Lemma Qeq_bool_inject k n : Qeq_bool (k # 1) (inject_Z n) = (k =? n).
Proof. unfold Qeq_bool. cbn. rewrite !Z.mul_1_r. reflexivity. Qed.

Lemma popularity_tier_of_bins n :
  (n < 0 -> popularity_tier_of n = None)
  /\ (0 <= n <= 50000 -> popularity_tier_of n = Some "Niche")
  /\ (50000 < n <= 500000 -> popularity_tier_of n = Some "Indie")
  /\ (500000 < n <= 2000000 -> popularity_tier_of n = Some "Popular")
  /\ (2000000 < n <= 10000000 -> popularity_tier_of n = Some "Hit")
  /\ (10000000 < n -> popularity_tier_of n = Some "Blockbuster").
Proof.
  unfold popularity_tier_of, Pd.cut, owners_bins, owners_labels.
  cbn [Pd.searchsorted_left Pd.edge_ltb Pd.edge_eqb List.length].
  unfold Pd.Qltb. rewrite !Qle_bool_inject, Qeq_bool_inject.
  repeat apply conj; intros H;
    destruct (Z.eqb_spec 0 n); try lia;
    repeat match goal with
    | |- context [n <=? ?k] => destruct (Z.leb_spec n k); try lia
    end;
    reflexivity.
Qed.

Lemma popularity_tier_present n :
  0 <= n -> popularity_tier_of n <> None.
Proof.
  intros H. pose proof (popularity_tier_of_bins n) as (_ & H1 & H2 & H3 & H4 & H5).
  destruct (Z.le_gt_cases n 50000); [rewrite H1 by lia; discriminate|].
  destruct (Z.le_gt_cases n 500000); [rewrite H2 by lia; discriminate|].
  destruct (Z.le_gt_cases n 2000000); [rewrite H3 by lia; discriminate|].
  destruct (Z.le_gt_cases n 10000000); [rewrite H4 by lia; discriminate|].
  rewrite H5 by lia. discriminate.
Qed.

Lemma price_category_missing p :
  price_category_of p = None <-> (p < 0)%Q.
Proof.
  pose proof (price_category_of_bins p) as (H0 & H1 & H2 & H3 & H4 & H5).
  split; [|exact H0]. intros E.
  destruct (Qlt_le_dec p 0) as [|Hp]; [assumption|]. exfalso.
  destruct (Qlt_le_dec 5 p) as [G1|G1]; [|rewrite H1 in E by auto; discriminate].
  destruct (Qlt_le_dec 15 p) as [G2|G2]; [|rewrite H2 in E by auto; discriminate].
  destruct (Qlt_le_dec 30 p) as [G3|G3]; [|rewrite H3 in E by auto; discriminate].
  destruct (Qlt_le_dec 60 p) as [G4|G4]; [|rewrite H4 in E by auto; discriminate].
  rewrite H5 in E by auto. discriminate.
Qed.

End TierLemmas.

Lemma forallb_false_exists {A} (p : A -> bool) l :
  forallb p l = false -> exists a, In a l /\ p a = false.
Proof.
  induction l as [|a l IH]; cbn [forallb]; [discriminate|].
  destruct (p a) eqn:E.
  - intros H. destruct (IH H) as (b & Hb & Hp). exists b. split; [right|]; auto.
  - intros _. exists a. split; [left|]; auto.
Qed.

(** What makes [create_calculated_metrics] raise. *)
Lemma create_calculated_metrics_raises now dt df e :
  Transform.create_calculated_metrics now dt df = Py.Raise e ->
  (e = Py.TypeError /\ df = [] /\ dt = Transform.str_dtype)
  \/ (e = Py.OverflowError
      /\ exists r, In r df
                   /\ Py.float_overflow <= owners_midpoint (owners (raw r))).
Proof.
  rewrite create_calculated_metrics_cases.
  destruct (metrics_return dt df) eqn:E; [discriminate|].
  intros [= <-]. destruct df as [|r df].
  - left. destruct dt; try discriminate E. auto.
  - right. split; [reflexivity|]. cbn [metrics_return] in E.
    apply forallb_false_exists in E as (a & Ha & Hf).
    exists a. split; [exact Ha|]. unfold owners_fit_float in Hf.
    apply Z.ltb_ge, Hf.
Qed.

(** X4.  In the table that [create_calculated_metrics] returns, every row
    has the number of owners read off its [owners] cell, a number that is
    not negative, and a popularity tier that is never missing: up to
    50 000 owners ["Niche"], up to 500 000 ["Indie"], up to 2 000 000
    ["Popular"], up to 10 000 000 ["Hit"], above ["Blockbuster"], each
    boundary falling in the lower tier. *)
Theorem popularity_tier_always_present :
  (forall now dt df df' r,
     Transform.create_calculated_metrics now dt df = Py.Ok df' ->
     In r df' ->
     Transform._parse_owners_range (owners (raw r))
     = Py.Ok (estimated_owners (metrics r))
     /\ 0 <= estimated_owners (metrics r)
     /\ popularity_tier (metrics r)
        = popularity_tier_of (estimated_owners (metrics r))
     /\ popularity_tier (metrics r) <> None)
  /\ (forall n,
        (0 <= n <= 50000 -> popularity_tier_of n = Some "Niche")
        /\ (50000 < n <= 500000 -> popularity_tier_of n = Some "Indie")
        /\ (500000 < n <= 2000000 -> popularity_tier_of n = Some "Popular")
        /\ (2000000 < n <= 10000000 -> popularity_tier_of n = Some "Hit")
        /\ (10000000 < n -> popularity_tier_of n = Some "Blockbuster")).
Proof.
  split.
  - intros now dt df df' r E Hin.
    apply create_calculated_metrics_rows in E. subst df'.
    apply in_map_iff in Hin as (r0 & <- & _).
    set (mx := Pd.max _).
    change (estimated_owners (metrics (metrics_row now mx r0)))
      with (owners_midpoint (owners (raw r0))).
    change (popularity_tier (metrics (metrics_row now mx r0)))
      with (popularity_tier_of (owners_midpoint (owners (raw r0)))).
    change (raw (metrics_row now mx r0)) with (raw r0).
    pose proof (owners_midpoint_nonneg (owners (raw r0))) as H.
    repeat split; auto.
    + apply parse_owners_range_caught.
    + apply popularity_tier_present, H.
  - intros n. pose proof (popularity_tier_of_bins n). tauto.
Qed.

(** X5.  In the table that [create_calculated_metrics] returns, the price
    category of a row is missing exactly when its price is missing or
    negative. *)
Theorem price_category_missing_iff now dt df df' r :
  Transform.create_calculated_metrics now dt df = Py.Ok df' ->
  In r df' ->
  (price_category (metrics r) = None <->
   price (raw r) = None \/ exists p, price (raw r) = Some p /\ (p < 0)%Q).
Proof.
  intros E Hin. apply create_calculated_metrics_rows in E. subst df'.
  apply in_map_iff in Hin as (r0 & <- & _).
  set (mx := Pd.max _).
  change (price_category (metrics (metrics_row now mx r0)))
    with (Transform.cut_cell Transform.price_bins Transform.price_labels
            (price (raw r0))).
  change (raw (metrics_row now mx r0)) with (raw r0).
  destruct (price (raw r0)) as [p|].
  - change (Transform.cut_cell Transform.price_bins Transform.price_labels
              (Some p)) with (price_category_of p).
    rewrite price_category_missing. split.
    + intros H. right. exists p. auto.
    + intros [H|(q & [= <-] & H)]; [discriminate | exact H].
  - cbn. split; auto.
Qed.

Lemma price_category_missing_iff_witness :
  let r0 := game 620 "Portal 2" "2011-04-19" 90 10 200 "Valve" in
  let r := metrics_row 2024 (Some 200) r0 in
  price_category (metrics r) = None <->
  price (raw r) = None \/ exists p, price (raw r) = Some p /\ (p < 0)%Q.
Proof.
  intros r0 r.
  apply (price_category_missing_iff 2024 Transform.str_dtype [r0] [r] r).
  - reflexivity.
  - left. reflexivity.
Defined.


(** ** create_calculated_metrics: the quality score *)

Section QualityLemmas.

Import Transform.

Lemma max_upper_bound col a :
  In (Some a) col -> exists m, Pd.max col = Some m /\ a <= m.
Proof.
  induction col as [|c col IH]; [contradiction|].
  intros [->|H].
  - cbn [Pd.max]. destruct (Pd.max col) as [m|]; eexists; split;
      try reflexivity; lia.
  - destruct (IH H) as (m & Hm & Ha). cbn [Pd.max]. rewrite Hm.
    destruct c as [v|]; eexists; split; try reflexivity; lia.
Qed.

Lemma ln1p_nonneg a : 0 <= a -> (0 <= ln (1 + IZR a))%R.
Proof.
  intros H. destruct (Z.eq_dec a 0) as [->|Hne].
  - replace (1 + IZR 0)%R with 1%R by (cbn; Lra.lra). rewrite ln_1.
    apply Rle_refl.
  - assert (Ha : (0 < IZR a)%R) by (apply IZR_lt; lia).
    rewrite <- ln_1. apply Rlt_le, ln_increasing; Lra.lra.
Qed.

Lemma ln1p_le a m : 0 <= a -> a <= m -> (ln (1 + IZR a) <= ln (1 + IZR m))%R.
Proof.
  intros Ha H. destruct (Z.eq_dec a m) as [->|Hne]; [apply Rle_refl|].
  assert (Ha' : (0 <= IZR a)%R) by (apply IZR_le; lia).
  assert (Hm : (IZR a < IZR m)%R) by (apply IZR_lt; lia).
  apply Rlt_le, ln_increasing; Lra.lra.
Qed.

Lemma ln1p_pos m : 0 < m -> (0 < ln (1 + IZR m))%R.
Proof.
  intros H. assert (Hm : (0 < IZR m)%R) by (apply IZR_lt; lia).
  rewrite <- ln_1. apply ln_increasing; Lra.lra.
Qed.

Lemma Q2R_percent pct :
  (0 <= pct <= 100)%Q -> (0 <= Q2R pct <= 100)%R.
Proof.
  intros [H0 H1]. apply Qle_Rle in H0, H1.
  replace (Q2R 0) with 0%R in H0 by (unfold Q2R; cbn; Lra.lra).
  replace (Q2R 100) with 100%R in H1 by (unfold Q2R; cbn; Lra.lra).
  split; assumption.
Qed.

Lemma quality_score_of_range pct a m :
  (0 <= pct <= 100)%Q -> 0 <= a -> a <= m -> 0 < m ->
  exists q, quality_score_of pct (Some a) (Some m) = Some q
            /\ (0 <= q <= 100)%R
            /\ (a = m -> (q = Q2R pct * 0.7 + 30)%R).
Proof.
  intros Hpct Ha Ham Hm. unfold quality_score_of, log1p_ratio.
  assert (E : (0 <=? a) && (0 <? m) = true).
  { apply andb_true_iff. split; [apply Z.leb_le | apply Z.ltb_lt]; lia. }
  rewrite E. cbn [option_map]. eexists. split; [reflexivity|].
  apply Q2R_percent in Hpct.
  pose proof (ln1p_nonneg a Ha) as HL.
  pose proof (ln1p_le a m Ha Ham) as HLM.
  pose proof (ln1p_pos m Hm) as HM.
  set (x := Q2R pct) in *.
  set (L := ln (1 + IZR a)) in *. set (M := ln (1 + IZR m)) in *.
  assert (Hi : (0 < / M)%R) by (apply Rinv_0_lt_compat, HM).
  assert (H0 : (0 <= L / M)%R).
  { unfold Rdiv. apply Rmult_le_pos; [exact HL | apply Rlt_le, Hi]. }
  assert (H1 : (L / M <= 1)%R).
  { unfold Rdiv. replace 1%R with (M * / M)%R by (apply Rinv_r; Lra.lra).
    apply Rmult_le_compat_r; [apply Rlt_le, Hi | exact HLM]. }
  split; [split; Lra.lra|].
  intros ->. fold M in L. subst L.
  replace (M / M)%R with 1%R by (unfold Rdiv; symmetry; apply Rinv_r; Lra.lra).
  Lra.lra.
Qed.

Lemma quality_score_of_zero_max pct a :
  quality_score_of pct a (Some 0) = None.
Proof.
  unfold quality_score_of, log1p_ratio. destruct a as [a|]; [|reflexivity].
  rewrite andb_false_r. reflexivity.
Qed.

End QualityLemmas.

(** X7.  In the table that [create_calculated_metrics] returns, a row whose
    rating counts and average playtime are present and not negative, the
    counts being cells of int64 columns and so below 2^63, has a playtime at
    most the maximum [m] of the table.  When [m] is positive its quality
    score is a number between 0 and 100, also when the sum of the two
    counts wraps around, and it is 0.7 times the positive percentage plus
    30 for a row that reaches [m].  When [m] is 0, the score is not a
    number (a division of 0 by 0). *)
Theorem quality_score_bounds now dt df df' r p n a :
  Transform.create_calculated_metrics now dt df = Py.Ok df' ->
  In r df' ->
  positive_ratings (raw r) = Some p ->
  negative_ratings (raw r) = Some n ->
  average_playtime (raw r) = Some a ->
  0 <= p < 9223372036854775808 -> 0 <= n < 9223372036854775808 -> 0 <= a ->
  exists m,
    max_playtime df = Some m /\ a <= m
    /\ (0 < m ->
        exists q, quality_score (metrics r) = Some q
                  /\ (0 <= q <= 100)%R
                  /\ (a = m ->
                      (q = Q2R (positive_percentage (metrics r)) * 0.7 + 30)%R))
    /\ (m = 0 -> quality_score (metrics r) = None).
Proof.
  intros E Hin Hp Hn Ha Hp0 Hn0 Ha0.
  apply create_calculated_metrics_rows in E. subst df'.
  apply in_map_iff in Hin as (r0 & <- & Hin).
  change (raw (metrics_row now
                 (Pd.max (map (fun r => average_playtime (raw r)) df)) r0))
    with (raw r0) in Hp, Hn, Ha.
  fold (max_playtime df).
  destruct (max_upper_bound (map (fun r => average_playtime (raw r)) df) a)
    as (m & Hm & Ham).
  { rewrite <- Ha. apply in_map_iff. eauto. }
  fold (max_playtime df) in Hm. exists m. rewrite Hm.
  split; [reflexivity | split; [exact Ham|]].
  change (quality_score (metrics (metrics_row now (Some m) r0)))
    with (Transform.quality_score_of
            (positive_percentage (metrics (metrics_row now (Some m) r0)))
            (average_playtime (raw r0)) (Some m)).
  change (positive_percentage (metrics (metrics_row now (Some m) r0)))
    with (Transform.positive_percentage_of (positive_ratings (raw r0))
            (add_cell (positive_ratings (raw r0)) (negative_ratings (raw r0)))).
  rewrite Hp, Hn, Ha. split.
  - intros Hm0. apply quality_score_of_range; auto.
    apply positive_percentage_int64; assumption.
  - intros ->. apply quality_score_of_zero_max.
Qed.

Lemma quality_score_bounds_witness :
  let r0 := game 620 "Portal 2" "2011-04-19" 90 10 200 "Valve" in
  let r := metrics_row 2024 (Some 200) r0 in
  exists m,
    max_playtime [r0] = Some m /\ 200 <= m
    /\ (0 < m ->
        exists q, quality_score (metrics r) = Some q
                  /\ (0 <= q <= 100)%R
                  /\ (200 = m ->
                      (q = Q2R (positive_percentage (metrics r)) * 0.7 + 30)%R))
    /\ (m = 0 -> quality_score (metrics r) = None).
Proof.
  intros r0 r.
  apply (quality_score_bounds 2024 Transform.str_dtype [r0] [r] r 90 10 200).
  - reflexivity.
  - left. reflexivity.
  - reflexivity.
  - reflexivity.
  - reflexivity.
  - lia.
  - lia.
  - lia.
Defined.

Example quality_score_without_playtime :
  let r0 := game 630 "Alien Swarm" "2010-07-19" 90 10 0 "Valve" in
  match Transform.create_calculated_metrics 2024 Transform.str_dtype [r0] with
  | Py.Ok [r] => quality_score (metrics r) = None
  | _ => False
  end.
Proof. reflexivity. Qed.

(** ** process_categorical_data *)

Section CategoricalLemmas.

Import Py Transform.

Lemma split_length sep s :
  List.length (split sep s) = S (count_char sep s).
Proof.
  induction s as [|c s IH]; [reflexivity|].
  cbn [split count_char]. destruct (Ascii.eqb c sep).
  - cbn [List.length]. rewrite IH. reflexivity.
  - revert IH. destruct (split sep s) as [|h t]; intros IH;
      [discriminate IH | exact IH].
Qed.

Lemma split_head sep s :
  exists rest,
    s = (hd EmptyString (split sep s) ++ rest)%string
    /\ (rest = EmptyString \/ first_char rest = Some sep).
Proof.
  induction s as [|c s IH].
  - exists EmptyString. auto.
  - cbn [split]. destruct (Ascii.eqb_spec c sep) as [->|Hne].
    + exists (String sep s). cbn. auto.
    + destruct IH as (rest & Hs & Hr).
      pose proof (split_length sep s) as Hl. revert Hs Hl.
      destruct (split sep s) as [|h t]; intros Hs Hl.
      * discriminate Hl.
      * exists rest. cbn [hd] in *. cbn [append]. rewrite <- Hs. auto.
Qed.

Lemma split_head_no_sep sep s :
  all_chars (is_not sep) (hd EmptyString (split sep s)) = true.
Proof.
  pose proof (split_pieces_no_sep sep s) as H.
  destruct (split sep s) as [|h t]; [reflexivity|].
  inversion H; subst. assumption.
Qed.

End CategoricalLemmas.

(** X8.  In every row that [process_categorical_data] returns, the platform
    count is one more than the number of semicolons of [platforms] (1 when
    the cell is missing), so it is at least 1, and the row is
    multi-platform exactly when [platforms] holds a semicolon. *)
Theorem platform_count_semicolons df :
  Forall
    (fun r =>
       1 <= platform_count (categorical r)
       /\ match platforms (raw r) with
          | Some p =>
              platform_count (categorical r)
              = 1 + Z.of_nat (count_char ";" p)
              /\ is_multiplatform (categorical r)
                 = negb (Nat.eqb (count_char ";" p) 0)
          | None =>
              platform_count (categorical r) = 1
              /\ is_multiplatform (categorical r) = false
          end)
    (Transform.process_categorical_data df).
Proof.
  unfold Transform.process_categorical_data. apply Forall_forall.
  intros r Hr. apply in_map_iff in Hr as (r0 & <- & _).
  change (platforms (raw (Transform.assign_categorical r0)))
    with (platforms (raw r0)).
  change (platform_count (categorical (Transform.assign_categorical r0)))
    with (match platforms (raw r0) with
          | Some p => Z.of_nat (List.length (Py.split ";" p))
          | None => 1
          end).
  change (is_multiplatform (categorical (Transform.assign_categorical r0)))
    with (1 <? match platforms (raw r0) with
               | Some p => Z.of_nat (List.length (Py.split ";" p))
               | None => 1
               end).
  destruct (platforms (raw r0)) as [p|].
  - rewrite split_length. split; [lia|]. split; [lia|].
    destruct (count_char ";" p); [reflexivity|].
    cbn [Nat.eqb negb]. apply Z.ltb_lt. lia.
  - split; [lia|]. split; reflexivity.
Qed.

(** X9.  In every row that [process_categorical_data] returns, the primary
    genre holds no semicolon and is the part of [genres] before its first
    semicolon, the whole of [genres] when there is none; it is ["Unknown"]
    when [genres] is missing. *)
Theorem primary_genre_first_part df :
  Forall
    (fun r =>
       all_chars (is_not ";") (primary_genre (categorical r)) = true
       /\ match genres (raw r) with
          | Some g =>
              exists rest,
                g = (primary_genre (categorical r) ++ rest)%string
                /\ (rest = EmptyString \/ first_char rest = Some ";"%char)
          | None => primary_genre (categorical r) = "Unknown"
          end)
    (Transform.process_categorical_data df).
Proof.
  unfold Transform.process_categorical_data. apply Forall_forall.
  intros r Hr. apply in_map_iff in Hr as (r0 & <- & _).
  change (genres (raw (Transform.assign_categorical r0)))
    with (genres (raw r0)).
  change (primary_genre (categorical (Transform.assign_categorical r0)))
    with (match genres (raw r0) with
          | Some g => hd EmptyString (Py.split ";" g)
          | None => "Unknown"
          end).
  destruct (genres (raw r0)) as [g|].
  - split; [apply split_head_no_sep | apply split_head].
  - split; reflexivity.
Qed.

(** X10.  On a table on which [create_calculated_metrics] returns (a table
    with rows whose numbers of owners fit a float, or a table without rows
    whose [owners] column is not of dtype [str]), after
    [create_calculated_metrics] and [process_categorical_data] a row is
    flagged free exactly when its price is present and zero, and a row
    flagged free is in the price category ["Free/Cheap"]; a row is flagged
    as having achievements exactly when its achievements count is present
    and positive. *)
Theorem free_games_are_cheap now dt df :
  metrics_return dt df = true ->
  exists df_metrics,
    Transform.create_calculated_metrics now dt df = Py.Ok df_metrics
    /\ Forall
         (fun r =>
            (is_free (categorical r) = true
             <-> exists p, price (raw r) = Some p /\ (p == 0)%Q)
            /\ (is_free (categorical r) = true
                -> price_category (metrics r) = Some "Free/Cheap")
            /\ (has_achievements (categorical r) = true
                <-> exists k, achievements (raw r) = Some k /\ 0 < k))
         (Transform.process_categorical_data df_metrics).
Proof.
  intros Hret. eexists.
  split; [apply create_calculated_metrics_returns, Hret|].
  set (mx := Pd.max _).
  unfold Transform.process_categorical_data. rewrite map_map.
  apply Forall_forall. intros r Hr. apply in_map_iff in Hr as (r0 & <- & _).
  change (raw (Transform.assign_categorical (metrics_row now mx r0)))
    with (raw r0).
  change (is_free (categorical
            (Transform.assign_categorical (metrics_row now mx r0))))
    with (match price (raw r0) with
          | Some p => Qeq_bool p 0
          | None => false
          end).
  change (has_achievements (categorical
            (Transform.assign_categorical (metrics_row now mx r0))))
    with (gt_cell (achievements (raw r0)) 0).
  change (price_category (metrics
            (Transform.assign_categorical (metrics_row now mx r0))))
    with (Transform.cut_cell Transform.price_bins Transform.price_labels
            (price (raw r0))).
  split; [|split].
  - destruct (price (raw r0)) as [p|].
    + rewrite Qeq_bool_iff. split; [eauto | intros (q & [= <-] & H); exact H].
    + split; [discriminate | intros (q & H & _); discriminate].
  - destruct (price (raw r0)) as [p|]; [|discriminate].
    intros H. apply Qeq_bool_iff in H.
    apply (proj1 (proj2 (price_category_of_bins p))). split; Lqa.lra.
  - unfold gt_cell. destruct (achievements (raw r0)) as [k|].
    + rewrite Z.ltb_lt. split; [eauto | intros (q & [= <-] & H); exact H].
    + split; [discriminate | intros (q & H & _); discriminate].
Qed.

Lemma free_games_are_cheap_witness :
  let df := [game 620 "Portal 2" "2011-04-19" 90 10 200 "Valve"] in
  exists df_metrics,
    Transform.create_calculated_metrics 2024 Transform.str_dtype df
    = Py.Ok df_metrics
    /\ Forall
         (fun r =>
            (is_free (categorical r) = true
             <-> exists p, price (raw r) = Some p /\ (p == 0)%Q)
            /\ (is_free (categorical r) = true
                -> price_category (metrics r) = Some "Free/Cheap")
            /\ (has_achievements (categorical r) = true
                <-> exists k, achievements (raw r) = Some k /\ 0 < k))
         (Transform.process_categorical_data df_metrics).
Proof.
  intros df. apply (free_games_are_cheap 2024 Transform.str_dtype df).
  reflexivity.
Defined.

(** ** The table that the chain returns *)

Section OutputLemmas.

Import Transform.

Variable pd : DateReader.
Variable now : Z.
Variable self : SteamDataTransformer.

Lemma assign_dates_length : forall df col,
  (List.length (assign_dates df col) <= List.length df)%nat.
Proof.
  induction df as [|r df IH]; intros [|c col]; cbn; try lia.
  specialize (IH col). lia.
Qed.

Lemma filter_length_le {A} (p : A -> bool) l :
  (List.length (filter p l) <= List.length l)%nat.
Proof.
  induction l as [|a l IH]; cbn; [lia|]. destruct (p a); cbn; lia.
Qed.

Lemma dated_table_length df :
  (List.length (dated_table pd self df) <= List.length df)%nat.
Proof.
  unfold dated_table. rewrite transform_dates_filter.
  eapply Nat.le_trans; [apply filter_length_le|].
  eapply Nat.le_trans; [apply assign_dates_length|].
  rewrite clean_basic_data_rows, length_map, drop_duplicates_kept.
  apply kept_from_length.
Qed.

Lemma chain_rows_length df :
  (List.length (chain_rows pd now self df) <= List.length df)%nat.
Proof.
  unfold chain_rows.
  eapply Nat.le_trans; [apply filter_length_le|].
  rewrite length_map. apply dated_table_length.
Qed.

Lemma derived_row_ok mx r0 t :
  min_year self <= ts_year t ->
  business_rule (derived_row now mx r0 t) = true ->
  output_row_ok self (derived_row now mx r0 t) = true.
Proof.
  intros Ht Hb. unfold output_row_ok. rewrite Hb.
  change (ge_cell (release_year (dates (derived_row now mx r0 t)))
            (min_year self))
    with (min_year self <=? ts_year t).
  change (defaults_filled (derived_row now mx r0 t))
    with (defaults_filled (clean_row r0)).
  change (text_cells (derived_row now mx r0 t))
    with (text_cells (clean_row r0)).
  change (estimated_owners (metrics (derived_row now mx r0 t)))
    with (owners_midpoint (owners (raw r0))).
  change (popularity_tier (metrics (derived_row now mx r0 t)))
    with (popularity_tier_of (owners_midpoint (owners (raw r0)))).
  change (estimated_revenue (metrics (derived_row now mx r0 t)))
    with (option_map
            (fun p => inject_Z (owners_midpoint (owners (raw r0))) * p)%Q
            (Pd.fillna 0%Q (price (raw r0)))).
  change (release_date (raw (derived_row now mx r0 t))) with (DateTime t).
  rewrite (proj2 (Z.leb_le _ _) Ht), defaults_filled_clean_row,
    text_cells_clean_row.
  rewrite (proj2 (Z.leb_le _ _) (owners_midpoint_nonneg (owners (raw r0)))).
  pose proof (popularity_tier_present _
                (owners_midpoint_nonneg (owners (raw r0)))) as Hp.
  destruct (popularity_tier_of (owners_midpoint (owners (raw r0))));
    [|contradiction].
  destruct (price (raw r0)); reflexivity.
Qed.

Lemma chain_rows_ok df :
  forallb (output_row_ok self) (chain_rows pd now self df) = true.
Proof.
  apply forallb_forall. intros r Hr.
  apply (chain_rows_derived pd now self) in Hr as (r0 & t & Ht & Hb & ->).
  apply derived_row_ok; assumption.
Qed.

Lemma chain_rows_keys df k :
  In k (map key (chain_rows pd now self df)) -> In k (map key df).
Proof.
  intros H. apply in_map_iff in H as (r & <- & Hr).
  apply (chain_rows_rows pd now self) in Hr as (r0 & t & H0 & _ & _ & ->).
  change (key (assign_categorical
                 (metrics_row now (max_playtime (dated_table pd self df))
                    (assign_date (clean_row r0) (Some t)))))
    with (key r0).
  rewrite drop_duplicates_kept in H0.
  assert (Hk : In (key r0) (map key (kept_from [] df)))
    by (apply in_map, H0).
  apply kept_from_In in Hk. apply Hk.
Qed.

End OutputLemmas.

Lemma metrics_return_false dt df :
  metrics_return dt df = false ->
  (df = [] /\ dt = Transform.str_dtype)
  \/ (exists r, In r df
                /\ Py.float_overflow <= owners_midpoint (owners (raw r))).
Proof.
  destruct df as [|r df]; cbn [metrics_return].
  - destruct dt; try discriminate. auto.
  - intros H. right. apply forallb_false_exists in H as (a & Ha & Hf).
    exists a. split; [exact Ha|]. unfold owners_fit_float in Hf.
    apply Z.ltb_ge, Hf.
Qed.

(** What makes the chain raise: the metrics, on a dated table without rows
    whose [owners] column is of dtype [str], or on a number of owners too
    large for a float. *)
Lemma transform_chain_raises pd now self dt df e :
  Transform.transform_chain pd now self dt df = Py.Raise e ->
  (e = Py.TypeError /\ dated_table pd self df = []
   /\ dt = Transform.str_dtype)
  \/ (e = Py.OverflowError
      /\ exists r, In r (dated_table pd self df)
                   /\ Py.float_overflow <= owners_midpoint (owners (raw r))).
Proof.
  rewrite transform_chain_cases.
  destruct (metrics_return dt (dated_table pd self df)) eqn:E; [discriminate|].
  intros [= <-]. apply metrics_return_false in E as [[E1 E2]|(r & Hr & Hf)].
  - left. rewrite E1. auto.
  - right. destruct (dated_table pd self df); [contradiction|]. eauto.
Qed.

(** X11.  The chain raises in two cases only, both in the metrics:
    [TypeError] when the year filter leaves no row of a table whose
    [owners] column is of dtype [str], and [OverflowError] when a row that
    passes the year filter has a number of owners too large for a float.
    Otherwise it returns at most as many rows as it received, only for
    [appid]s of the input, and every row it returns has a release date
    converted to a year at or above the minimum, a usable name, at least
    ten ratings, every defaulted numeric column, the price and the
    platforms present, clean text columns, a number of owners that is not
    negative, and a popularity tier and an estimated revenue that are not
    missing. *)
Theorem transform_chain_output pd now self dt df :
  match Transform.transform_chain pd now self dt df with
  | Py.Ok out =>
      metrics_return dt (dated_table pd self df) = true
      /\ (List.length out <= List.length df)%nat
      /\ incl (map key out) (map key df)
      /\ forallb (output_row_ok self) out = true
  | Py.Raise e =>
      (e = Py.TypeError /\ dated_table pd self df = []
       /\ dt = Transform.str_dtype)
      \/ (e = Py.OverflowError
          /\ exists r,
               In r (dated_table pd self df)
               /\ Py.float_overflow <= owners_midpoint (owners (raw r)))
  end.
Proof.
  destruct (Transform.transform_chain pd now self dt df) as [out|e] eqn:E.
  - apply transform_chain_rows in E as [-> Hret].
    split; [exact Hret|].
    split; [apply chain_rows_length|].
    split; [intros k; apply chain_rows_keys | apply chain_rows_ok].
  - eapply transform_chain_raises, E.
Qed.

(** ** run_transform and the outcome of a run *)

Section RunLemmas.

Import Py Pipeline.

Lemma len_zero {A} (l : list A) : (Transform.len l =? 0) = true <-> l = [].
Proof.
  unfold Transform.len. destruct l; cbn; split; try reflexivity;
    try discriminate.
Qed.

Lemma run_transform_cases w df :
  let dated := dated_table (dates_reader w) default_transformer df in
  let out := chain_rows (dates_reader w) (now_year w) default_transformer df in
  run_transform w df =
  if metrics_return (owners_dtype w) dated
  then if Transform.len df =? 0 then Raise ZeroDivisionError
       else Ok (out, (Transform.len df, Transform.len out))
  else Raise match dated with
             | [] => TypeError
             | _ :: _ => OverflowError
             end.
Proof.
  intros dated out. unfold run_transform.
  fold default_transformer. rewrite transform_chain_cases. fold dated.
  destruct (metrics_return (owners_dtype w) dated); [|reflexivity].
  cbn [bind]. fold out. unfold Transform.get_transformation_summary.
  destruct (Transform.len df =? 0); reflexivity.
Qed.

Lemma removal_percentage_range (n k : Z) :
  0 < n -> 0 <= k <= n ->
  (0 <= inject_Z (n - k) / inject_Z n * 100 <= 100)%Q.
Proof.
  intros Hn Hk. set (d := n - k). assert (Hd : 0 <= d <= n) by (unfold d; lia).
  clearbody d. destruct n as [|n|n]; try lia.
  unfold Qle, Qdiv, Qmult, Qinv, inject_Z. cbn.
  rewrite ?Pos.mul_1_r, ?Z.mul_1_r. split; lia.
Qed.

End RunLemmas.

(** X12.  [run_transform] on a table without rows raises
    [ZeroDivisionError] when the [owners] column is not of dtype [str], as
    for a file that holds a header only: the chain returns, and the summary
    divides by the number of input rows.  On a table with rows it raises
    what the chain raises, [TypeError] when the year filter leaves no row
    of a table whose [owners] column is of dtype [str], [OverflowError] on
    a number of owners too large for a float; otherwise it returns the
    table of the chain with the two row counts, and the summary counts the
    rows removed, a number that is not negative, and a removal percentage
    between 0 and 100. *)
Theorem run_transform_empty_table w :
  (Pipeline.owners_dtype w <> Transform.str_dtype ->
   Pipeline.run_transform w [] = Py.Raise Py.ZeroDivisionError)
  /\ forall r df,
       let chain :=
         Transform.transform_chain (Pipeline.dates_reader w)
           (Pipeline.now_year w) default_transformer (Pipeline.owners_dtype w)
           (r :: df) in
       let dated :=
         dated_table (Pipeline.dates_reader w) default_transformer (r :: df) in
       match Pipeline.run_transform w (r :: df) with
       | Py.Ok (out, counts) =>
           chain = Py.Ok out
           /\ counts = (Transform.len (r :: df), Transform.len out)
           /\ exists s,
                Transform.get_transformation_summary (r :: df) out = Py.Ok s
                /\ Transform.records_removed s
                   = Transform.len (r :: df) - Transform.len out
                /\ 0 <= Transform.records_removed s
                /\ (0 <= Transform.removal_percentage s <= 100)%Q
       | Py.Raise e =>
           chain = Py.Raise e
           /\ ((e = Py.TypeError /\ dated = []
                /\ Pipeline.owners_dtype w = Transform.str_dtype)
               \/ (e = Py.OverflowError
                   /\ exists x,
                        In x dated
                        /\ Py.float_overflow
                           <= owners_midpoint (owners (raw x))))
       end.
Proof.
  split.
  - intros Hdt. rewrite run_transform_cases.
    change (dated_table (Pipeline.dates_reader w) default_transformer [])
      with (@nil GameRecord).
    cbn [metrics_return].
    destruct (Pipeline.owners_dtype w); try reflexivity. contradiction.
  - intros r df chain dated.
    set (out := chain_rows (Pipeline.dates_reader w) (Pipeline.now_year w)
                  default_transformer (r :: df)).
    assert (Hn : (Transform.len (r :: df) =? 0) = false).
    { unfold Transform.len. cbn [List.length]. apply Z.eqb_neq. lia. }
    pose proof (chain_rows_length (Pipeline.dates_reader w)
                  (Pipeline.now_year w) default_transformer (r :: df)) as Hl.
    fold out in Hl.
    assert (Hlen : 0 <= Transform.len out <= Transform.len (r :: df)).
    { unfold Transform.len. lia. }
    rewrite run_transform_cases. fold dated. fold out. rewrite Hn.
    unfold chain. rewrite transform_chain_cases. fold dated. fold out.
    destruct (metrics_return (Pipeline.owners_dtype w) dated) eqn:Hret.
    + split; [reflexivity|]. split; [reflexivity|].
      eexists. split.
      { unfold Transform.get_transformation_summary. rewrite Hn.
        reflexivity. }
      cbn [Transform.records_removed Transform.removal_percentage].
      split; [reflexivity|]. split; [lia|].
      apply removal_percentage_range; [|exact Hlen].
      apply Z.eqb_neq in Hn. lia.
    + split; [reflexivity|].
      apply metrics_return_false in Hret as [[E1 E2]|(x & Hx & Hf)].
      * left. rewrite E1. auto.
      * right. destruct dated; [contradiction|]. eauto.
Qed.

(** X13.  The process of [run_pipeline.py] ends with status 0 or 1, and
    with 1 exactly when the body of [run_pipeline] raises. *)
Theorem exit_status_one_iff_raise w a :
  (snd (Pipeline.main w a) = 0 \/ snd (Pipeline.main w a) = 1)
  /\ (snd (Pipeline.main w a) = 1 <->
      exists e, snd (Pipeline.pipeline_body w a Pipeline.initial) = Py.Raise e).
Proof. apply main_exit_status. Qed.

Lemma main_zero_cases w a :
  snd (Pipeline.main w a) = 0 <-> run_succeeds w a.
Proof.
  unfold Pipeline.main, Pipeline.run_pipeline, Pipeline.pipeline_body,
    run_succeeds, Pipeline.run_load.
  destruct a as [se st sl]. cbn [Pipeline.skip_extract Pipeline.skip_transform
                                 Pipeline.skip_load].
  destruct se, st, sl; cbn [negb];
    destruct (Pipeline.run_extract w) as [df|e]; cbn -[Z.eqb];
    try rewrite !run_transform_cases; cbv zeta;
    try (destruct (metrics_return (Pipeline.owners_dtype w)
           (dated_table (Pipeline.dates_reader w) default_transformer df))
           eqn:Em);
    try (destruct (Transform.len df =? 0) eqn:E;
         [apply len_zero in E | apply Z.eqb_neq in E]);
    repeat match goal with
    | |- context [if Pipeline.save_to_csv w ?d then _ else _] =>
        destruct (Pipeline.save_to_csv w d)
    | |- context [if Pipeline.save_to_excel w ?d then _ else _] =>
        destruct (Pipeline.save_to_excel w d)
    | |- context [if Pipeline.save_to_database w ?d then _ else _] =>
        destruct (Pipeline.save_to_database w d)
    end;
    cbn;
    (split;
     [ intros H; try discriminate H; try reflexivity;
       try (eexists; split; [reflexivity|]); try (eexists; reflexivity);
       try (split; [intros ->; apply E; reflexivity | exact Em])
     | intros H; try reflexivity; try discriminate H;
       try (destruct H as (x & Hx & Hne & Hm); try discriminate Hx;
            injection Hx as <-; try contradiction; congruence);
       try (destruct H as (x & Hx); discriminate Hx) ]).
Qed.

(** X14.  When a run ends with status 0, told from the flags.  If the
    transformation is not skipped, the run succeeds exactly when the
    extraction returns a table that is not empty and on which the metrics
    return: the year filter leaves a row when the [owners] column is of
    dtype [str], and no number of owners is too large for a float.  This is
    so whether or not the extraction was skipped: it is then run all the
    same.  If only the transformation is skipped, the run succeeds exactly
    when the extraction returns.  If extraction and transformation are both
    skipped, it succeeds only when the load is skipped too.  What the three
    writers answer has no part in it. *)
Theorem exit_status_zero_iff w a :
  snd (Pipeline.main w a) = 0 <-> run_succeeds w a.
Proof. apply main_zero_cases. Qed.

(** A file of games that were all released before 2010: the year filter
    leaves the metrics no row, and the run ends with status 1. *)
Example old_games_exit_one :
  let w := {| Pipeline.extract_csv_data :=
                Py.Ok [game 70 "Half-Life" "1998-11-08" 90 10 120 "Valve"];
              Pipeline.owners_dtype := Transform.str_dtype;
              Pipeline.get_data_info := fun _ => Py.Ok tt;
              Pipeline.save_to_csv := fun _ => true;
              Pipeline.save_to_excel := fun _ => true;
              Pipeline.save_to_database := fun _ => true;
              Pipeline.dates_reader := iso_reader;
              Pipeline.now_year := 2024 |} in
  snd (Pipeline.pipeline_body w run_all Pipeline.initial)
    = Py.Raise Py.TypeError
  /\ snd (Pipeline.main w run_all) = 1.
Proof. split; reflexivity. Qed.

(** ** The dashboard: filters applied in turn, the first view, the general
    statistics *)

(** X15.  Filtering the result of a filtering keeps the rows that pass both
    sets of filters: applying the same filters twice changes nothing more,
    the order in which two sets of filters are applied does not matter, and
    filtering never adds a row. *)
Theorem apply_filters_compose df f g :
  Dashboard.apply_filters (Dashboard.apply_filters df f) g
  = filter (fun r => passes_filters f r && passes_filters g r) df
  /\ Dashboard.apply_filters (Dashboard.apply_filters df f) f
     = Dashboard.apply_filters df f
  /\ Dashboard.apply_filters (Dashboard.apply_filters df f) g
     = Dashboard.apply_filters (Dashboard.apply_filters df g) f
  /\ (List.length (Dashboard.apply_filters df f) <= List.length df)%nat.
Proof.
  rewrite !apply_filters_filter, !filter_filter. repeat apply conj.
  - reflexivity.
  - apply filter_ext. intros r. destruct (passes_filters f r); reflexivity.
  - apply filter_ext. intros r. apply andb_comm.
  - apply filter_length_le.
Qed.

Section SidebarLemmas.

Import Py DashboardViews.

Lemma series_min_lower_bound col :
  match series_min col with
  | Some lo => forall y, In (Some y) col -> lo <= y
  | None => forall c, In c col -> c = None
  end.
Proof.
  induction col as [|c col IH]; [intros c []|].
  cbn [series_min]. destruct c as [v|].
  - destruct (series_min col) as [lo|].
    + intros y [[= <-]|H]; [lia|]. specialize (IH y H). lia.
    + intros y [[= <-]|H]; [lia|]. specialize (IH _ H). discriminate.
  - destruct (series_min col) as [lo|].
    + intros y [H|H]; [discriminate | auto].
    + intros c [<-|H]; auto.
Qed.

Lemma series_max_upper_bound col :
  match Pd.max col with
  | Some hi => forall y, In (Some y) col -> y <= hi
  | None => forall c, In c col -> c = None
  end.
Proof.
  induction col as [|c col IH]; [intros c []|].
  cbn [Pd.max]. destruct c as [v|].
  - destruct (Pd.max col) as [hi|].
    + intros y [[= <-]|H]; [lia|]. specialize (IH y H). lia.
    + intros y [[= <-]|H]; [lia|]. specialize (IH _ H). discriminate.
  - destruct (Pd.max col) as [hi|].
    + intros y [H|H]; [discriminate | auto].
    + intros c [<-|H]; auto.
Qed.

End SidebarLemmas.

(** X16.  [create_sidebar_filters] before the user has touched a widget.
    On a table without any release year, reading the range of years raises
    [ValueError]; on a table whose rows that have a year all have the same
    one, Streamlit refuses the slider.  Otherwise the sidebar starts from
    the whole range of years of the table, from its first year to a later
    last year, every genre, every price category, the three platforms and a
    minimum rating of 0, and [apply_filters] with these values keeps
    exactly the rows that have a release year, support at least one of the
    three platforms and have a positive percentage that is not negative: a
    row without year or without platform is hidden from the start. *)
Theorem first_view_of_the_dashboard df :
  match DashboardViews.initial_filters df with
  | Py.Ok f =>
      Dashboard.filter_platforms f = ["Windows"; "Mac"; "Linux"]
      /\ Dashboard.filter_genre f = "Todos"
      /\ Dashboard.filter_price_category f = "Todas"
      /\ Dashboard.filter_min_rating f = 0
      /\ fst (Dashboard.filter_year_range f)
         < snd (Dashboard.filter_year_range f)
      /\ (exists r, In r df
                    /\ release_year (dates r)
                       = Some (fst (Dashboard.filter_year_range f)))
      /\ (exists r, In r df
                    /\ release_year (dates r)
                       = Some (snd (Dashboard.filter_year_range f)))
      /\ Dashboard.apply_filters df f = filter shown_at_start df
  | Py.Raise e =>
      (e = Py.ValueError
       /\ forall r, In r df -> release_year (dates r) = None)
      \/ (e = Py.StreamlitAPIException
          /\ exists y,
               (exists r, In r df /\ release_year (dates r) = Some y)
               /\ forall r, In r df ->
                            release_year (dates r) = None
                            \/ release_year (dates r) = Some y)
  end.
Proof.
  unfold DashboardViews.initial_filters.
  set (col := map (fun r => release_year (dates r)) df).
  pose proof (series_min_lower_bound col) as Hmin.
  pose proof (series_max_upper_bound col) as Hmax.
  assert (Hatt : forall lo, DashboardViews.series_min col = Some lo ->
                            In (Some lo) col).
  { clear. induction col as [|c col IH]; [discriminate|].
    cbn [DashboardViews.series_min]. destruct c as [v|].
    - destruct (DashboardViews.series_min col) as [m|].
      + intros lo [= <-]. destruct (Z.min_spec v m) as [[_ ->]|[_ ->]];
          [left; reflexivity | right; apply IH; reflexivity].
      + intros lo [= <-]. left. reflexivity.
    - intros lo H. right. apply IH, H. }
  assert (Hatt' : forall hi, Pd.max col = Some hi -> In (Some hi) col).
  { clear. induction col as [|c col IH]; [discriminate|].
    cbn [Pd.max]. destruct c as [v|].
    - destruct (Pd.max col) as [m|].
      + intros hi [= <-]. destruct (Z.max_spec v m) as [[_ ->]|[_ ->]];
          [right; apply IH; reflexivity | left; reflexivity].
      + intros hi [= <-]. left. reflexivity.
    - intros hi H. right. apply IH, H. }
  destruct (DashboardViews.series_min col) as [lo|].
  - destruct (Pd.max col) as [hi|].
    + cbn [Py.bind DashboardViews.int_cell]. unfold DashboardViews.slider.
      pose proof (Hatt lo eq_refl) as Hlo.
      pose proof (Hatt' hi eq_refl) as Hhi.
      pose proof (Hmax lo Hlo) as Hle.
      destruct (Z.eqb_spec lo hi) as [<-|Hne].
      * right. split; [reflexivity|]. exists lo. split.
        -- apply in_map_iff in Hlo as (r & Hr & Hin). eauto.
        -- intros r Hr.
           assert (Hin : In (release_year (dates r)) col)
             by (apply in_map_iff; eauto).
           destruct (release_year (dates r)) as [y|]; [right | left; auto].
           pose proof (Hmin y Hin). pose proof (Hmax y Hin).
           f_equal. lia.
      * cbn [Py.bind].
        cbn [Dashboard.filter_platforms Dashboard.filter_genre
             Dashboard.filter_price_category Dashboard.filter_min_rating
             Dashboard.filter_year_range fst snd].
        split; [reflexivity|]. split; [reflexivity|]. split; [reflexivity|].
        split; [reflexivity|]. split; [lia|]. split; [|split].
        -- apply in_map_iff in Hlo as (r & Hr & Hin). eauto.
        -- apply in_map_iff in Hhi as (r & Hr & Hin). eauto.
        -- rewrite apply_filters_filter. apply filter_ext_in. intros r Hr.
           unfold passes_filters, shown_at_start, year_in_range,
             genre_matches, price_category_matches, platform_matches,
             rating_at_least.
           cbn [Dashboard.filter_platforms Dashboard.filter_genre
                Dashboard.filter_price_category Dashboard.filter_min_rating
                Dashboard.filter_year_range fst snd].
           rewrite supports_any_selected.
           change (platform_filter_active ["Windows"; "Mac"; "Linux"])
             with true.
           change (Dashboard.In_list "Windows" ["Windows"; "Mac"; "Linux"])
             with true.
           change (Dashboard.In_list "Mac" ["Windows"; "Mac"; "Linux"])
             with true.
           change (Dashboard.In_list "Linux" ["Windows"; "Mac"; "Linux"])
             with true.
           change (String.eqb "Todos" "Todos") with true.
           change (String.eqb "Todas" "Todas") with true.
           change (inject_Z 0) with 0%Q.
           cbn [orb andb]. rewrite !andb_true_r.
           assert (Hy : ge_cell (release_year (dates r)) lo
                        && le_cell (release_year (dates r)) hi
                        = Transform.notna (release_year (dates r))).
           { assert (Hin : In (release_year (dates r)) col)
               by (apply in_map_iff; eauto).
             destruct (release_year (dates r)) as [y|]; [|reflexivity].
             cbn. rewrite (proj2 (Z.leb_le _ _) (Hmin y Hin)),
               (proj2 (Z.leb_le _ _) (Hmax y Hin)). reflexivity. }
           rewrite Hy. reflexivity.
    + specialize (Hatt lo eq_refl). apply Hmax in Hatt. discriminate.
  - cbn. left. split; [reflexivity|]. intros r Hr. apply Hmin.
    apply in_map_iff. eauto.
Qed.

Example first_view_hides_console_game :
  let df :=
    console_game :: chain_rows iso_reader 2024 default_transformer popular_games
  in
  map key df = [70; 10; 20]
  /\ match DashboardViews.initial_filters df with
     | Py.Ok f =>
         Dashboard.filter_year_range f = (2012, 2013)
         /\ map key (Dashboard.apply_filters df f) = [10; 20]
     | Py.Raise _ => False
     end.
Proof. split; [reflexivity|]. cbn. split; reflexivity. Qed.

Example games_of_one_year_stop_the_sidebar :
  DashboardViews.initial_filters [console_game]
  = Py.Raise Py.StreamlitAPIException.
Proof. reflexivity. Qed.

Section StatsLemmas.

Import Py DashboardViews.

Lemma count_true_range col df :
  0 <= count_true col df <= Transform.len df.
Proof.
  unfold count_true, Transform.len. rewrite loc_map.
  pose proof (filter_length_le (fun r => Bool.eqb (col r) true) df). lia.
Qed.

Lemma rint_range lo hi x :
  (inject_Z lo <= x <= inject_Z hi)%Q -> lo <= rint x <= hi.
Proof.
  intros [Hlo Hhi]. unfold rint.
  pose proof (Qfloor_le x) as Hf. pose proof (Qlt_floor x) as Hf1.
  assert (Hlf : lo <= Qfloor x).
  { rewrite <- (Qfloor_Z lo). apply Qfloor_resp_le, Hlo. }
  assert (Hfh : Qfloor x <= hi).
  { rewrite <- (Qfloor_Z hi). apply Qfloor_resp_le, Hhi. }
  assert (Hup : (1 # 2 <= x - inject_Z (Qfloor x))%Q -> Qfloor x + 1 <= hi).
  { intros Hhalf. destruct (Z.eq_dec (Qfloor x) hi) as [E|]; [|lia].
    exfalso. rewrite E in Hhalf. Lqa.lra. }
  destruct (x - inject_Z (Qfloor x) ?= 1 # 2)%Q eqn:C.
  - apply Qeq_alt in C.
    destruct (Z.even (Qfloor x)); [lia|].
    split; [lia | apply Hup; Lqa.lra].
  - lia.
  - apply Qgt_alt in C. split; [lia | apply Hup; Lqa.lra].
Qed.

Lemma round1_range x : (0 <= x <= 100)%Q -> (0 <= round1 x <= 100)%Q.
Proof.
  intros H. unfold round1.
  assert (Hr : 0 <= rint (x * 10) <= 1000).
  { apply rint_range. change (inject_Z 0) with 0%Q.
    change (inject_Z 1000) with 1000%Q. split; Lqa.lra. }
  destruct Hr as [H0 H1]. rewrite Zle_Qle in H0, H1.
  change (inject_Z 0) with 0%Q in H0. change (inject_Z 1000) with 1000%Q in H1.
  set (q := inject_Z (rint (x * 10))) in *.
  unfold Qdiv. split.
  - apply Qle_shift_div_l; [reflexivity | Lqa.lra].
  - apply Qle_shift_div_r; [reflexivity | Lqa.lra].
Qed.

Lemma percentage_range c n :
  0 < n -> 0 <= c <= n -> (0 <= inject_Z c / inject_Z n * 100 <= 100)%Q.
Proof.
  intros Hn Hc. destruct n as [|n|n]; try lia.
  unfold Qle, Qdiv, Qmult, Qinv, inject_Z. cbn.
  rewrite ?Pos.mul_1_r, ?Z.mul_1_r. split; lia.
Qed.

End StatsLemmas.

(** X17.  On an empty table, as after filters that no row passes, the
    general statistics raise [ZeroDivisionError]: the first percentage
    divides a count by the number of rows.  On any other table each of the
    four counts lies between 0 and the number of rows, and the five
    percentages, rounded to one decimal, lie between 0 and 100. *)
Theorem create_detailed_stats_empty_table :
  DashboardViews.create_detailed_stats [] = Py.Raise Py.ZeroDivisionError
  /\ forall r df,
       exists s,
         DashboardViews.create_detailed_stats (r :: df) = Py.Ok s
         /\ hd 0 (DashboardViews.Valor s) = Transform.len (r :: df)
         /\ List.length (DashboardViews.Valor s) = 5%nat
         /\ List.length (DashboardViews.Percentual s) = 5%nat
         /\ Forall (fun v => 0 <= v <= Transform.len (r :: df))
                   (DashboardViews.Valor s)
         /\ Forall (fun p => 0 <= p <= 100)%Q (DashboardViews.Percentual s).
Proof.
  split; [reflexivity|]. intros r df.
  unfold DashboardViews.create_detailed_stats, DashboardViews.true_div.
  set (n := Transform.len (r :: df)).
  assert (Hn : 0 < n) by (unfold n, Transform.len; cbn [List.length]; lia).
  destruct (Z.eqb_spec n 0) as [E|_]; [lia|].
  cbn [Py.bind]. eexists. split; [reflexivity|].
  cbn [DashboardViews.Valor DashboardViews.Percentual hd List.length map].
  repeat apply conj; try reflexivity.
  - repeat constructor; try lia; apply count_true_range.
  - repeat constructor;
      try (apply round1_range; apply percentage_range;
           [exact Hn | apply count_true_range]);
      apply round1_range; split; Lqa.lra.
Qed.

(** ** extract_steam_api_data *)

Section ApiLemmas.

Import Py Extract.

Variable get : nat -> Z -> result response.

Lemma fetch_one_answered d tr app_id :
  fetch_one get (d, tr) app_id =
  (match answered get (List.length tr) app_id with
   | Some data => dict_set d app_id data
   | None => d
   end, (tr ++ [app_id])%list).
Proof.
  unfold fetch_one, answered.
  destruct (get (List.length tr) app_id) as [[code [data|e]]|e]; cbn [bind];
    try reflexivity; destruct (code =? 200); reflexivity.
Qed.

Lemma dict_get_set d k v k' :
  dict_get (dict_set d k v) k' = if k =? k' then Some v else dict_get d k'.
Proof.
  induction d as [|[k0 v0] d IH]; cbn [dict_set dict_get].
  - destruct (k =? k'); reflexivity.
  - destruct (Z.eqb_spec k0 k) as [->|Hne]; cbn [dict_get].
    + destruct (k =? k'); reflexivity.
    + rewrite IH. destruct (Z.eqb_spec k0 k') as [->|_]; [|reflexivity].
      destruct (Z.eqb_spec k k') as [->|_]; [contradiction | reflexivity].
Qed.

Lemma dict_set_length d k v :
  (List.length (dict_set d k v) <= S (List.length d))%nat.
Proof.
  induction d as [|[k0 v0] d IH]; cbn [dict_set List.length]; [lia|].
  destruct (k0 =? k); cbn [List.length]; lia.
Qed.

Lemma fetch_all : forall ids d tr d' tr',
  fold_left (fetch_one get) ids (d, tr) = (d', tr') ->
  tr' = (tr ++ ids)%list
  /\ (List.length d' <= List.length d + List.length ids)%nat
  /\ forall k, dict_get d' k
               = last_answer get (List.length tr) ids k (dict_get d k).
Proof.
  induction ids as [|id ids IH]; intros d tr d' tr' E.
  - cbn in E. injection E as <- <-. rewrite app_nil_r.
    cbn [List.length last_answer]. repeat split. lia.
  - cbn [fold_left] in E. rewrite fetch_one_answered in E.
    apply IH in E. destruct E as (Ht & Hl & Hg). repeat split.
    + rewrite Ht, <- app_assoc. reflexivity.
    + cbn [List.length].
      destruct (answered get (List.length tr) id);
        [pose proof (dict_set_length d id s) | ]; lia.
    + intros k. rewrite Hg. cbn [last_answer].
      rewrite length_app. cbn [List.length]. rewrite Nat.add_1_r.
      f_equal.
      destruct (answered get (List.length tr) id) as [data|].
      * rewrite dict_get_set. reflexivity.
      * destruct (id =? k); reflexivity.
Qed.

Lemma last_answer_spec : forall ids n k entry data,
  last_answer get n ids k entry = Some data <->
  (exists i, nth_error ids i = Some k
             /\ answered get (n + i) k = Some data
             /\ forall j, (i < j)%nat -> nth_error ids j = Some k ->
                          answered get (n + j) k = None)
  \/ (entry = Some data
      /\ forall j, nth_error ids j = Some k ->
                   answered get (n + j) k = None).
Proof.
  induction ids as [|id ids IH]; intros n k entry data.
  - cbn [last_answer]. split.
    + intros ->. right. split; [reflexivity|].
      intros [|j]; discriminate.
    + intros [(i & Hi & _) | (-> & _)]; [|reflexivity].
      destruct i; discriminate.
  - cbn [last_answer]. rewrite IH. split.
    + intros [(i & Hi & Ha & Hlast) | (He & Hnone)].
      * left. exists (S i). rewrite Nat.add_succ_r. repeat split; auto.
        intros [|j] Hj Hk; [lia|]. rewrite Nat.add_succ_r.
        apply Hlast; [lia | exact Hk].
      * assert (Hnone' : forall j, (0 < j)%nat ->
                  nth_error (id :: ids) j = Some k ->
                  answered get (n + j) k = None).
        { intros [|j] Hj Hk; [lia|]. rewrite Nat.add_succ_r.
          apply Hnone. exact Hk. }
        destruct (Z.eqb_spec id k) as [->|Hne].
        -- destruct (answered get n k) as [a|] eqn:Ea.
           ++ left. exists 0%nat. rewrite Nat.add_0_r.
              repeat split; auto. rewrite Ea. exact He.
           ++ right. split; [exact He|].
              intros [|j] Hk.
              ** rewrite Nat.add_0_r. exact Ea.
              ** apply Hnone'; [lia | exact Hk].
        -- right. split; [exact He|].
           intros [|j] Hk.
           ++ cbn in Hk. congruence.
           ++ apply Hnone'; [lia | exact Hk].
    + intros [(i & Hi & Ha & Hlast) | (He & Hnone)].
      * destruct i as [|i].
        -- right. cbn in Hi. injection Hi as ->.
           rewrite Nat.add_0_r in Ha. rewrite Z.eqb_refl, Ha.
           split; [reflexivity|].
           intros j Hk. specialize (Hlast (S j)).
           rewrite Nat.add_succ_r in Hlast. apply Hlast; [lia | exact Hk].
        -- left. exists i. rewrite Nat.add_succ_r in Ha.
           repeat split; auto.
           intros j Hj Hk. specialize (Hlast (S j)).
           rewrite Nat.add_succ_r in Hlast. apply Hlast; [lia | exact Hk].
      * right. split.
        -- destruct (Z.eqb_spec id k) as [->|Hne]; [|exact He].
           specialize (Hnone 0%nat eq_refl). rewrite Nat.add_0_r in Hnone.
           rewrite Hnone. exact He.
        -- intros j Hk. specialize (Hnone (S j)).
           rewrite Nat.add_succ_r in Hnone. apply Hnone. exact Hk.
Qed.

Lemma nth_error_first_ten (l : list Z) i k :
  nth_error (firstn 10 l) i = Some k <->
  (i < 10)%nat /\ nth_error l i = Some k.
Proof.
  split.
  - intros H.
    assert (Hi : (i < 10)%nat).
    { assert (Hl : (i < List.length (firstn 10 l))%nat)
        by (apply nth_error_Some; congruence).
      pose proof (firstn_le_length 10 l). lia. }
    split; [exact Hi|].
    rewrite <- (firstn_skipn 10 l) at 1.
    rewrite nth_error_app1; [exact H|].
    apply nth_error_Some. congruence.
  - intros (Hi & H).
    rewrite <- (firstn_skipn 10 l) in H.
    rewrite nth_error_app1 in H; [exact H|].
    assert (Hl : (i < List.length l)%nat)
      by (apply nth_error_Some; rewrite <- (firstn_skipn 10 l); congruence).
    rewrite length_firstn. lia.
Qed.

End ApiLemmas.

(** X18.  [extract_steam_api_data] never raises.  Without an API key it
    requests nothing and returns an empty dictionary.  With a key it
    requests the first ten app ids, each in its turn, whatever the earlier
    requests met; the dictionary it returns has at most ten entries and
    holds, for an app id, the body of the last of these requests for the id
    that returned with status 200 and a body that decodes: a later request
    that fails does not remove the entry, and an id with no such request
    has none. *)
Theorem extract_steam_api_data_batch key get app_ids :
  let '(api_data, requested) :=
    Extract.extract_steam_api_data key get app_ids in
  requested = (if String.eqb key "" then [] else firstn 10 app_ids)
  /\ (List.length api_data <= 10)%nat
  /\ forall k data,
       Extract.dict_get api_data k = Some data <->
       key <> ""
       /\ exists i,
            (i < 10)%nat
            /\ nth_error app_ids i = Some k
            /\ answered get i k = Some data
            /\ forall j, (i < j < 10)%nat -> nth_error app_ids j = Some k ->
                         answered get j k = None.
Proof.
  unfold Extract.extract_steam_api_data.
  destruct (String.eqb_spec key "") as [->|Hk].
  - cbv beta iota. repeat apply conj; [reflexivity | cbn; lia |].
    intros k data. cbn [Extract.dict_get]. split; [discriminate|].
    intros (H & _). contradiction.
  - destruct (fold_left (Extract.fetch_one get) (firstn 10 app_ids) ([], []))
      as [d tr] eqn:E.
    apply fetch_all in E. destruct E as (Ht & Hl & Hg).
    split; [exact Ht|]. split.
    + cbn [List.length] in Hl.
      pose proof (firstn_le_length 10 app_ids). lia.
    + intros k data. rewrite Hg. cbn [Extract.dict_get List.length].
      rewrite last_answer_spec. split.
      * intros [(i & Hi & Ha & Hlast) | (He & _)]; [|discriminate].
        apply nth_error_first_ten in Hi. destruct Hi as (Hi & Hn).
        split; [exact Hk|]. exists i. repeat split; auto.
        intros j Hj Hjk. apply (Hlast j); [lia|].
        apply nth_error_first_ten. split; [lia | exact Hjk].
      * intros (_ & i & Hi & Hn & Ha & Hlast). left. exists i.
        split; [apply nth_error_first_ten; auto|].
        split; [exact Ha|].
        intros j Hj Hjk. apply nth_error_first_ten in Hjk.
        destruct Hjk as (Hj10 & Hjk). apply Hlast; [lia | exact Hjk].
Qed.

(** ** run_project.py: the menu *)

(** X19.  The choices of the menu that launch the pipeline.  Choice 5, to
    run the load alone, always reports a failure: the pipeline is launched
    with extraction and transformation skipped, has no data to load and
    ends with status 1.  Choice 4, to run the transformation alone,
    succeeds exactly when choice 1, the whole pipeline, does: the
    extraction is run all the same.  Choice 1 succeeds exactly when the
    extraction returns a table that is not empty and on which the metrics
    return.  Choice 3, the extraction alone, succeeds exactly when the
    extraction returns.  No other choice launches the pipeline. *)
Theorem menu_choices w :
  RunProject.run_choice w "5" = Some false
  /\ RunProject.run_choice w "4" = RunProject.run_choice w "1"
  /\ (RunProject.run_choice w "1" = Some true <->
      exists df,
        Pipeline.run_extract w = Py.Ok df
        /\ df <> []
        /\ metrics_return (Pipeline.owners_dtype w)
             (dated_table (Pipeline.dates_reader w) default_transformer df)
           = true)
  /\ (RunProject.run_choice w "3" = Some true <->
      exists df, Pipeline.run_extract w = Py.Ok df)
  /\ (forall choice,
        choice <> "1" -> choice <> "3" -> choice <> "4" -> choice <> "5" ->
        RunProject.run_choice w choice = None).
Proof.
  assert (H : forall a,
            RunProject.run_command (snd (Pipeline.main w a)) = true
            <-> run_succeeds w a).
  { intros a. unfold RunProject.run_command.
    rewrite Z.eqb_eq. apply main_zero_cases. }
  assert (Hb : forall a b,
            (run_succeeds w a <-> run_succeeds w b) ->
            RunProject.run_command (snd (Pipeline.main w a))
            = RunProject.run_command (snd (Pipeline.main w b))).
  { intros a b Hab. pose proof (H a) as Ha. pose proof (H b) as Hb'.
    destruct (RunProject.run_command (snd (Pipeline.main w a))),
             (RunProject.run_command (snd (Pipeline.main w b)));
      try reflexivity; exfalso.
    - assert (false = true) by (apply Hb', Hab, Ha; reflexivity).
      discriminate.
    - assert (false = true) by (apply Ha, Hab, Hb'; reflexivity).
      discriminate. }
  split; [|split; [|split; [|split]]].
  - unfold RunProject.run_choice. cbn [RunProject.pipeline_options String.eqb
      Ascii.eqb Bool.eqb option_map].
    destruct (RunProject.run_command _) eqn:E; [|reflexivity].
    apply (proj1 (H _)) in E. cbn in E. discriminate E.
  - unfold RunProject.run_choice. cbn [RunProject.pipeline_options String.eqb
      Ascii.eqb Bool.eqb option_map].
    f_equal. apply Hb. reflexivity.
  - unfold RunProject.run_choice. cbn [RunProject.pipeline_options String.eqb
      Ascii.eqb Bool.eqb option_map].
    split.
    + intros [= E]. apply H in E. exact E.
    + intros E. f_equal. apply H. exact E.
  - unfold RunProject.run_choice. cbn [RunProject.pipeline_options String.eqb
      Ascii.eqb Bool.eqb option_map].
    split.
    + intros [= E]. apply H in E. exact E.
    + intros E. f_equal. apply H. exact E.
  - intros choice H1 H3 H4 H5. unfold RunProject.run_choice,
      RunProject.pipeline_options.
    apply String.eqb_neq in H1, H3, H4, H5. rewrite H1, H3, H4, H5.
    reflexivity.
Qed.

(** ** _parse_owners_range: the other shapes of a cell *)

Section OwnersShapes.

Import Py Transform.

Lemma count_char_lstrip c s :
  isspace c = false -> count_char c (lstrip s) = count_char c s.
Proof.
  intros Hc. induction s as [|a s IH]; [reflexivity|].
  cbn [lstrip]. destruct (isspace a) eqn:Ea; [|reflexivity].
  rewrite IH. cbn [count_char].
  destruct (Ascii.eqb_spec a c) as [->|_]; [congruence | reflexivity].
Qed.

Lemma count_char_rstrip c s :
  isspace c = false -> count_char c (rstrip s) = count_char c s.
Proof.
  intros Hc. induction s as [|a s IH]; [reflexivity|].
  cbn [rstrip count_char]. rewrite <- IH.
  destruct (rstrip s) as [|b r].
  - destruct (isspace a) eqn:Ea.
    + destruct (Ascii.eqb_spec a c) as [->|_]; [congruence | reflexivity].
    + reflexivity.
  - reflexivity.
Qed.

Lemma count_char_strip c s :
  isspace c = false -> count_char c (strip s) = count_char c s.
Proof.
  intros Hc. unfold strip.
  rewrite count_char_rstrip, count_char_lstrip by exact Hc. reflexivity.
Qed.

Lemma count_char_zero c s :
  count_char c s = 0%nat <-> all_chars (is_not c) s = true.
Proof.
  induction s as [|a s IH]; [split; reflexivity|].
  cbn [count_char all_chars]. unfold is_not at 1.
  destruct (Ascii.eqb a c); cbn [negb andb].
  - split; [lia | discriminate].
  - exact IH.
Qed.

Lemma parse_owners_body_many_hyphens s :
  (2 <= count_char "-" s)%nat -> parse_owners_body s = Raise ValueError.
Proof.
  intros H. unfold parse_owners_body.
  rewrite <- (count_char_strip "-" s) in H by reflexivity.
  pose proof (split_length "-" (strip s)) as Hl.
  destruct (contains "-" (strip s)) eqn:Ec.
  - destruct (split "-" (strip s)) as [|a [|b [|c l]]]; cbn in Hl;
      try reflexivity; lia.
  - rewrite contains_char in Ec. apply negb_false_iff in Ec.
    apply count_char_zero in Ec. lia.
Qed.

Lemma rstrip_keeps_first c s :
  isspace c = false -> exists r, rstrip (String c s) = String c r.
Proof.
  intros Hc. cbn [rstrip]. destruct (rstrip s) as [|b r].
  - rewrite Hc. eexists. reflexivity.
  - eexists. reflexivity.
Qed.

Lemma int_empty : int "" = Raise ValueError.
Proof. reflexivity. Qed.

Lemma parse_owners_body_leading_hyphen s :
  parse_owners_body (String "-" s) = Raise ValueError.
Proof.
  unfold parse_owners_body, strip. cbn [lstrip].
  change (isspace "-") with false. cbv iota.
  destruct (rstrip_keeps_first "-" s eq_refl) as (r & ->).
  rewrite contains_char. cbn [all_chars]. unfold is_not at 1.
  change (Ascii.eqb "-" "-") with true.
  cbn [andb negb split]. change (Ascii.eqb "-" "-") with true. cbv iota.
  destruct (split "-" r) as [|b [|c l]]; try reflexivity.
Qed.

End OwnersShapes.

(** X20.  The shapes of an [owners] cell other than a range.  A number
    written alone in decimal is returned as it is when it has at most 4300
    digits, the most that [int] converts, and gives 0 when it has more.  A
    text that holds two hyphens or more gives 0, since it does not split
    into two parts; and a text that starts with a hyphen gives 0 as well,
    so that a number written with a minus sign is not read as a negative
    number. *)
Theorem parse_owners_range_other_shapes :
  (forall n : N,
     Transform._parse_owners_range (Some (decimal n))
     = Py.Ok (if Py.max_str_digits <? number_of_digits n then 0
              else Z.of_N n))
  /\ (forall s,
        (2 <= count_char "-" s)%nat ->
        Transform._parse_owners_range (Some s) = Py.Ok 0)
  /\ (forall s,
        Transform._parse_owners_range (Some (String "-" s)) = Py.Ok 0).
Proof.
  split; [|split].
  - intros n. rewrite parse_owners_range_caught. f_equal.
    unfold Transform.parse_owners_body.
    pose proof (decimal_digits n) as Hd.
    assert (Hs : Py.strip (decimal n) = decimal n).
    { apply strip_no_space.
      eapply all_chars_impl; [apply digit_not_space | exact Hd]. }
    rewrite Hs, contains_char.
    assert (Hh : all_chars (is_not "-") (decimal n) = true).
    { eapply all_chars_impl; [|exact Hd]. intros c Hc.
      unfold is_not. destruct (Ascii.eqb_spec c "-") as [->|_];
        [discriminate Hc | reflexivity]. }
    assert (Hc : all_chars (is_not ",") (decimal n) = true).
    { eapply all_chars_impl; [|exact Hd]. intros c Hc.
      unfold is_not. destruct (Ascii.eqb_spec c ",") as [->|_];
        [discriminate Hc | reflexivity]. }
    rewrite Hh, (remove_char_absent _ _ Hc), int_decimal_cases.
    cbn [negb].
    destruct (Py.max_str_digits <? number_of_digits n); reflexivity.
  - intros s H. rewrite parse_owners_range_caught.
    rewrite (parse_owners_body_many_hyphens s H). reflexivity.
  - intros s. rewrite parse_owners_range_caught.
    rewrite parse_owners_body_leading_hyphen. reflexivity.
Qed.

(** [int] skips a space after the hyphen, and rejects the separator FS
    although [str.strip] counts it as whitespace. *)
Example owners_range_with_inner_whitespace :
  Transform._parse_owners_range (Some "5 - 7") = Py.Ok 6
  /\ Transform._parse_owners_range
       (Some ("5-" ++ String (ascii_of_nat 28) "7")) = Py.Ok 0
  /\ Transform._parse_owners_range
       (Some (String (ascii_of_nat 28) "5-7")) = Py.Ok 6.
Proof. repeat apply conj; vm_compute; reflexivity. Qed.

(** ** transform_dates on a table it has already transformed *)

Section DatesAgain.

Import Transform.

Variable pd : DateReader.

Lemma transform_dates_rows self df r :
  In r (transform_dates pd self df) ->
  exists r1 t, r = assign_date r1 (Some t) /\ min_year self <= ts_year t.
Proof.
  rewrite transform_dates_filter, In_assign_dates.
  intros (i & r0 & c & _ & _ & -> & Hy).
  rewrite year_of_assign_date in Hy. destruct c as [t|]; [|discriminate].
  exists r0, t. split; [reflexivity | apply Z.leb_le, Hy].
Qed.

Lemma transform_dates_dated self df :
  (forall r, In r df -> exists r1 t, r = assign_date r1 (Some t)) ->
  transform_dates pd self df
  = filter (fun r => ge_cell (release_year (dates r)) (min_year self)) df.
Proof.
  intros H. rewrite transform_dates_filter.
  rewrite to_datetime_datetime64.
  2:{ apply forallb_forall. intros c Hc.
      apply in_map_iff in Hc as (r & <- & Hr).
      destruct (H r Hr) as (r1 & t & ->). reflexivity. }
  rewrite map_map, assign_dates_map.
  f_equal. apply map_fixed. intros r Hr. destruct (H r Hr) as (r1 & t & ->).
  destruct r1 as [x1 ? ? ?]. destruct x1. reflexivity.
Qed.

Lemma transform_dates_dtype_dated df :
  (forall r, In r df -> exists t, release_date (raw r) = DateTime t) ->
  transform_dates_dtype pd df = int32_dtype.
Proof.
  intros H. unfold transform_dates_dtype.
  rewrite to_datetime_datetime64.
  2:{ apply forallb_forall. intros c Hc.
      apply in_map_iff in Hc as (r & <- & Hr).
      destruct (H r Hr) as (t & ->). reflexivity. }
  unfold dt_accessor_dtype.
  replace (forallb _ _) with true; [reflexivity|].
  symmetry. apply forallb_forall. intros c Hc.
  apply in_map_iff in Hc as (c0 & <- & Hc).
  apply in_map_iff in Hc as (r & <- & Hr).
  destruct (H r Hr) as (t & ->). reflexivity.
Qed.

Lemma dt_accessor_dtype_int32 col :
  dt_accessor_dtype col = int32_dtype <-> Forall (fun c => c <> None) col.
Proof.
  unfold dt_accessor_dtype.
  destruct (forallb _ col) eqn:E.
  - split; [intros _ | reflexivity].
    apply Forall_forall. intros c Hc.
    pose proof (proj1 (forallb_forall _ _) E c Hc) as H.
    destruct c; [discriminate | discriminate H].
  - split; [discriminate|]. intros H. exfalso.
    apply forallb_false_exists in E as (c & Hc & Hn).
    pose proof (proj1 (Forall_forall _ _) H c Hc) as Hne.
    destruct c; [discriminate Hn | contradiction].
Qed.

End DatesAgain.

(** X21.  [transform_dates] on a table it has returned: the dates, already
    converted, are read as they are, and only the year test matters.  With
    the same minimum year the rows come back unchanged; with another
    minimum the stage keeps the rows of that year or later, and with a lower
    one it keeps them all: rows dropped by the first pass do not come back.
    The year, the month and the quarter come out of the second pass as
    int32 columns.  They came out of the first pass as int32 columns exactly
    when every date of its input was converted; when one was not they were
    float64 columns, so the second pass returns the same rows in a table
    that is not the same. *)
Theorem transform_dates_again pd self self' df :
  let once := Transform.transform_dates pd self df in
  Transform.transform_dates pd self once = once
  /\ Transform.transform_dates pd self' once
     = filter (fun r => ge_cell (release_year (dates r))
                          (Transform.min_year self')) once
  /\ (Transform.min_year self' <= Transform.min_year self ->
      Transform.transform_dates pd self' once = once)
  /\ Transform.transform_dates_dtype pd once = Transform.int32_dtype
  /\ (Transform.transform_dates_dtype pd df = Transform.int32_dtype <->
      Forall (fun c => c <> None)
        (Transform.to_datetime pd (map (fun r => release_date (raw r)) df))).
Proof.
  intros once.
  assert (Hd : forall s, Transform.transform_dates pd s once
                 = filter (fun r => ge_cell (release_year (dates r))
                                      (Transform.min_year s)) once).
  { intros s. apply transform_dates_dated. intros r Hr.
    apply transform_dates_rows in Hr as (r1 & t & -> & _). eauto. }
  assert (Hle : forall s, Transform.min_year s <= Transform.min_year self ->
                  Transform.transform_dates pd s once = once).
  { intros s Hs. rewrite Hd. apply filter_true. intros r Hr.
    apply transform_dates_rows in Hr as (r1 & t & -> & Ht).
    rewrite year_of_assign_date. apply Z.leb_le. lia. }
  split; [apply Hle; lia|]. split; [apply Hd|]. split; [apply Hle|].
  split.
  - apply transform_dates_dtype_dated. intros r Hr.
    apply transform_dates_rows in Hr as (r1 & t & -> & _).
    exists t. reflexivity.
  - apply dt_accessor_dtype_int32.
Qed.

Example unread_date_changes_dtype :
  let self := Transform.mkTransformer 2010 0 in
  let df := [game 2 "B" "2010-01-01" 1 1 1 "d"; game 3 "C" "soon" 1 1 1 "d"] in
  let once := Transform.transform_dates iso_reader self df in
  Transform.transform_dates iso_reader self once = once
  /\ Transform.transform_dates_dtype iso_reader df = Transform.float64_dtype
  /\ Transform.transform_dates_dtype iso_reader once = Transform.int32_dtype.
Proof. repeat apply conj; reflexivity. Qed.
